(** * idanalyzer-go-sdk: request assembly and response normalisation

    A shallow embedding of the Go SDK (common.go, core.go, docu_pass.go,
    vault.go in both of its revisions, and the AML client) together with
    the properties of its resource classifier, configuration setters,
    payload builder and response normaliser.

    Go strings are byte strings, modelled by [string] (a list of 8-bit
    [ascii]); [uint] is modelled by [N]; [float32] by [spec_float] in
    binary32 format; a Go map, which is a reference, by a location in a
    store of [gmap]s; a run-time panic by the [Panic] outcome of [run]. *)

From Stdlib Require Import ZArith NArith List String Ascii Strings.Byte Bool Lia.
From Stdlib Require Import Floats.SpecFloat.
From stdpp Require Import gmap strings list fin_maps pretty.

Local Open Scope string_scope.
Local Open Scope list_scope.

(** ** Go run-time outcomes *)

(** A Go call either returns or panics. *)
Inductive run (A : Type) : Type :=
| Done (a : A)
| Panic (reason : string).
Arguments Done {A} a.
Arguments Panic {A} reason.

Global Instance run_ret : MRet run := fun A a => Done a.

Global Instance run_bind : MBind run := fun A B k r =>
  match r with
  | Done a => k a
  | Panic m => Panic m
  end.

(** The message the Go run time attaches to a nil dereference. *)
Definition nil_dereference : string :=
  "runtime error: invalid memory address or nil pointer dereference".

(** The message of an assignment into a nil map. *)
Definition nil_map_assignment : string :=
  "assignment to entry in nil map".

(** Go's [error] values are compared here by their text. *)
Definition error := string.

(** ** Byte-string helpers *)

Definition strlen (s : string) : N := N.of_nat (String.length s).

Definition ascii_N (c : ascii) : N := N_of_ascii c.

Definition between (lo hi : ascii) (c : ascii) : bool :=
  (ascii_N lo <=? ascii_N c)%N && (ascii_N c <=? ascii_N hi)%N.

Definition is_digit (c : ascii) : bool := between "0" "9" c.
Definition is_lower (c : ascii) : bool := between "a" "z" c.
Definition is_upper (c : ascii) : bool := between "A" "Z" c.
Definition is_alpha (c : ascii) : bool := is_lower c || is_upper c.
Definition is_hex (c : ascii) : bool :=
  is_digit c || between "a" "f" c || between "A" "F" c.

Definition string_forallb (p : ascii -> bool) (s : string) : bool :=
  forallb p (list_ascii_of_string s).

Definition string_existsb (p : ascii -> bool) (s : string) : bool :=
  existsb p (list_ascii_of_string s).

Definition has_prefix (p s : string) : bool := String.prefix p s.

(** [strings.ToLower] on ASCII letters. *)
Definition lower_ascii (c : ascii) : ascii :=
  if is_upper c then ascii_of_N (ascii_N c + 32) else c.

Fixpoint ToLower (s : string) : string :=
  match s with
  | EmptyString => EmptyString
  | String c r => String (lower_ascii c) (ToLower r)
  end.

(** Index of the first byte satisfying [p]. *)
Fixpoint index_where (p : ascii -> bool) (s : string) : option nat :=
  match s with
  | EmptyString => None
  | String c r =>
      if p c then Some O
      else match index_where p r with
           | Some i => Some (S i)
           | None => None
           end
  end.

(** Index of the last byte satisfying [p]. *)
Fixpoint last_index_where (p : ascii -> bool) (s : string) : option nat :=
  match s with
  | EmptyString => None
  | String c r =>
      match last_index_where p r with
      | Some i => Some (S i)
      | None => if p c then Some O else None
      end
  end.

Definition is_char (a : ascii) (c : ascii) : bool := Ascii.eqb a c.

Definition take_str (n : nat) (s : string) : string := String.substring 0 n s.
Definition drop_str (n : nat) (s : string) : string :=
  String.substring n (String.length s - n) s.

Definition count_char (a : ascii) (s : string) : nat :=
  List.length (List.filter (is_char a) (list_ascii_of_string s)).

(** ** The file system seen through package os *)

Module os.

(** The error numbers [os.Stat] and [os.ReadFile] can fail with. *)
Inductive Errno :=
| ENOENT | ENOTDIR | EACCES | EINVAL | ENAMETOOLONG | ELOOP | EISDIR | EIO.

(** What a path resolves to: a file with its bytes and whether the
    process may read them, or a directory. *)
Inductive node :=
| File (content : list byte) (readable : bool)
| Dir.

(** A file system answers a path lookup with a node or with the error
    number of the failed lookup. *)
Definition FS := string -> Errno + node.

Record FileInfo := { IsDir : bool }.

Definition has_NUL (name : string) : bool :=
  string_existsb (fun c => (ascii_N c =? 0)%N) name.

(** The system call behind [Stat] and [ReadFile]: the empty name does
    not exist, and a name with a NUL byte is refused with EINVAL
    before the file system is asked. *)
Definition lookup (fs : FS) (name : string) : Errno + node :=
  if String.eqb name EmptyString then inl ENOENT
  else if has_NUL name then inl EINVAL
  else fs name.

(** [os.Stat]: the info is nil exactly when the error is not. *)
Definition Stat (fs : FS) (name : string) : option FileInfo * option Errno :=
  match lookup fs name with
  | inr (File _ _) => (Some {| IsDir := false |}, None)
  | inr Dir => (Some {| IsDir := true |}, None)
  | inl e => (None, Some e)
  end.

(** [os.IsNotExist]: true only for ENOENT; false for a nil error. *)
Definition IsNotExist (err : option Errno) : bool :=
  match err with
  | Some ENOENT => true
  | _ => false
  end.

(** [os.ReadFile]. *)
Definition ReadFile (fs : FS) (name : string) : list byte * option Errno :=
  match lookup fs name with
  | inr (File content true) => (content, None)
  | inr (File _ false) => ([], Some EACCES)
  | inr Dir => ([], Some EISDIR)
  | inl e => ([], Some e)
  end.

End os.

(** ** encoding/base64, standard alphabet with padding *)

Module base64.

Definition encodeStd : string :=
  "ABCDEFGHIJKLMNOPQRSTUVWXYZabcdefghijklmnopqrstuvwxyz0123456789+/".

Definition enc6 (i : N) : ascii :=
  match String.get (N.to_nat i) encodeStd with
  | Some c => c
  | None => "="%char
  end.

Definition pad : ascii := "="%char.

Fixpoint EncodeToString (src : list byte) : string :=
  match src with
  | [] => EmptyString
  | [a] =>
      let a := Byte.to_N a in
      String (enc6 (a / 4)) (String (enc6 (a mod 4 * 16))
        (String pad (String pad EmptyString)))
  | [a; b] =>
      let a := Byte.to_N a in
      let b := Byte.to_N b in
      String (enc6 (a / 4)) (String (enc6 (a mod 4 * 16 + b / 16))
        (String (enc6 (b mod 16 * 4)) (String pad EmptyString)))
  | a :: b :: c :: rest =>
      let a := Byte.to_N a in
      let b := Byte.to_N b in
      let c := Byte.to_N c in
      String (enc6 (a / 4)) (String (enc6 (a mod 4 * 16 + b / 16))
        (String (enc6 (b mod 16 * 4 + c / 64)) (String (enc6 (c mod 64))
           (EncodeToString rest))))
  end.

(** The inverse of [enc6] on the alphabet. *)
Definition dec6 (c : ascii) : option N :=
  match index_where (is_char c) encodeStd with
  | Some i => Some (N.of_nat i)
  | None => None
  end.

Definition byte_of_N (n : N) : byte :=
  match Byte.of_N n with
  | Some b => b
  | None => Byte.x00
  end.

(** [DecodeString] for padded input: quanta of four characters. *)
Fixpoint DecodeString (s : string) : option (list byte) :=
      match s with
      | EmptyString => Some []
      | String c1 (String c2 (String c3 (String c4 rest))) =>
          match dec6 c1, dec6 c2 with
          | Some i1, Some i2 =>
              let b1 := byte_of_N (i1 * 4 + i2 / 16) in
              if Ascii.eqb c3 pad then
                if Ascii.eqb c4 pad then
                  match rest with
                  | EmptyString => Some [b1]
                  | _ => None
                  end
                else None
              else
                match dec6 c3 with
                | Some i3 =>
                    let b2 := byte_of_N (i2 mod 16 * 16 + i3 / 4) in
                    if Ascii.eqb c4 pad then
                      match rest with
                      | EmptyString => Some [b1; b2]
                      | _ => None
                      end
                    else
                      match dec6 c4 with
                      | Some i4 =>
                          let b3 := byte_of_N (i3 mod 4 * 64 + i4) in
                          match DecodeString rest with
                          | Some tl => Some (b1 :: b2 :: b3 :: tl)
                          | None => None
                          end
                      | None => None
                      end
                | None => None
                end
          | _, _ => None
          end
      | _ => None
      end.

End base64.

(** ** net/url: the request-URI parser

    [ParseRequestURI] as package net/url implements it: [parse] with
    [viaRequest = true].  The input is taken to carry no fragment. *)

Module url.

Record Userinfo := { username : string; password : option string }.

Record URL := {
  Scheme : string;
  Opaque : string;
  User : option Userinfo;
  Host : string;
  Path : string;
  ForceQuery : bool;
  RawQuery : string
}.

Inductive encoding :=
| encodePath | encodeHost | encodeZone | encodeUserPassword.

Definition isCTL (c : ascii) : bool :=
  (ascii_N c <? 32)%N || (ascii_N c =? 127)%N.

Definition stringContainsCTLByte (s : string) : bool :=
  string_existsb isCTL s.

Definition in_chars (set : string) (c : ascii) : bool :=
  string_existsb (Ascii.eqb c) set.

(** [getScheme]; [None] is the error "missing protocol scheme". *)
Fixpoint getScheme_loop (i : nat) (rawURL s : string)
  : option (string * string) :=
  match s with
  | EmptyString => Some (EmptyString, rawURL)
  | String c r =>
      if is_alpha c then getScheme_loop (S i) rawURL r
      else if is_digit c || in_chars "+-." c then
        match i with
        | O => Some (EmptyString, rawURL)
        | _ => getScheme_loop (S i) rawURL r
        end
      else if Ascii.eqb c ":" then
        match i with
        | O => None
        | _ => Some (take_str i rawURL, r)
        end
      else Some (EmptyString, rawURL)
  end.

Definition getScheme (rawURL : string) : option (string * string) :=
  getScheme_loop O rawURL rawURL.

Definition unhex (c : ascii) : N :=
  if is_digit c then ascii_N c - ascii_N "0"
  else if between "a" "f" c then ascii_N c - ascii_N "a" + 10
  else if between "A" "F" c then ascii_N c - ascii_N "A" + 10
  else 0.

(** [shouldEscape c encodeHost]. *)
Definition shouldEscape_host (c : ascii) : bool :=
  if is_alpha c || is_digit c then false
  else if in_chars "!$&'()*+,;=:[]<>" c || (ascii_N c =? 34)%N then false
  else if in_chars "-_.~" c then false
  else true.

Definition is_host_mode (mode : encoding) : bool :=
  match mode with
  | encodeHost | encodeZone => true
  | _ => false
  end.

(** [unescape]; [None] is an EscapeError or InvalidHostError. *)
Fixpoint unescape (mode : encoding) (s : string) : option string :=
  match s with
  | EmptyString => Some EmptyString
  | String c r =>
      if Ascii.eqb c "%" then
        match r with
        | String h1 (String h2 r') =>
            if negb (is_hex h1 && is_hex h2) then None
            else
              let is25 := Ascii.eqb h1 "2" && Ascii.eqb h2 "5" in
              let v := (unhex h1 * 16 + unhex h2)%N in
              let refused :=
                match mode with
                | encodeHost => (unhex h1 <? 8)%N && negb is25
                | encodeZone =>
                    negb is25 && negb (v =? 32)%N
                    && shouldEscape_host (ascii_of_N v)
                | _ => false
                end in
              if refused then None
              else match unescape mode r' with
                   | Some t => Some (String (ascii_of_N v) t)
                   | None => None
                   end
        | _ => None
        end
      else if is_host_mode mode && (ascii_N c <? 128)%N
              && shouldEscape_host c then None
      else match unescape mode r with
           | Some t => Some (String c t)
           | None => None
           end
  end.

Definition validOptionalPort (port : string) : bool :=
  match port with
  | EmptyString => true
  | String c r => Ascii.eqb c ":" && string_forallb is_digit r
  end.

Definition validUserinfo (s : string) : bool :=
  string_forallb
    (fun c => is_alpha c || is_digit c || in_chars "-._:~!$&'()*+,;=%@" c) s.

Definition parseHost (host : string) : option string :=
  if has_prefix "[" host then
    match last_index_where (is_char "]") host with
    | None => None
    | Some i =>
        if negb (validOptionalPort (drop_str (S i) host)) then None
        else
          match String.index 0 "%25" (take_str i host) with
          | Some zone =>
              host1 ← unescape encodeHost (take_str zone host);
              host2 ← unescape encodeZone
                        (String.substring zone (i - zone) host);
              host3 ← unescape encodeHost (drop_str i host);
              Some (host1 +:+ host2 +:+ host3)
          | None => unescape encodeHost host
          end
    end
  else
    match last_index_where (is_char ":") host with
    | Some i =>
        if negb (validOptionalPort (drop_str i host)) then None
        else unescape encodeHost host
    | None => unescape encodeHost host
    end.

(** [strings.Cut s sep] for a one-byte separator. *)
Definition Cut (s : string) (sep : ascii) : string * string * bool :=
  match index_where (is_char sep) s with
  | Some i => (take_str i s, drop_str (S i) s, true)
  | None => (s, EmptyString, false)
  end.

Definition parseAuthority (authority : string)
  : option (option Userinfo * string) :=
  match last_index_where (is_char "@") authority with
  | None =>
      host ← parseHost authority;
      Some (None, host)
  | Some i =>
      host ← parseHost (drop_str (S i) authority);
      let userinfo := take_str i authority in
      if negb (validUserinfo userinfo) then None
      else if negb (string_existsb (is_char ":") userinfo) then
        u ← unescape encodeUserPassword userinfo;
        Some (Some {| username := u; password := None |}, host)
      else
        let '(name, pass, _) := Cut userinfo ":" in
        u ← unescape encodeUserPassword name;
        p ← unescape encodeUserPassword pass;
        Some (Some {| username := u; password := Some p |}, host)
  end.

Definition has_suffix_char (c : ascii) (s : string) : bool :=
  match last_index_where (fun _ => true) s with
  | Some i => match String.get i s with
              | Some d => Ascii.eqb c d
              | None => false
              end
  | None => false
  end.

(** [ParseRequestURI rawURL]; [None] stands for a non-nil error. *)
Definition ParseRequestURI (rawURL : string) : option URL :=
  if stringContainsCTLByte rawURL then None
  else if String.eqb rawURL EmptyString then None
  else if String.eqb rawURL "*" then
    Some {| Scheme := EmptyString; Opaque := EmptyString; User := None; Host := EmptyString;
            Path := "*"; ForceQuery := false; RawQuery := EmptyString |}
  else
    '(scheme, rest) ← getScheme rawURL;
    let scheme := ToLower scheme in
    let '(rest, force, query) :=
      if has_suffix_char "?" rest && Nat.eqb (count_char "?" rest) 1
      then (take_str (String.length rest - 1) rest, true, EmptyString)
      else let '(before, after, _) := Cut rest "?" in
           (before, false, after) in
    if negb (has_prefix "/" rest) then
      if negb (String.eqb scheme EmptyString) then
        Some {| Scheme := scheme; Opaque := rest; User := None; Host := EmptyString;
                Path := EmptyString; ForceQuery := force; RawQuery := query |}
      else None
    else
      '(user, host, rest) ←
        (if negb (String.eqb scheme EmptyString) && has_prefix "//" rest then
           let authority := drop_str 2 rest in
           let '(authority, rest) :=
             match index_where (is_char "/") authority with
             | Some i => (take_str i authority, drop_str i authority)
             | None => (authority, EmptyString)
             end in
           '(user, host) ← parseAuthority authority;
           Some (user, host, rest)
         else Some (None, EmptyString, rest));
      path ← unescape encodePath rest;
      Some {| Scheme := scheme; Opaque := EmptyString; User := user; Host := host;
              Path := path; ForceQuery := force; RawQuery := query |}.

End url.

(** ** net: IP addresses and networks *)

Module net.

(** An IP is a byte slice of length 4 or 16; bytes are numbers below 256. *)
Definition IP := list N.

Record IPNet := { NetIP : IP; Mask : list N }.

Definition IPv4len : nat := 4.
Definition IPv6len : nat := 16.
Definition big : N := 16777215.

Definition v4InV6Prefix : list N := [0; 0; 0; 0; 0; 0; 0; 0; 0; 0; 255; 255]%N.

Definition IPv4 (a b c d : N) : IP := v4InV6Prefix ++ [a; b; c; d].

Definition IPv6loopback : IP :=
  [0; 0; 0; 0; 0; 0; 0; 0; 0; 0; 0; 0; 0; 0; 0; 1]%N.

Definition bytes_eqb (x y : list N) : bool := bool_decide (x = y).

(** [dtoi]: decimal prefix, the number of bytes used, and success. *)
Fixpoint dtoi_loop (n : N) (i : nat) (s : string) : N * nat * bool :=
  let finish := match i with
                | O => (0%N, O, false)
                | _ => (n, i, true)
                end in
  match s with
  | EmptyString => finish
  | String c r =>
      if is_digit c then
        let n' := (n * 10 + (ascii_N c - ascii_N "0"))%N in
        if (big <=? n')%N then (big, i, false)
        else dtoi_loop n' (S i) r
      else finish
  end.

Definition dtoi (s : string) : N * nat * bool := dtoi_loop 0 O s.

(** [xtoi]: the same for hexadecimal. *)
Fixpoint xtoi_loop (n : N) (i : nat) (s : string) : N * nat * bool :=
  let finish := match i with
                | O => (0%N, O, false)
                | _ => (n, i, true)
                end in
  match s with
  | EmptyString => finish
  | String c r =>
      if is_hex c then
        let n' := (n * 16 + url.unhex c)%N in
        if (big <=? n')%N then (0%N, i, false)
        else xtoi_loop n' (S i) r
      else finish
  end.

Definition xtoi (s : string) : N * nat * bool := xtoi_loop 0 O s.

Definition first_is (c : ascii) (s : string) : bool :=
  match s with
  | String d _ => Ascii.eqb c d
  | EmptyString => false
  end.

(** The four iterations of the loop of [parseIPv4]. *)
Fixpoint parseIPv4_loop (todo : nat) (i : nat) (s : string) : option (list N) :=
  match todo with
  | O => match s with
         | EmptyString => Some []
         | _ => None
         end
  | S todo' =>
      match s with
      | EmptyString => None
      | String c r =>
          s1 ← match i with
               | O => Some s
               | _ => if Ascii.eqb c "." then Some r else None
               end;
          let '(n, used, ok) := dtoi s1 in
          if negb ok || (255 <? n)%N then None
          else if Nat.ltb 1 used && first_is "0" s1 then None
          else
            rest ← parseIPv4_loop todo' (S i) (drop_str used s1);
            Some (n :: rest)
      end
  end.

Definition parseIPv4 (s : string) : option IP :=
  p ← parseIPv4_loop IPv4len O s;
  match p with
  | [a; b; c; d] => Some (IPv4 a b c d)
  | _ => None
  end.

(** The state of the loop of [parseIPv6]. *)
Record v6state := {
  v6ip : list N;
  v6i : nat;
  v6ellipsis : option nat;
  v6s : string
}.

Inductive v6ctl := V6Fail | V6Break (st : v6state) | V6Continue (st : v6state).

Definition parseIPv6_body (st : v6state) : v6ctl :=
  let s := v6s st in
  let i := v6i st in
  let '(n, c, ok) := xtoi s in
  if negb ok || (65535 <? n)%N then V6Fail
  else if Nat.ltb c (String.length s) && first_is "." (drop_str c s) then
    if negb (bool_decide (is_Some (v6ellipsis st)))
       && negb (Nat.eqb i (IPv6len - IPv4len)) then V6Fail
    else if Nat.ltb IPv6len (i + IPv4len) then V6Fail
    else match parseIPv4 s with
         | None => V6Fail
         | Some ip4 =>
             let ip := <[i := nth 12 ip4 0%N]> (v6ip st) in
             let ip := <[S i := nth 13 ip4 0%N]> ip in
             let ip := <[S (S i) := nth 14 ip4 0%N]> ip in
             let ip := <[S (S (S i)) := nth 15 ip4 0%N]> ip in
             V6Break {| v6ip := ip; v6i := i + IPv4len;
                        v6ellipsis := v6ellipsis st; v6s := EmptyString |}
         end
  else
    let ip := <[i := (n / 256)%N]> (v6ip st) in
    let ip := <[S i := (n mod 256)%N]> ip in
    let i := (i + 2)%nat in
    let s := drop_str c s in
    match s with
    | EmptyString =>
        V6Break {| v6ip := ip; v6i := i; v6ellipsis := v6ellipsis st; v6s := s |}
    | String c0 s' =>
        if negb (Ascii.eqb c0 ":") || Nat.eqb (String.length s) 1 then V6Fail
        else if first_is ":" s' then
          match v6ellipsis st with
          | Some _ => V6Fail
          | None =>
              let s'' := drop_str 1 s' in
              let st' := {| v6ip := ip; v6i := i; v6ellipsis := Some i; v6s := s'' |} in
              match s'' with
              | EmptyString => V6Break st'
              | _ => V6Continue st'
              end
          end
        else V6Continue {| v6ip := ip; v6i := i;
                           v6ellipsis := v6ellipsis st; v6s := s' |}
    end.

(** [for i < IPv6len { ... }]: every round adds at least two to [i]. *)
Fixpoint parseIPv6_loop (fuel : nat) (st : v6state) : option v6state :=
  match fuel with
  | O => Some st
  | S fuel' =>
      if Nat.ltb (v6i st) IPv6len then
        match parseIPv6_body st with
        | V6Fail => None
        | V6Break st' => Some st'
        | V6Continue st' => parseIPv6_loop fuel' st'
        end
      else Some st
  end.

Definition parseIPv6 (s : string) : option IP :=
  let zero := repeat 0%N IPv6len in
  let '(ellipsis, s, only) :=
    if has_prefix "::" s
    then (Some O, drop_str 2 s, Nat.eqb (String.length s) 2)
    else (None, s, false) in
  if only then Some zero
  else
    st ← parseIPv6_loop 9 {| v6ip := zero; v6i := O;
                              v6ellipsis := ellipsis; v6s := s |};
    if negb (Nat.eqb (String.length (v6s st)) 0) then None
    else if Nat.ltb (v6i st) IPv6len then
      match v6ellipsis st with
      | None => None
      | Some e =>
          (* the two shifting loops: open a gap of zeros at the ellipsis *)
          let n := (IPv6len - v6i st)%nat in
          Some (take e (v6ip st) ++ repeat 0%N n
                  ++ take (v6i st - e) (drop e (v6ip st)))
      end
    else match v6ellipsis st with
         | Some _ => None
         | None => Some (v6ip st)
         end.

(** [ParseIP]: the first dot or colon decides the family. *)
Definition ParseIP (s : string) : option IP :=
  match index_where (fun c => Ascii.eqb c "." || Ascii.eqb c ":") s with
  | None => None
  | Some i =>
      if first_is "." (drop_str i s) then parseIPv4 s else parseIPv6 s
  end.

Definition To4 (ip : IP) : option IP :=
  if Nat.eqb (length ip) IPv4len then Some ip
  else if Nat.eqb (length ip) IPv6len
          && forallb (N.eqb 0) (take 10 ip)
          && (nth 10 ip 0 =? 255)%N && (nth 11 ip 0 =? 255)%N
  then Some (drop 12 ip)
  else None.

Definition Equal (ip x : IP) : bool :=
  if Nat.eqb (length ip) (length x) then bytes_eqb ip x
  else if Nat.eqb (length ip) IPv4len && Nat.eqb (length x) IPv6len
  then bytes_eqb (take 12 x) v4InV6Prefix && bytes_eqb ip (drop 12 x)
  else if Nat.eqb (length ip) IPv6len && Nat.eqb (length x) IPv4len
  then bytes_eqb (take 12 ip) v4InV6Prefix && bytes_eqb (drop 12 ip) x
  else false.

Definition at_ (ip : IP) (i : nat) : N := nth i ip 0%N.

Definition IsLoopback (ip : IP) : bool :=
  match To4 ip with
  | Some ip4 => (at_ ip4 0 =? 127)%N
  | None => Equal ip IPv6loopback
  end.

Definition IsLinkLocalUnicast (ip : IP) : bool :=
  match To4 ip with
  | Some ip4 => (at_ ip4 0 =? 169)%N && (at_ ip4 1 =? 254)%N
  | None => Nat.eqb (length ip) IPv6len && (at_ ip 0 =? 254)%N
            && (N.land (at_ ip 1) 192 =? 128)%N
  end.

Definition IsLinkLocalMulticast (ip : IP) : bool :=
  match To4 ip with
  | Some ip4 => (at_ ip4 0 =? 224)%N && (at_ ip4 1 =? 0)%N && (at_ ip4 2 =? 0)%N
  | None => Nat.eqb (length ip) IPv6len && (at_ ip 0 =? 255)%N
            && (N.land (at_ ip 1) 15 =? 2)%N
  end.

(** [IP.IsPrivate], a method net.IP has since Go 1.17. *)
Definition IsPrivate (ip : IP) : bool :=
  match To4 ip with
  | Some ip4 =>
      (at_ ip4 0 =? 10)%N
      || ((at_ ip4 0 =? 172)%N && (N.land (at_ ip4 1) 240 =? 16)%N)
      || ((at_ ip4 0 =? 192)%N && (at_ ip4 1 =? 168)%N)
  | None => Nat.eqb (length ip) IPv6len && (N.land (at_ ip 0) 254 =? 252)%N
  end.

(** [CIDRMask ones bits]. *)
Fixpoint CIDRMask_bytes (len : nat) (n : N) : list N :=
  match len with
  | O => []
  | S len' =>
      if (8 <=? n)%N then 255%N :: CIDRMask_bytes len' (n - 8)
      else (255 - N.shiftr 255 n)%N :: CIDRMask_bytes len' 0
  end.

Definition CIDRMask (ones : N) (bits : nat) : list N :=
  CIDRMask_bytes (bits / 8) ones.

(** [IP.Mask]. *)
Definition IPMask (ip : IP) (mask : list N) : option IP :=
  let mask := if Nat.eqb (length mask) IPv6len && Nat.eqb (length ip) IPv4len
                 && forallb (N.eqb 255) (take 12 mask)
              then drop 12 mask else mask in
  let ip := if Nat.eqb (length mask) IPv4len && Nat.eqb (length ip) IPv6len
               && bytes_eqb (take 12 ip) v4InV6Prefix
            then drop 12 ip else ip in
  if negb (Nat.eqb (length ip) (length mask)) then None
  else Some (zip_with N.land ip mask).

(** [ParseCIDR], the network part of its result. *)
Definition ParseCIDR (s : string) : option IPNet :=
  i ← index_where (is_char "/") s;
  let addr := take_str i s in
  let mask := drop_str (S i) s in
  '(iplen, ip) ← match parseIPv4 addr with
                 | Some ip => Some (IPv4len, ip)
                 | None => ip ← parseIPv6 addr; Some (IPv6len, ip)
                 end;
  let '(n, used, ok) := dtoi mask in
  if negb ok || negb (Nat.eqb used (String.length mask))
     || (N.of_nat (8 * iplen) <? n)%N then None
  else
    let m := CIDRMask n (8 * iplen) in
    masked ← IPMask ip m;
    Some {| NetIP := masked; Mask := m |}.

Definition networkNumberAndMask (n : IPNet) : option (IP * list N) :=
  ip ← match To4 (NetIP n) with
       | Some ip4 => Some ip4
       | None => if Nat.eqb (length (NetIP n)) IPv6len
                 then Some (NetIP n) else None
       end;
  let m := Mask n in
  if Nat.eqb (length m) IPv4len then
    if Nat.eqb (length ip) IPv4len then Some (ip, m) else None
  else if Nat.eqb (length m) IPv6len then
    if Nat.eqb (length ip) IPv4len then Some (ip, drop 12 m) else Some (ip, m)
  else None.

(** [IPNet.Contains]. *)
Definition Contains (n : IPNet) (ip : IP) : bool :=
  match networkNumberAndMask n with
  | None => false
  | Some (nn, m) =>
      let ip := match To4 ip with
                | Some x => x
                | None => ip
                end in
      if negb (Nat.eqb (length ip) (length nn)) then false
      else bytes_eqb (zip_with N.land nn m) (zip_with N.land ip m)
  end.

End net.

(** ** regexp, time and strconv, at the patterns and layouts the SDK uses *)

Module regexp.

Definition nonempty_digits (s : string) : bool :=
  negb (String.eqb s EmptyString) && string_forallb is_digit s.

(** [MatchString `^\d+-\d+$`]. *)
Definition match_age_range (s : string) : bool :=
  match index_where (is_char "-") s with
  | Some i => nonempty_digits (take_str i s)
              && nonempty_digits (drop_str (S i) s)
  | None => false
  end.

(** [MatchString `^[0-9]{4}`]: a prefix match. *)
Definition match_passcode (s : string) : bool :=
  match s with
  | String a (String b (String c (String d _))) =>
      is_digit a && is_digit b && is_digit c && is_digit d
  | _ => false
  end.

End regexp.

Module time.

Definition digit_val (c : ascii) : N := ascii_N c - ascii_N "0".

Definition isLeap (year : N) : bool :=
  (year mod 4 =? 0)%N && (negb (year mod 100 =? 0)%N || (year mod 400 =? 0)%N).

Definition daysIn (month year : N) : N :=
  if (month =? 2)%N then (if isLeap year then 29 else 28)%N
  else if (month =? 4)%N || (month =? 6)%N || (month =? 9)%N || (month =? 11)%N
  then 30%N else 31%N.

(** [Parse "2006/01/02" value] returns a nil error: four year digits,
    a two-digit month in 1..12, a two-digit day of that month, and no
    text after it. *)
Definition Parse_ymd_ok (value : string) : bool :=
  match list_ascii_of_string value with
  | [y1; y2; y3; y4; s1; m1; m2; s2; d1; d2] =>
      forallb is_digit [y1; y2; y3; y4; m1; m2; d1; d2]
      && Ascii.eqb s1 "/" && Ascii.eqb s2 "/"
      && (let year := (digit_val y1 * 1000 + digit_val y2 * 100
                       + digit_val y3 * 10 + digit_val y4)%N in
          let month := (digit_val m1 * 10 + digit_val m2)%N in
          let day := (digit_val d1 * 10 + digit_val d2)%N in
          (1 <=? month)%N && (month <=? 12)%N
          && (1 <=? day)%N && (day <=? daysIn month year)%N)
  | _ => false
  end.

End time.

Module strconv.

Definition hex_value (s : string) : N :=
  fold_left (fun n c => (n * 16 + url.unhex c)%N) (list_ascii_of_string s) 0%N.

(** [ParseUint s 16 0] returns a nil error. *)
Definition ParseUint_hex_ok (s : string) : bool :=
  negb (String.eqb s EmptyString) && string_forallb is_hex s
  && (hex_value s <? 2 ^ 64)%N.

End strconv.

(** ** float32 *)

(** A float32 is a [spec_float] in canonical binary32 form (24-bit
    mantissa), on which [SFcompare] is the numeric comparison. *)
Definition float32 := spec_float.

(** Go's [<=] and [>] on float32 (false on NaN). *)
Definition f32_le (x y : float32) : bool := SFleb x y.
Definition f32_lt (x y : float32) : bool := SFltb x y.
Definition f32_gt (x y : float32) : bool := SFltb y x.

Definition f32_zero : float32 := S754_zero false.
Definition f32_one : float32 := S754_finite false 8388608 (-23).
(** The float32 nearest to 0.4 and to 0.6. *)
Definition f32_0_4 : float32 := S754_finite false 13421773 (-25).
Definition f32_0_6 : float32 := S754_finite false 10066330 (-24).

(** ** common.go *)

(** [fileExists]: only a not-exist error is handled; on any other
    [os.Stat] error [info] is nil and [info.IsDir()] panics. *)
Definition fileExists (fs : os.FS) (filename : string) : run bool :=
  let '(info, err) := os.Stat fs filename in
  if os.IsNotExist err then Done false
  else match info with
       | Some i => Done (negb (os.IsDir i))
       | None => Panic nil_dereference
       end.

(** [base64File]: a read error leaves the named result empty. *)
Definition base64File (fs : os.FS) (filename : string) : string :=
  let '(file, err) := os.ReadFile fs filename in
  match err with
  | None => base64.EncodeToString file
  | Some _ => EmptyString
  end.

(** [endpointFromRegion]. *)
Definition endpointFromRegion (region api : string) : string :=
  if String.eqb region "us" || String.eqb region "US" || String.eqb region EmptyString
  then "https://api.idanalyzer.com/" +:+ api
  else if String.eqb region "eu" || String.eqb region "EU"
  then "https://api-eu.idanalyzer.com/" +:+ api
  else region +:+ "/" +:+ api.

(** [init]: the privileged network ranges, parsed once; a malformed
    entry panics. *)
Definition privateIPCIDRs : list string :=
  [ "127.0.0.0/8"; "10.0.0.0/8"; "172.16.0.0/12"; "192.168.0.0/16";
    "169.254.0.0/16"; "::1/128"; "fe80::/10"; "fc00::/7" ].

Fixpoint init_blocks (cidrs : list string) (acc : list net.IPNet)
  : run (list net.IPNet) :=
  match cidrs with
  | [] => Done acc
  | cidr :: rest =>
      match net.ParseCIDR cidr with
      | None => Panic ("parse error on " +:+ cidr)
      | Some block => init_blocks rest (acc ++ [block])
      end
  end.

Definition privateIPBlocks : list net.IPNet :=
  match init_blocks privateIPCIDRs [] with
  | Done blocks => blocks
  | Panic _ => []
  end.

(** [isPrivateIP].  [hasIsPrivate] says whether the platform's net.IP has
    the method IsPrivate that the reflection looks up. *)
Definition isPrivateIP (hasIsPrivate : bool) (ip : net.IP) : bool :=
  if hasIsPrivate then net.IsPrivate ip
  else if net.IsLoopback ip || net.IsLinkLocalUnicast ip
          || net.IsLinkLocalMulticast ip then true
  else existsb (fun block => net.Contains block ip) privateIPBlocks.

(** ** JSON bodies and the HTTP transport *)

(** A parsed JSON text.  A number keeps its literal; an object keeps its
    members in the order of the text. *)
#[local] Unset Elimination Schemes.
Inductive json :=
| JNull
| JBool (b : bool)
| JNum (literal : string)
| JStr (s : string)
| JArr (items : list json)
| JObj (members : list (string * json)).
#[local] Set Elimination Schemes.

(** What [http.Post] gives back: a connection error with its text, or a
    response whose body parses to a JSON value ([None] when the body is
    not JSON). *)
Definition Transport (Req : Type) : Type := string -> Req -> error + option json.

(** The requests posted during a call, oldest first. *)
Definition Calls (Req : Type) : Type := list (string * Req).

(** [*http.Response] as the SDK uses it: the empty response literal, or
    a response with a body. *)
Inductive httpResponse :=
| EmptyResponse
| ResponseWith (body : option json).

(** common.go: [APIError]. *)
Record APIError := { Code : N; Message : string }.

Definition zeroAPIError : APIError := {| Code := 0; Message := EmptyString |}.

(** encoding/json matches an object key to a field name exactly or, if
    not, ignoring case (ASCII folding is modelled). *)
Definition key_is (name key : string) : bool :=
  String.eqb (ToLower name) (ToLower key).

(** Decoding into a [uint] field: a literal of decimal digits below 2^64. *)
Definition decimal_value (s : string) : N :=
  fold_left (fun n c => (n * 10 + time.digit_val c)%N) (list_ascii_of_string s) 0%N.

Definition decode_uint (v : json) (old : N) : N :=
  match v with
  | JNum lit =>
      if regexp.nonempty_digits lit && (decimal_value lit <? 2 ^ 64)%N
      then decimal_value lit else old
  | _ => old
  end.

Definition decode_string (v : json) (old : string) : string :=
  match v with
  | JStr s => s
  | _ => old
  end.

Definition decode_bool (v : json) (old : bool) : bool :=
  match v with
  | JBool b => b
  | _ => old
  end.

(** Decoding into a pointer to a nested struct that is kept as the JSON
    object it is read from: null resets the pointer. *)
Definition decode_ptr (v : json) (old : option json) : option json :=
  match v with
  | JNull => None
  | JObj _ => Some v
  | _ => Some (default (JObj []) old)
  end.

(** Decoding into a float field, kept as the literal of the number. *)
Definition decode_float (v : json) (old : string) : string :=
  match v with
  | JNum lit => lit
  | _ => old
  end.

Definition decode_strings (v : json) (old : list string) : list string :=
  match v with
  | JNull => []
  | JArr items => (fun i => decode_string i EmptyString) <$> items
  | _ => old
  end.

Definition decode_items (v : json) (old : list json) : list json :=
  match v with
  | JNull => []
  | JArr items => items
  | _ => old
  end.

Definition decode_APIError_member (e : APIError) (kv : string * json) : APIError :=
  let '(k, v) := kv in
  if key_is "code" k then {| Code := decode_uint v (Code e); Message := Message e |}
  else if key_is "message" k
  then {| Code := Code e; Message := decode_string v (Message e) |}
  else e.

(** Decoding into a field of type [*APIError]. *)
Definition decode_APIError (v : json) (old : option APIError) : option APIError :=
  match v with
  | JNull => None
  | JObj members =>
      Some (fold_left decode_APIError_member members (default zeroAPIError old))
  | _ => Some (default zeroAPIError old)
  end.

(** [json.Unmarshal body &result] for a struct: the members of a JSON
    object are stored one by one; any other body leaves [result] as is. *)
Definition Unmarshal {R : Type} (member : R -> string * json -> R)
    (body : option json) (result : R) : R :=
  match body with
  | Some (JObj members) => fold_left member members result
  | _ => result
  end.

Definition dq : string := String (ascii_of_N 34) EmptyString.

(** [fmt.Errorf("%d: %s", code, message)] for a [uint] and a [string]. *)
Definition Errorf_code_message (code : N) (message : string) : error :=
  pretty code +:+ ": " +:+ message.

Definition connect_error (err : error) : error :=
  "failed to connect to API server: " +:+ err.


(** Assignment to one field of a record value.  [rebuild] builds the
    record again from its projections; the projection [proj] is replaced
    by the assigned value. *)
Ltac assign_field rebuild proj :=
  let r := eval cbv delta [rebuild] in rebuild in
  match eval pattern proj in r with
  | ?F _ => let t := eval cbv beta in (fun v c => F (fun _ => v) c) in exact t
  end.

(** A Go value held in an [interface{}] of a request payload. *)
#[local] Unset Elimination Schemes.
Inductive value :=
| VNil
| VBool (b : bool)
| VString (s : string)
| VUint (n : N)
| VFloat32 (f : float32)
| VList (items : list value)
| VMap (members : list (string * value)).
#[local] Set Elimination Schemes.

Definition VStrings (l : list string) : value := VList (VString <$> l).

(** ** core.go *)

Module CoreAPI.

(** [coreConfig]. *)
Record coreConfig := {
  accuracy : N;
  authenticate : bool;
  authenticateModule : string;
  ocrScaledown : N;
  outputImage : bool;
  outputFace : bool;
  outputMode : string;
  dualSideCheck : bool;
  verifyExpiry : bool;
  verifyDocumentNo : string;
  verifyName : string;
  verifyDOB : string;
  verifyAge : string;
  verifyAddress : string;
  verifyPostcode : string;
  country : string;
  region : string;
  docType : string;
  checkBlocklist : bool;
  vaultSave : bool;
  vaultSaveUnrecognized : bool;
  vaultNoDuplicate : bool;
  vaultAutoMerge : bool;
  vaultCustomData1 : string;
  vaultCustomData2 : string;
  vaultCustomData3 : string;
  vaultCustomData4 : string;
  vaultCustomData5 : string;
  barcodeMode : bool;
  biometricThreshold : float32;
  amlCheck : bool;
  amlStrictMatch : bool;
  amlDatabase : string;
  contractGenerate : string;
  contractFormat : string;
  contractPrefillData : gmap string string;
  client : string
}.

Definition rebuild_config (c : coreConfig) : coreConfig :=
  Build_coreConfig (accuracy c)
    (authenticate c)
    (authenticateModule c)
    (ocrScaledown c)
    (outputImage c)
    (outputFace c)
    (outputMode c)
    (dualSideCheck c)
    (verifyExpiry c)
    (verifyDocumentNo c)
    (verifyName c)
    (verifyDOB c)
    (verifyAge c)
    (verifyAddress c)
    (verifyPostcode c)
    (country c)
    (region c)
    (docType c)
    (checkBlocklist c)
    (vaultSave c)
    (vaultSaveUnrecognized c)
    (vaultNoDuplicate c)
    (vaultAutoMerge c)
    (vaultCustomData1 c)
    (vaultCustomData2 c)
    (vaultCustomData3 c)
    (vaultCustomData4 c)
    (vaultCustomData5 c)
    (barcodeMode c)
    (biometricThreshold c)
    (amlCheck c)
    (amlStrictMatch c)
    (amlDatabase c)
    (contractGenerate c)
    (contractFormat c)
    (contractPrefillData c)
    (client c).

Definition set_authenticate : bool -> coreConfig -> coreConfig :=
  ltac:(assign_field rebuild_config authenticate).
Definition set_authenticateModule : string -> coreConfig -> coreConfig :=
  ltac:(assign_field rebuild_config authenticateModule).
Definition set_ocrScaledown : N -> coreConfig -> coreConfig :=
  ltac:(assign_field rebuild_config ocrScaledown).
Definition set_outputImage : bool -> coreConfig -> coreConfig :=
  ltac:(assign_field rebuild_config outputImage).
Definition set_outputFace : bool -> coreConfig -> coreConfig :=
  ltac:(assign_field rebuild_config outputFace).
Definition set_outputMode : string -> coreConfig -> coreConfig :=
  ltac:(assign_field rebuild_config outputMode).
Definition set_dualSideCheck : bool -> coreConfig -> coreConfig :=
  ltac:(assign_field rebuild_config dualSideCheck).
Definition set_verifyExpiry : bool -> coreConfig -> coreConfig :=
  ltac:(assign_field rebuild_config verifyExpiry).
Definition set_verifyDocumentNo : string -> coreConfig -> coreConfig :=
  ltac:(assign_field rebuild_config verifyDocumentNo).
Definition set_verifyName : string -> coreConfig -> coreConfig :=
  ltac:(assign_field rebuild_config verifyName).
Definition set_verifyDOB : string -> coreConfig -> coreConfig :=
  ltac:(assign_field rebuild_config verifyDOB).
Definition set_verifyAge : string -> coreConfig -> coreConfig :=
  ltac:(assign_field rebuild_config verifyAge).
Definition set_verifyAddress : string -> coreConfig -> coreConfig :=
  ltac:(assign_field rebuild_config verifyAddress).
Definition set_verifyPostcode : string -> coreConfig -> coreConfig :=
  ltac:(assign_field rebuild_config verifyPostcode).
Definition set_country : string -> coreConfig -> coreConfig :=
  ltac:(assign_field rebuild_config country).
Definition set_region : string -> coreConfig -> coreConfig :=
  ltac:(assign_field rebuild_config region).
Definition set_docType : string -> coreConfig -> coreConfig :=
  ltac:(assign_field rebuild_config docType).
Definition set_vaultSave : bool -> coreConfig -> coreConfig :=
  ltac:(assign_field rebuild_config vaultSave).
Definition set_vaultSaveUnrecognized : bool -> coreConfig -> coreConfig :=
  ltac:(assign_field rebuild_config vaultSaveUnrecognized).
Definition set_vaultNoDuplicate : bool -> coreConfig -> coreConfig :=
  ltac:(assign_field rebuild_config vaultNoDuplicate).
Definition set_vaultAutoMerge : bool -> coreConfig -> coreConfig :=
  ltac:(assign_field rebuild_config vaultAutoMerge).
Definition set_biometricThreshold : float32 -> coreConfig -> coreConfig :=
  ltac:(assign_field rebuild_config biometricThreshold).
Definition set_amlCheck : bool -> coreConfig -> coreConfig :=
  ltac:(assign_field rebuild_config amlCheck).
Definition set_amlStrictMatch : bool -> coreConfig -> coreConfig :=
  ltac:(assign_field rebuild_config amlStrictMatch).
Definition set_amlDatabase : string -> coreConfig -> coreConfig :=
  ltac:(assign_field rebuild_config amlDatabase).
Definition set_contractGenerate : string -> coreConfig -> coreConfig :=
  ltac:(assign_field rebuild_config contractGenerate).
Definition set_contractFormat : string -> coreConfig -> coreConfig :=
  ltac:(assign_field rebuild_config contractFormat).
Definition set_contractPrefillData : (gmap string string) -> coreConfig -> coreConfig :=
  ltac:(assign_field rebuild_config contractPrefillData).

(** [coreRequest], the wire object. *)
Module Req.
Record coreRequest := {
ApiKey : string;
Url : string;
UrlBack : string;
FaceUrl : string;
VideoUrl : string;
FileBase64 : string;
FileBackBase64 : string;
FaceBase64 : string;
VideoBase64 : string;
Passcode : string;
Accuracy : N;
Authenticate : bool;
AuthenticateModule : string;
OcrScaledown : N;
OutputImage : bool;
OutputFace : bool;
OutputMode : string;
DualSideCheck : bool;
VerifyExpiry : bool;
VerifyDocumentNo : string;
VerifyName : string;
VerifyDOB : string;
VerifyAge : string;
VerifyAddress : string;
VerifyPostcode : string;
Country : string;
Region : string;
DocType : string;
CheckBlocklist : bool;
VaultSave : bool;
VaultSaveUnrecognized : bool;
VaultNoDuplicate : bool;
VaultAutoMerge : bool;
VaultCustomData1 : string;
VaultCustomData2 : string;
VaultCustomData3 : string;
VaultCustomData4 : string;
VaultCustomData5 : string;
BarcodeMode : bool;
BiometricThreshold : float32;
AmlCheck : bool;
AmlStrictMatch : bool;
AmlDatabase : string;
ContractGenerate : string;
ContractFormat : string;
ContractPrefillData : gmap string string;
Client : string
}.

Definition rebuild_request (r : coreRequest) : coreRequest :=
Build_coreRequest (ApiKey r)
  (Url r)
  (UrlBack r)
  (FaceUrl r)
  (VideoUrl r)
  (FileBase64 r)
  (FileBackBase64 r)
  (FaceBase64 r)
  (VideoBase64 r)
  (Passcode r)
  (Accuracy r)
  (Authenticate r)
  (AuthenticateModule r)
  (OcrScaledown r)
  (OutputImage r)
  (OutputFace r)
  (OutputMode r)
  (DualSideCheck r)
  (VerifyExpiry r)
  (VerifyDocumentNo r)
  (VerifyName r)
  (VerifyDOB r)
  (VerifyAge r)
  (VerifyAddress r)
  (VerifyPostcode r)
  (Country r)
  (Region r)
  (DocType r)
  (CheckBlocklist r)
  (VaultSave r)
  (VaultSaveUnrecognized r)
  (VaultNoDuplicate r)
  (VaultAutoMerge r)
  (VaultCustomData1 r)
  (VaultCustomData2 r)
  (VaultCustomData3 r)
  (VaultCustomData4 r)
  (VaultCustomData5 r)
  (BarcodeMode r)
  (BiometricThreshold r)
  (AmlCheck r)
  (AmlStrictMatch r)
  (AmlDatabase r)
  (ContractGenerate r)
  (ContractFormat r)
  (ContractPrefillData r)
  (Client r).

Definition set_Url : string -> coreRequest -> coreRequest :=
ltac:(assign_field rebuild_request Url).
Definition set_UrlBack : string -> coreRequest -> coreRequest :=
ltac:(assign_field rebuild_request UrlBack).
Definition set_FaceUrl : string -> coreRequest -> coreRequest :=
ltac:(assign_field rebuild_request FaceUrl).
Definition set_VideoUrl : string -> coreRequest -> coreRequest :=
ltac:(assign_field rebuild_request VideoUrl).
Definition set_FileBase64 : string -> coreRequest -> coreRequest :=
ltac:(assign_field rebuild_request FileBase64).
Definition set_FileBackBase64 : string -> coreRequest -> coreRequest :=
ltac:(assign_field rebuild_request FileBackBase64).
Definition set_FaceBase64 : string -> coreRequest -> coreRequest :=
ltac:(assign_field rebuild_request FaceBase64).
Definition set_VideoBase64 : string -> coreRequest -> coreRequest :=
ltac:(assign_field rebuild_request VideoBase64).
Definition set_Passcode : string -> coreRequest -> coreRequest :=
ltac:(assign_field rebuild_request Passcode).
End Req.
Abbreviation coreRequest := Req.coreRequest.

(** [defaultCoreConfig]. *)
Definition defaultCoreConfig : coreConfig := {|
  accuracy := 2%N;
  authenticate := false;
  authenticateModule := "1";
  ocrScaledown := 2000%N;
  outputImage := false;
  outputFace := false;
  outputMode := "url";
  dualSideCheck := false;
  verifyExpiry := true;
  verifyDocumentNo := EmptyString;
  verifyName := EmptyString;
  verifyDOB := EmptyString;
  verifyAge := EmptyString;
  verifyAddress := EmptyString;
  verifyPostcode := EmptyString;
  country := EmptyString;
  region := EmptyString;
  docType := EmptyString;
  checkBlocklist := false;
  vaultSave := true;
  vaultSaveUnrecognized := false;
  vaultNoDuplicate := false;
  vaultAutoMerge := false;
  vaultCustomData1 := EmptyString;
  vaultCustomData2 := EmptyString;
  vaultCustomData3 := EmptyString;
  vaultCustomData4 := EmptyString;
  vaultCustomData5 := EmptyString;
  barcodeMode := false;
  biometricThreshold := f32_0_4;
  amlCheck := false;
  amlStrictMatch := false;
  amlDatabase := EmptyString;
  contractGenerate := EmptyString;
  contractFormat := EmptyString;
  contractPrefillData := ∅;
  client := "go-sdk"
|}.

(** The zero value of [coreConfig], as in the literal [CoreAPI{}]. *)
Definition zeroCoreConfig : coreConfig := {|
  accuracy := 0%N;
  authenticate := false;
  authenticateModule := EmptyString;
  ocrScaledown := 0%N;
  outputImage := false;
  outputFace := false;
  outputMode := EmptyString;
  dualSideCheck := false;
  verifyExpiry := false;
  verifyDocumentNo := EmptyString;
  verifyName := EmptyString;
  verifyDOB := EmptyString;
  verifyAge := EmptyString;
  verifyAddress := EmptyString;
  verifyPostcode := EmptyString;
  country := EmptyString;
  region := EmptyString;
  docType := EmptyString;
  checkBlocklist := false;
  vaultSave := false;
  vaultSaveUnrecognized := false;
  vaultNoDuplicate := false;
  vaultAutoMerge := false;
  vaultCustomData1 := EmptyString;
  vaultCustomData2 := EmptyString;
  vaultCustomData3 := EmptyString;
  vaultCustomData4 := EmptyString;
  vaultCustomData5 := EmptyString;
  barcodeMode := false;
  biometricThreshold := f32_zero;
  amlCheck := false;
  amlStrictMatch := false;
  amlDatabase := EmptyString;
  contractGenerate := EmptyString;
  contractFormat := EmptyString;
  contractPrefillData := ∅;
  client := EmptyString
|}.

Record CoreAPI := {
  apiKey : string;
  apiEndpoint : string;
  config : coreConfig
}.

(** [c.config.f = v]: the receiver with its configuration changed. *)
Definition with_config (f : coreConfig -> coreConfig) (c : CoreAPI) : CoreAPI :=
  {| apiKey := apiKey c; apiEndpoint := apiEndpoint c; config := f (config c) |}.

(** The struct literal that opens [scan]: every configuration field
    copied to its wire field, the media fields and passcode empty. *)
Definition payload_of (c : CoreAPI) : coreRequest := {|
  Req.ApiKey := apiKey c;
  Req.Url := EmptyString;
  Req.UrlBack := EmptyString;
  Req.FaceUrl := EmptyString;
  Req.VideoUrl := EmptyString;
  Req.FileBase64 := EmptyString;
  Req.FileBackBase64 := EmptyString;
  Req.FaceBase64 := EmptyString;
  Req.VideoBase64 := EmptyString;
  Req.Passcode := EmptyString;
  Req.Accuracy := accuracy (config c);
  Req.Authenticate := authenticate (config c);
  Req.AuthenticateModule := authenticateModule (config c);
  Req.OcrScaledown := ocrScaledown (config c);
  Req.OutputImage := outputImage (config c);
  Req.OutputFace := outputFace (config c);
  Req.OutputMode := outputMode (config c);
  Req.DualSideCheck := dualSideCheck (config c);
  Req.VerifyExpiry := verifyExpiry (config c);
  Req.VerifyDocumentNo := verifyDocumentNo (config c);
  Req.VerifyName := verifyName (config c);
  Req.VerifyDOB := verifyDOB (config c);
  Req.VerifyAge := verifyAge (config c);
  Req.VerifyAddress := verifyAddress (config c);
  Req.VerifyPostcode := verifyPostcode (config c);
  Req.Country := country (config c);
  Req.Region := region (config c);
  Req.DocType := docType (config c);
  Req.CheckBlocklist := checkBlocklist (config c);
  Req.VaultSave := vaultSave (config c);
  Req.VaultSaveUnrecognized := vaultSaveUnrecognized (config c);
  Req.VaultNoDuplicate := vaultNoDuplicate (config c);
  Req.VaultAutoMerge := vaultAutoMerge (config c);
  Req.VaultCustomData1 := vaultCustomData1 (config c);
  Req.VaultCustomData2 := vaultCustomData2 (config c);
  Req.VaultCustomData3 := vaultCustomData3 (config c);
  Req.VaultCustomData4 := vaultCustomData4 (config c);
  Req.VaultCustomData5 := vaultCustomData5 (config c);
  Req.BarcodeMode := barcodeMode (config c);
  Req.BiometricThreshold := biometricThreshold (config c);
  Req.AmlCheck := amlCheck (config c);
  Req.AmlStrictMatch := amlStrictMatch (config c);
  Req.AmlDatabase := amlDatabase (config c);
  Req.ContractGenerate := contractGenerate (config c);
  Req.ContractFormat := contractFormat (config c);
  Req.ContractPrefillData := contractPrefillData (config c);
  Req.Client := client (config c)
|}.

(** [CoreResponse1Side] and [CoreResponse2Sides] differ in the type [O]
    of [Output] and [Cropped] only: a string, or a list of strings.
    Nested result objects are kept as the JSON object they are decoded
    from, and float fields as the literal of the number. *)
Module Resp.
Section Response.
Context {O : Type}.

Record CoreResponse := {
Error : option APIError;
Result : option json;
Confidence : option json;
Face : option json;
Verification : option json;
Authentication : option json;
AML : option json;
Contract : option json;
VaultID : string;
MatchRate : string;
Output : O;
OutputFace : string;
Cropped : O;
CroppedFace : string;
ExecutionTime : string;
ResponseID : string;
Quota : N;
Credit : N
}.

Definition rebuild_response (r : CoreResponse) : CoreResponse :=
Build_CoreResponse (Error r)
  (Result r)
  (Confidence r)
  (Face r)
  (Verification r)
  (Authentication r)
  (AML r)
  (Contract r)
  (VaultID r)
  (MatchRate r)
  (Output r)
  (OutputFace r)
  (Cropped r)
  (CroppedFace r)
  (ExecutionTime r)
  (ResponseID r)
  (Quota r)
  (Credit r).

Definition set_Error : (option APIError) -> CoreResponse -> CoreResponse :=
ltac:(assign_field rebuild_response Error).
Definition set_Result : (option json) -> CoreResponse -> CoreResponse :=
ltac:(assign_field rebuild_response Result).
Definition set_Confidence : (option json) -> CoreResponse -> CoreResponse :=
ltac:(assign_field rebuild_response Confidence).
Definition set_Face : (option json) -> CoreResponse -> CoreResponse :=
ltac:(assign_field rebuild_response Face).
Definition set_Verification : (option json) -> CoreResponse -> CoreResponse :=
ltac:(assign_field rebuild_response Verification).
Definition set_Authentication : (option json) -> CoreResponse -> CoreResponse :=
ltac:(assign_field rebuild_response Authentication).
Definition set_AML : (option json) -> CoreResponse -> CoreResponse :=
ltac:(assign_field rebuild_response AML).
Definition set_Contract : (option json) -> CoreResponse -> CoreResponse :=
ltac:(assign_field rebuild_response Contract).
Definition set_VaultID : string -> CoreResponse -> CoreResponse :=
ltac:(assign_field rebuild_response VaultID).
Definition set_MatchRate : string -> CoreResponse -> CoreResponse :=
ltac:(assign_field rebuild_response MatchRate).
Definition set_Output : O -> CoreResponse -> CoreResponse :=
ltac:(assign_field rebuild_response Output).
Definition set_OutputFace : string -> CoreResponse -> CoreResponse :=
ltac:(assign_field rebuild_response OutputFace).
Definition set_Cropped : O -> CoreResponse -> CoreResponse :=
ltac:(assign_field rebuild_response Cropped).
Definition set_CroppedFace : string -> CoreResponse -> CoreResponse :=
ltac:(assign_field rebuild_response CroppedFace).
Definition set_ExecutionTime : string -> CoreResponse -> CoreResponse :=
ltac:(assign_field rebuild_response ExecutionTime).
Definition set_ResponseID : string -> CoreResponse -> CoreResponse :=
ltac:(assign_field rebuild_response ResponseID).
Definition set_Quota : N -> CoreResponse -> CoreResponse :=
ltac:(assign_field rebuild_response Quota).
Definition set_Credit : N -> CoreResponse -> CoreResponse :=
ltac:(assign_field rebuild_response Credit).

Variable zeroO : O.
Variable decodeO : json -> O -> O.

Definition zeroResponse : CoreResponse := {|
Error := None;
Result := None;
Confidence := None;
Face := None;
Verification := None;
Authentication := None;
AML := None;
Contract := None;
VaultID := EmptyString;
MatchRate := "0";
Output := zeroO;
OutputFace := EmptyString;
Cropped := zeroO;
CroppedFace := EmptyString;
ExecutionTime := "0";
ResponseID := EmptyString;
Quota := 0%N;
Credit := 0%N
|}.

(** One member of the response object stored into the result. *)
Definition decode_member (r : CoreResponse) (kv : string * json) : CoreResponse :=
let '(k, v) := kv in
if key_is "error" k then set_Error (decode_APIError v (Error r)) r
else if key_is "result" k then set_Result (decode_ptr v (Result r)) r
else if key_is "confidence" k then set_Confidence (decode_ptr v (Confidence r)) r
else if key_is "face" k then set_Face (decode_ptr v (Face r)) r
else if key_is "verification" k then set_Verification (decode_ptr v (Verification r)) r
else if key_is "authentication" k then set_Authentication (decode_ptr v (Authentication r)) r
else if key_is "aml" k then set_AML (decode_ptr v (AML r)) r
else if key_is "contract" k then set_Contract (decode_ptr v (Contract r)) r
else if key_is "vaultid" k then set_VaultID (decode_string v (VaultID r)) r
else if key_is "matchrate" k then set_MatchRate (decode_float v (MatchRate r)) r
else if key_is "output" k then set_Output (decodeO v (Output r)) r
else if key_is "outputface" k then set_OutputFace (decode_string v (OutputFace r)) r
else if key_is "cropped" k then set_Cropped (decodeO v (Cropped r)) r
else if key_is "croppedface" k then set_CroppedFace (decode_string v (CroppedFace r)) r
else if key_is "executionTime" k then set_ExecutionTime (decode_float v (ExecutionTime r)) r
else if key_is "responseID" k then set_ResponseID (decode_string v (ResponseID r)) r
else if key_is "quota" k then set_Quota (decode_uint v (Quota r)) r
else if key_is "credit" k then set_Credit (decode_uint v (Credit r)) r
else r.

End Response.
Arguments CoreResponse : clear implicits.
End Resp.

Definition CoreResponse1Side := Resp.CoreResponse string.
Definition CoreResponse2Sides := Resp.CoreResponse (list string).

(** [NewCoreAPI]. *)
Definition NewCoreAPI (apiKey region : string) : CoreAPI * option error :=
  if String.eqb apiKey EmptyString then
    ({| apiKey := EmptyString; apiEndpoint := EmptyString;
        config := zeroCoreConfig |},
     Some "please provide an API key")
  else
    ({| apiKey := apiKey;
        apiEndpoint := endpointFromRegion region EmptyString;
        config := defaultCoreConfig |}, None).

(** *** Setters.  Each returns the receiver after the call and, where
    the Go method has a result, the error. *)

Definition ResetConfig (c : CoreAPI) : CoreAPI :=
  with_config (fun _ => defaultCoreConfig) c.


Definition EnableAuthentication (c : CoreAPI) (authenticate : bool)
    (authModule : string) : CoreAPI * option error :=
  let c := with_config (set_authenticate authenticate) c in
  if negb (String.eqb authModule "1") && negb (String.eqb authModule "2")
     && negb (String.eqb authModule "quick")
  then (c, Some ("invalid authentication module; " +:+ dq +:+ "1" +:+ dq
                 +:+ ", " +:+ dq +:+ "2" +:+ dq +:+ " or " +:+ dq
                 +:+ "quick" +:+ dq +:+ " accepted"))
  else (with_config (set_authenticateModule authModule) c, None).

Definition SetOCRImageResize (c : CoreAPI) (maxScale : N)
  : CoreAPI * option error :=
  if negb (maxScale =? 0)%N && ((maxScale <? 500)%N || (4000 <? maxScale)%N)
  then (c, Some "invalid scale value; 0, or 500 to 4000 accepted")
  else (with_config (set_ocrScaledown maxScale) c, None).

Definition SetBiometricThreshold (c : CoreAPI) (threshold : float32)
  : CoreAPI * option error :=
  if f32_le threshold f32_zero || f32_gt threshold f32_one
  then (c, Some "invalid threshold value; float32 between 0 to 1 accepted")
  else (with_config (set_biometricThreshold threshold) c, None).

Definition EnableImageOutput (c : CoreAPI) (cropDocument cropFace : bool)
    (outputFormat : string) : CoreAPI * option error :=
  if negb (String.eqb outputFormat "url")
     && negb (String.eqb outputFormat "base64")
  then (c, Some ("invalid output format; " +:+ dq +:+ "url" +:+ dq +:+ " or "
                 +:+ dq +:+ "base64" +:+ dq +:+ " accepted"))
  else
    let c := with_config (set_outputImage cropDocument) c in
    let c := with_config (set_outputFace cropFace) c in
    (with_config (set_outputMode outputFormat) c, None).

Definition EnableDualSideCheck (c : CoreAPI) (enabled : bool) : CoreAPI :=
  with_config (set_dualSideCheck enabled) c.

Definition VerifyExpiry (c : CoreAPI) (enabled : bool) : CoreAPI :=
  with_config (set_verifyExpiry enabled) c.

Definition VerifyDocumentNumber (c : CoreAPI) (documentNumber : string) : CoreAPI :=
  with_config (set_verifyDocumentNo documentNumber) c.

Definition VerifyName (c : CoreAPI) (name : string) : CoreAPI :=
  with_config (set_verifyName name) c.

Definition VerifyDOB (c : CoreAPI) (dob : string) : CoreAPI * option error :=
  if negb (time.Parse_ymd_ok dob)
  then (c, Some "invalid birthday format (YYYY/MM/DD)")
  else (with_config (set_verifyDOB dob) c, None).

Definition VerifyAge (c : CoreAPI) (ageRange : string) : CoreAPI * option error :=
  if negb (regexp.match_age_range ageRange)
  then (c, Some "invalid age range format (minAge-maxAge)")
  else (with_config (set_verifyAge ageRange) c, None).

Definition VerifyAddress (c : CoreAPI) (address : string) : CoreAPI :=
  with_config (set_verifyAddress address) c.

Definition VerifyPostcode (c : CoreAPI) (postcode : string) : CoreAPI :=
  with_config (set_verifyPostcode postcode) c.

Definition RestrictCountry (c : CoreAPI) (countryCodes : string) : CoreAPI :=
  with_config (set_country countryCodes) c.

Definition RestrictState (c : CoreAPI) (states : string) : CoreAPI :=
  with_config (set_region states) c.

Definition RestrictType (c : CoreAPI) (docTypes : string) : CoreAPI :=
  with_config (set_docType docTypes) c.


Definition EnableAMLCheck (c : CoreAPI) (enable : bool) : CoreAPI :=
  with_config (set_amlCheck enable) c.

Definition SetAMLDatabase (c : CoreAPI) (databases : string) : CoreAPI :=
  with_config (set_amlDatabase databases) c.

Definition EnableAMLStrictMatch (c : CoreAPI) (enable : bool) : CoreAPI :=
  with_config (set_amlStrictMatch enable) c.

Definition EnableVault (c : CoreAPI)
    (enabled saveUnrecognized noDuplicateImage autoMergeDocument : bool) : CoreAPI :=
  let c := with_config (set_vaultSave enabled) c in
  let c := with_config (set_vaultSaveUnrecognized saveUnrecognized) c in
  let c := with_config (set_vaultNoDuplicate noDuplicateImage) c in
  with_config (set_vaultAutoMerge autoMergeDocument) c.


Definition GenerateContract (c : CoreAPI) (templateId format : string)
    (prefillData : gmap string string) : CoreAPI * option error :=
  if String.eqb templateId EmptyString then (c, Some "invalid template ID")
  else if negb (String.eqb format "PDF") && negb (String.eqb format "DOCX")
          && negb (String.eqb format "HTML")
  then (c, Some "invalid output file format")
  else
    let c := with_config (set_contractGenerate templateId) c in
    let c := with_config (set_contractFormat format) c in
    (with_config (set_contractPrefillData prefillData) c, None).

(** *** The resource classifier and the payload builder *)

(** The branch of the if/else chain that [scan] runs on a media
    argument. *)
Inductive Classification := RemoteURL | LocalFile | InlineEncoded | Invalid.

(** The conditions of the chain, in the order of the source: the URL
    parse, then the file probe, then the length. *)
Definition classify (fs : os.FS) (s : string) : run Classification :=
  match url.ParseRequestURI s with
  | Some _ => Done RemoteURL
  | None =>
      found ← fileExists fs s;
      if found : bool then Done LocalFile
      else if (100 <? strlen s)%N then Done InlineEncoded
      else Done Invalid
  end.

(** A payload under construction: the payload, or the error [scan]
    returns before it posts anything. *)
Definition Building := run (coreRequest + error).

(** The assignments of the chain.  The source writes the chain out for
    each of the four media arguments; [setUrl] and [setBase64] are the
    two fields of the argument and [invalid] the text of its error. *)
Definition resolve (fs : os.FS) (s : string)
    (setUrl setBase64 : string -> coreRequest -> coreRequest)
    (invalid : error) (payload : coreRequest) : Building :=
  k ← classify fs s;
  match k with
  | RemoteURL => Done (inl (setUrl s payload))
  | LocalFile => Done (inl (setBase64 (base64File fs s) payload))
  | InlineEncoded => Done (inl (setBase64 s payload))
  | Invalid => Done (inr invalid)
  end.

Definition and_then (b : Building) (k : coreRequest -> Building) : Building :=
  r ← b;
  match r with
  | inl payload => k payload
  | inr err => Done (inr err)
  end.

Definition invalid_primary : error :=
  "invalid primary document image, file not found or malformed URL".
Definition invalid_secondary : error :=
  "invalid secondary document image, file not found or malformed URL".
Definition invalid_face : error :=
  "invalid face image, file not found or malformed URL".
Definition invalid_video : error :=
  "invalid face video, file not found or malformed URL".

(** [scan] up to, and without, [json.Marshal] and [http.Post]. *)
Definition build (fs : os.FS) (c : CoreAPI)
    (documentPrimary documentSecondary biometricPhoto biometricVideo
     biometricVideoPasscode : string) : Building :=
  let payload := payload_of c in
  if String.eqb documentPrimary EmptyString
  then Done (inr "primary document image required")
  else
    and_then (resolve fs documentPrimary Req.set_Url Req.set_FileBase64
                invalid_primary payload) (fun payload =>
    and_then (if negb (String.eqb documentSecondary EmptyString)
              then resolve fs documentSecondary Req.set_UrlBack Req.set_FileBackBase64
                     invalid_secondary payload
              else Done (inl payload)) (fun payload =>
    and_then (if negb (String.eqb biometricPhoto EmptyString)
              then resolve fs biometricPhoto Req.set_FaceUrl Req.set_FaceBase64
                     invalid_face payload
              else Done (inl payload)) (fun payload =>
    if negb (String.eqb biometricVideo EmptyString) then
      and_then (resolve fs biometricVideo Req.set_VideoUrl Req.set_VideoBase64
                  invalid_video payload) (fun payload =>
      if negb (regexp.match_passcode biometricVideoPasscode)
      then Done (inr "please provide a 4 digit passcode for video biometric verification")
      else Done (inl (Req.set_Passcode biometricVideoPasscode payload)))
    else Done (inl payload)))).

(** [scan]: the response and error it returns, and the requests posted. *)
Definition scan (fs : os.FS) (post : Transport coreRequest) (c : CoreAPI)
    (documentPrimary documentSecondary biometricPhoto biometricVideo
     biometricVideoPasscode : string)
  : run (httpResponse * option error) * Calls coreRequest :=
  match build fs c documentPrimary documentSecondary biometricPhoto
          biometricVideo biometricVideoPasscode with
  | Panic reason => (Panic reason, [])
  | Done (inr err) => (Done (EmptyResponse, Some err), [])
  | Done (inl payload) =>
      match post (apiEndpoint c) payload with
      | inl err => (Done (EmptyResponse, Some (connect_error err)),
                    [(apiEndpoint c, payload)])
      | inr body => (Done (ResponseWith body, None), [(apiEndpoint c, payload)])
      end
  end.

(** The tail shared by [scan1Side] and [scan2Sides]: read and decode
    the body, then look at the embedded error. *)
Definition normalize {O : Type} (zeroO : O) (decodeO : json -> O -> O)
    (scanned : run (httpResponse * option error))
  : run (Resp.CoreResponse O * option error) :=
  '(response, err) ← scanned;
  match err with
  | Some e => Done (Resp.zeroResponse zeroO, Some e)
  | None =>
      match response with
      | EmptyResponse => Panic nil_dereference
      | ResponseWith body =>
          let result := Unmarshal (Resp.decode_member decodeO) body (Resp.zeroResponse zeroO) in
          match Resp.Error result with
          | Some e =>
              if negb (String.eqb (Message e) EmptyString)
              then Done (result, Some (Errorf_code_message (Code e) (Message e)))
              else Done (result, None)
          | None => Done (result, None)
          end
      end
  end.

Definition scan1Side (fs : os.FS) (post : Transport coreRequest) (c : CoreAPI)
    (documentPrimary biometricPhoto biometricVideo biometricVideoPasscode : string)
  : run (CoreResponse1Side * option error) * Calls coreRequest :=
  let '(scanned, calls) :=
    scan fs post c documentPrimary EmptyString biometricPhoto biometricVideo
      biometricVideoPasscode in
  (normalize EmptyString decode_string scanned, calls).

Definition scan2Sides (fs : os.FS) (post : Transport coreRequest) (c : CoreAPI)
    (documentPrimary documentSecondary biometricPhoto biometricVideo
     biometricVideoPasscode : string)
  : run (CoreResponse2Sides * option error) * Calls coreRequest :=
  if String.eqb documentSecondary EmptyString
  then (Done (Resp.zeroResponse [], Some "secondary document image required"), [])
  else
    let '(scanned, calls) :=
      scan fs post c documentPrimary documentSecondary biometricPhoto
        biometricVideo biometricVideoPasscode in
    (normalize [] decode_strings scanned, calls).

(** *** Actions *)

Definition ScanFront fs post c documentPrimary :=
  scan1Side fs post c documentPrimary EmptyString EmptyString EmptyString.

Definition ScanFrontFace fs post c documentPrimary biometricPhoto :=
  scan1Side fs post c documentPrimary biometricPhoto EmptyString EmptyString.

Definition ScanFrontVideo fs post c documentPrimary biometricVideo :=
  scan1Side fs post c documentPrimary EmptyString biometricVideo EmptyString.

Definition ScanFrontVideoCustomPasscode fs post c documentPrimary
    biometricVideo biometricVideoPasscode :=
  scan1Side fs post c documentPrimary EmptyString biometricVideo
    biometricVideoPasscode.

Definition ScanBoth fs post c documentPrimary documentSecondary :=
  scan2Sides fs post c documentPrimary documentSecondary EmptyString
    EmptyString EmptyString.

Definition ScanBothFace fs post c documentPrimary documentSecondary
    biometricPhoto :=
  scan2Sides fs post c documentPrimary documentSecondary biometricPhoto
    EmptyString EmptyString.

Definition ScanBothVideo fs post c documentPrimary documentSecondary
    biometricVideo :=
  scan2Sides fs post c documentPrimary documentSecondary EmptyString
    biometricVideo EmptyString.

Definition ScanBothVideoCustomPasscode fs post c documentPrimary
    documentSecondary biometricVideo biometricVideoPasscode :=
  scan2Sides fs post c documentPrimary documentSecondary EmptyString
    biometricVideo biometricVideoPasscode.

End CoreAPI.

(** ** docu_pass.go *)

Module DocuPassAPI.

(** [docuPassConfig]. *)
Record docuPassConfig := {
  amlCheck : bool;
  amlDatabase : string;
  amlStrictMatch : bool;
  authenticateMinScore : float32;
  authenticateModule : string;
  biometric : N;
  biometricThreshold : float32;
  callbackUrl : string;
  contractFormat : string;
  contractGenerate : string;
  contractPrefillData : gmap string json;
  contractSign : string;
  cropDocument : bool;
  customHtmlUrl : string;
  customID : string;
  documentCountry : string;
  documentRegion : string;
  documentType : string;
  dualSideCheck : bool;
  failRedir : string;
  language : string;
  logo : string;
  maxAttempt : N;
  noBranding : bool;
  phoneVerification : bool;
  qrBgColor : string;
  qrColor : string;
  qrMargin : N;
  qrSize : N;
  returnDocumentImage : bool;
  returnFaceImage : bool;
  returnType : N;
  reusable : bool;
  smsContractLink : string;
  smsVerificationLink : string;
  successRedir : string;
  vaultSave : bool;
  verifyAddress : string;
  verifyAge : string;
  verifyDOB : string;
  verifyDocumentNo : string;
  verifyExpiry : bool;
  verifyName : string;
  verifyPhone : string;
  verifyPostcode : string;
  welcomeMessage : string
}.

Definition rebuild_config (x : docuPassConfig) : docuPassConfig :=
  Build_docuPassConfig (amlCheck x)
    (amlDatabase x)
    (amlStrictMatch x)
    (authenticateMinScore x)
    (authenticateModule x)
    (biometric x)
    (biometricThreshold x)
    (callbackUrl x)
    (contractFormat x)
    (contractGenerate x)
    (contractPrefillData x)
    (contractSign x)
    (cropDocument x)
    (customHtmlUrl x)
    (customID x)
    (documentCountry x)
    (documentRegion x)
    (documentType x)
    (dualSideCheck x)
    (failRedir x)
    (language x)
    (logo x)
    (maxAttempt x)
    (noBranding x)
    (phoneVerification x)
    (qrBgColor x)
    (qrColor x)
    (qrMargin x)
    (qrSize x)
    (returnDocumentImage x)
    (returnFaceImage x)
    (returnType x)
    (reusable x)
    (smsContractLink x)
    (smsVerificationLink x)
    (successRedir x)
    (vaultSave x)
    (verifyAddress x)
    (verifyAge x)
    (verifyDOB x)
    (verifyDocumentNo x)
    (verifyExpiry x)
    (verifyName x)
    (verifyPhone x)
    (verifyPostcode x)
    (welcomeMessage x).

Definition set_amlCheck : bool -> docuPassConfig -> docuPassConfig :=
  ltac:(assign_field rebuild_config amlCheck).
Definition set_amlDatabase : string -> docuPassConfig -> docuPassConfig :=
  ltac:(assign_field rebuild_config amlDatabase).
Definition set_amlStrictMatch : bool -> docuPassConfig -> docuPassConfig :=
  ltac:(assign_field rebuild_config amlStrictMatch).
Definition set_authenticateMinScore : float32 -> docuPassConfig -> docuPassConfig :=
  ltac:(assign_field rebuild_config authenticateMinScore).
Definition set_authenticateModule : string -> docuPassConfig -> docuPassConfig :=
  ltac:(assign_field rebuild_config authenticateModule).
Definition set_biometric : N -> docuPassConfig -> docuPassConfig :=
  ltac:(assign_field rebuild_config biometric).
Definition set_biometricThreshold : float32 -> docuPassConfig -> docuPassConfig :=
  ltac:(assign_field rebuild_config biometricThreshold).
Definition set_callbackUrl : string -> docuPassConfig -> docuPassConfig :=
  ltac:(assign_field rebuild_config callbackUrl).
Definition set_contractFormat : string -> docuPassConfig -> docuPassConfig :=
  ltac:(assign_field rebuild_config contractFormat).
Definition set_contractGenerate : string -> docuPassConfig -> docuPassConfig :=
  ltac:(assign_field rebuild_config contractGenerate).
Definition set_contractPrefillData : (gmap string json) -> docuPassConfig -> docuPassConfig :=
  ltac:(assign_field rebuild_config contractPrefillData).
Definition set_contractSign : string -> docuPassConfig -> docuPassConfig :=
  ltac:(assign_field rebuild_config contractSign).
Definition set_documentCountry : string -> docuPassConfig -> docuPassConfig :=
  ltac:(assign_field rebuild_config documentCountry).
Definition set_documentRegion : string -> docuPassConfig -> docuPassConfig :=
  ltac:(assign_field rebuild_config documentRegion).
Definition set_documentType : string -> docuPassConfig -> docuPassConfig :=
  ltac:(assign_field rebuild_config documentType).
Definition set_dualSideCheck : bool -> docuPassConfig -> docuPassConfig :=
  ltac:(assign_field rebuild_config dualSideCheck).
Definition set_failRedir : string -> docuPassConfig -> docuPassConfig :=
  ltac:(assign_field rebuild_config failRedir).
Definition set_maxAttempt : N -> docuPassConfig -> docuPassConfig :=
  ltac:(assign_field rebuild_config maxAttempt).
Definition set_qrBgColor : string -> docuPassConfig -> docuPassConfig :=
  ltac:(assign_field rebuild_config qrBgColor).
Definition set_qrColor : string -> docuPassConfig -> docuPassConfig :=
  ltac:(assign_field rebuild_config qrColor).
Definition set_qrMargin : N -> docuPassConfig -> docuPassConfig :=
  ltac:(assign_field rebuild_config qrMargin).
Definition set_qrSize : N -> docuPassConfig -> docuPassConfig :=
  ltac:(assign_field rebuild_config qrSize).
Definition set_smsContractLink : string -> docuPassConfig -> docuPassConfig :=
  ltac:(assign_field rebuild_config smsContractLink).
Definition set_smsVerificationLink : string -> docuPassConfig -> docuPassConfig :=
  ltac:(assign_field rebuild_config smsVerificationLink).
Definition set_successRedir : string -> docuPassConfig -> docuPassConfig :=
  ltac:(assign_field rebuild_config successRedir).
Definition set_vaultSave : bool -> docuPassConfig -> docuPassConfig :=
  ltac:(assign_field rebuild_config vaultSave).
Definition set_verifyAddress : string -> docuPassConfig -> docuPassConfig :=
  ltac:(assign_field rebuild_config verifyAddress).
Definition set_verifyAge : string -> docuPassConfig -> docuPassConfig :=
  ltac:(assign_field rebuild_config verifyAge).
Definition set_verifyDOB : string -> docuPassConfig -> docuPassConfig :=
  ltac:(assign_field rebuild_config verifyDOB).
Definition set_verifyDocumentNo : string -> docuPassConfig -> docuPassConfig :=
  ltac:(assign_field rebuild_config verifyDocumentNo).
Definition set_verifyExpiry : bool -> docuPassConfig -> docuPassConfig :=
  ltac:(assign_field rebuild_config verifyExpiry).
Definition set_verifyName : string -> docuPassConfig -> docuPassConfig :=
  ltac:(assign_field rebuild_config verifyName).
Definition set_verifyPhone : string -> docuPassConfig -> docuPassConfig :=
  ltac:(assign_field rebuild_config verifyPhone).
Definition set_verifyPostcode : string -> docuPassConfig -> docuPassConfig :=
  ltac:(assign_field rebuild_config verifyPostcode).

(** [docuPassRequest], the wire object. *)
Module Req.
Record docuPassRequest := {
  ApiKey : string;
  CompanyName : string;
  AMLCheck : bool;
  AMLDatabase : string;
  AMLStrictMatch : bool;
  AuthenticateMinScore : float32;
  AuthenticateModule : string;
  Biometric : N;
  BiometricThreshold : float32;
  CallbackUrl : string;
  ContractFormat : string;
  ContractGenerate : string;
  ContractPrefillData : gmap string json;
  ContractSign : string;
  CropDocument : bool;
  CustomHtmlUrl : string;
  CustomID : string;
  DocumentBase64 : string;
  DocumentBackBase64 : string;
  DocumentBackURL : string;
  DocumentCountry : string;
  DocumentRegion : string;
  DocumentType : string;
  DocumentURL : string;
  DualSideCheck : bool;
  FaceBase64 : string;
  FaceURL : string;
  FailRedir : string;
  Language : string;
  Logo : string;
  MaxAttempt : N;
  NoBranding : bool;
  PhoneVerification : bool;
  QRBgColor : string;
  QRColor : string;
  QRMargin : N;
  QRSize : N;
  ReturnDocumentImage : bool;
  ReturnFaceImage : bool;
  ReturnType : N;
  Reusable : bool;
  SMSContractLink : string;
  SMSVerificationLink : string;
  SuccessRedir : string;
  TemplateID : string;
  Type_ : N;
  VaultSave : bool;
  VerifyAddress : string;
  VerifyAge : string;
  VerifyDOB : string;
  VerifyDocumentNo : string;
  VerifyExpiry : bool;
  VerifyName : string;
  VerifyPhone : string;
  VerifyPostcode : string;
  WelcomeMessage : string;
  Client : string
}.

Definition rebuild (x : docuPassRequest) : docuPassRequest :=
  Build_docuPassRequest (ApiKey x)
    (CompanyName x)
    (AMLCheck x)
    (AMLDatabase x)
    (AMLStrictMatch x)
    (AuthenticateMinScore x)
    (AuthenticateModule x)
    (Biometric x)
    (BiometricThreshold x)
    (CallbackUrl x)
    (ContractFormat x)
    (ContractGenerate x)
    (ContractPrefillData x)
    (ContractSign x)
    (CropDocument x)
    (CustomHtmlUrl x)
    (CustomID x)
    (DocumentBase64 x)
    (DocumentBackBase64 x)
    (DocumentBackURL x)
    (DocumentCountry x)
    (DocumentRegion x)
    (DocumentType x)
    (DocumentURL x)
    (DualSideCheck x)
    (FaceBase64 x)
    (FaceURL x)
    (FailRedir x)
    (Language x)
    (Logo x)
    (MaxAttempt x)
    (NoBranding x)
    (PhoneVerification x)
    (QRBgColor x)
    (QRColor x)
    (QRMargin x)
    (QRSize x)
    (ReturnDocumentImage x)
    (ReturnFaceImage x)
    (ReturnType x)
    (Reusable x)
    (SMSContractLink x)
    (SMSVerificationLink x)
    (SuccessRedir x)
    (TemplateID x)
    (Type_ x)
    (VaultSave x)
    (VerifyAddress x)
    (VerifyAge x)
    (VerifyDOB x)
    (VerifyDocumentNo x)
    (VerifyExpiry x)
    (VerifyName x)
    (VerifyPhone x)
    (VerifyPostcode x)
    (WelcomeMessage x)
    (Client x).

Definition set_Type_ : N -> docuPassRequest -> docuPassRequest :=
  ltac:(assign_field rebuild Type_).
End Req.
Abbreviation docuPassRequest := Req.docuPassRequest.

(** [defaultDocuPassConfig]. *)
Definition defaultDocuPassConfig : docuPassConfig := {|
  amlCheck := false;
  amlDatabase := EmptyString;
  amlStrictMatch := false;
  authenticateMinScore := f32_zero;
  authenticateModule := "2";
  biometric := 0%N;
  biometricThreshold := f32_0_4;
  callbackUrl := EmptyString;
  contractFormat := EmptyString;
  contractGenerate := EmptyString;
  contractPrefillData := ∅;
  contractSign := EmptyString;
  cropDocument := false;
  customHtmlUrl := EmptyString;
  customID := EmptyString;
  documentCountry := EmptyString;
  documentRegion := EmptyString;
  documentType := EmptyString;
  dualSideCheck := false;
  failRedir := EmptyString;
  language := EmptyString;
  logo := EmptyString;
  maxAttempt := 1%N;
  noBranding := false;
  phoneVerification := false;
  qrBgColor := EmptyString;
  qrColor := EmptyString;
  qrMargin := 1%N;
  qrSize := 5%N;
  returnDocumentImage := true;
  returnFaceImage := true;
  returnType := 1%N;
  reusable := false;
  smsContractLink := EmptyString;
  smsVerificationLink := EmptyString;
  successRedir := EmptyString;
  vaultSave := true;
  verifyAddress := EmptyString;
  verifyAge := EmptyString;
  verifyDOB := EmptyString;
  verifyDocumentNo := EmptyString;
  verifyExpiry := false;
  verifyName := EmptyString;
  verifyPhone := EmptyString;
  verifyPostcode := EmptyString;
  welcomeMessage := EmptyString
|}.

(** The zero value of [docuPassConfig], as in [DocuPassAPI{}]. *)
Definition zeroDocuPassConfig : docuPassConfig := {|
  amlCheck := false;
  amlDatabase := EmptyString;
  amlStrictMatch := false;
  authenticateMinScore := f32_zero;
  authenticateModule := EmptyString;
  biometric := 0%N;
  biometricThreshold := f32_zero;
  callbackUrl := EmptyString;
  contractFormat := EmptyString;
  contractGenerate := EmptyString;
  contractPrefillData := ∅;
  contractSign := EmptyString;
  cropDocument := false;
  customHtmlUrl := EmptyString;
  customID := EmptyString;
  documentCountry := EmptyString;
  documentRegion := EmptyString;
  documentType := EmptyString;
  dualSideCheck := false;
  failRedir := EmptyString;
  language := EmptyString;
  logo := EmptyString;
  maxAttempt := 0%N;
  noBranding := false;
  phoneVerification := false;
  qrBgColor := EmptyString;
  qrColor := EmptyString;
  qrMargin := 0%N;
  qrSize := 0%N;
  returnDocumentImage := false;
  returnFaceImage := false;
  returnType := 0%N;
  reusable := false;
  smsContractLink := EmptyString;
  smsVerificationLink := EmptyString;
  successRedir := EmptyString;
  vaultSave := false;
  verifyAddress := EmptyString;
  verifyAge := EmptyString;
  verifyDOB := EmptyString;
  verifyDocumentNo := EmptyString;
  verifyExpiry := false;
  verifyName := EmptyString;
  verifyPhone := EmptyString;
  verifyPostcode := EmptyString;
  welcomeMessage := EmptyString
|}.

Record DocuPassAPI := {
  apiKey : string;
  apiEndpoint : string;
  companyName : string;
  config : docuPassConfig
}.

(** [d.config.f = v]: the receiver with its configuration changed. *)
Definition with_config (f : docuPassConfig -> docuPassConfig) (d : DocuPassAPI)
  : DocuPassAPI :=
  {| apiKey := apiKey d; apiEndpoint := apiEndpoint d;
     companyName := companyName d; config := f (config d) |}.

(** [requestFromConfig]. *)
Definition requestFromConfig (d : DocuPassAPI) : docuPassRequest := {|
  Req.ApiKey := apiKey d;
  Req.CompanyName := companyName d;
  Req.AMLCheck := amlCheck (config d);
  Req.AMLDatabase := amlDatabase (config d);
  Req.AMLStrictMatch := amlStrictMatch (config d);
  Req.AuthenticateMinScore := authenticateMinScore (config d);
  Req.AuthenticateModule := authenticateModule (config d);
  Req.Biometric := biometric (config d);
  Req.BiometricThreshold := biometricThreshold (config d);
  Req.CallbackUrl := callbackUrl (config d);
  Req.ContractFormat := contractFormat (config d);
  Req.ContractGenerate := contractGenerate (config d);
  Req.ContractPrefillData := contractPrefillData (config d);
  Req.ContractSign := contractSign (config d);
  Req.CropDocument := cropDocument (config d);
  Req.CustomHtmlUrl := customHtmlUrl (config d);
  Req.CustomID := customID (config d);
  Req.DocumentBase64 := EmptyString;
  Req.DocumentBackBase64 := EmptyString;
  Req.DocumentBackURL := EmptyString;
  Req.DocumentCountry := documentCountry (config d);
  Req.DocumentRegion := documentRegion (config d);
  Req.DocumentType := documentType (config d);
  Req.DocumentURL := EmptyString;
  Req.DualSideCheck := dualSideCheck (config d);
  Req.FaceBase64 := EmptyString;
  Req.FaceURL := EmptyString;
  Req.FailRedir := failRedir (config d);
  Req.Language := language (config d);
  Req.Logo := logo (config d);
  Req.MaxAttempt := maxAttempt (config d);
  Req.NoBranding := noBranding (config d);
  Req.PhoneVerification := phoneVerification (config d);
  Req.QRBgColor := qrBgColor (config d);
  Req.QRColor := qrColor (config d);
  Req.QRMargin := qrMargin (config d);
  Req.QRSize := qrSize (config d);
  Req.ReturnDocumentImage := returnDocumentImage (config d);
  Req.ReturnFaceImage := returnFaceImage (config d);
  Req.ReturnType := returnType (config d);
  Req.Reusable := reusable (config d);
  Req.SMSContractLink := smsContractLink (config d);
  Req.SMSVerificationLink := smsVerificationLink (config d);
  Req.SuccessRedir := successRedir (config d);
  Req.TemplateID := EmptyString;
  Req.Type_ := 0%N;
  Req.VaultSave := vaultSave (config d);
  Req.VerifyAddress := verifyAddress (config d);
  Req.VerifyAge := verifyAge (config d);
  Req.VerifyDOB := verifyDOB (config d);
  Req.VerifyDocumentNo := verifyDocumentNo (config d);
  Req.VerifyExpiry := verifyExpiry (config d);
  Req.VerifyName := verifyName (config d);
  Req.VerifyPhone := verifyPhone (config d);
  Req.VerifyPostcode := verifyPostcode (config d);
  Req.WelcomeMessage := welcomeMessage (config d);
  Req.Client := "go-sdk"
|}.

(** [DocuPassIdentityResponse]. *)
Module Identity.
Record DocuPassIdentityResponse := {
  Error : option APIError;
  Reference : string;
  Type_ : N;
  CustomID : string;
  URL : string;
  QRCode : string;
  BaseURL : string;
  HTML : string;
  SMSSent : string;
  Expiry : string
}.

Definition rebuild (x : DocuPassIdentityResponse) : DocuPassIdentityResponse :=
  Build_DocuPassIdentityResponse (Error x)
    (Reference x)
    (Type_ x)
    (CustomID x)
    (URL x)
    (QRCode x)
    (BaseURL x)
    (HTML x)
    (SMSSent x)
    (Expiry x).

Definition set_Error : (option APIError) -> DocuPassIdentityResponse -> DocuPassIdentityResponse :=
  ltac:(assign_field rebuild Error).
Definition set_Reference : string -> DocuPassIdentityResponse -> DocuPassIdentityResponse :=
  ltac:(assign_field rebuild Reference).
Definition set_Type_ : N -> DocuPassIdentityResponse -> DocuPassIdentityResponse :=
  ltac:(assign_field rebuild Type_).
Definition set_CustomID : string -> DocuPassIdentityResponse -> DocuPassIdentityResponse :=
  ltac:(assign_field rebuild CustomID).
Definition set_URL : string -> DocuPassIdentityResponse -> DocuPassIdentityResponse :=
  ltac:(assign_field rebuild URL).
Definition set_QRCode : string -> DocuPassIdentityResponse -> DocuPassIdentityResponse :=
  ltac:(assign_field rebuild QRCode).
Definition set_BaseURL : string -> DocuPassIdentityResponse -> DocuPassIdentityResponse :=
  ltac:(assign_field rebuild BaseURL).
Definition set_HTML : string -> DocuPassIdentityResponse -> DocuPassIdentityResponse :=
  ltac:(assign_field rebuild HTML).
Definition set_SMSSent : string -> DocuPassIdentityResponse -> DocuPassIdentityResponse :=
  ltac:(assign_field rebuild SMSSent).
Definition set_Expiry : string -> DocuPassIdentityResponse -> DocuPassIdentityResponse :=
  ltac:(assign_field rebuild Expiry).

Definition zero : DocuPassIdentityResponse := {|
  Error := None;
  Reference := EmptyString;
  Type_ := 0%N;
  CustomID := EmptyString;
  URL := EmptyString;
  QRCode := EmptyString;
  BaseURL := EmptyString;
  HTML := EmptyString;
  SMSSent := EmptyString;
  Expiry := EmptyString
|}.

Definition decode_member (r : DocuPassIdentityResponse) (kv : string * json) : DocuPassIdentityResponse :=
  let '(k, v) := kv in
  if key_is "error" k then set_Error (decode_APIError v (Error r)) r
  else if key_is "reference" k then set_Reference (decode_string v (Reference r)) r
  else if key_is "type" k then set_Type_ (decode_uint v (Type_ r)) r
  else if key_is "customid" k then set_CustomID (decode_string v (CustomID r)) r
  else if key_is "url" k then set_URL (decode_string v (URL r)) r
  else if key_is "qrcode" k then set_QRCode (decode_string v (QRCode r)) r
  else if key_is "base_url" k then set_BaseURL (decode_string v (BaseURL r)) r
  else if key_is "html" k then set_HTML (decode_string v (HTML r)) r
  else if key_is "smssent" k then set_SMSSent (decode_string v (SMSSent r)) r
  else if key_is "expiry" k then set_Expiry (decode_string v (Expiry r)) r
  else r.
End Identity.
Abbreviation DocuPassIdentityResponse := Identity.DocuPassIdentityResponse.

(** [DocuPassSignatureResponse]. *)
Module Signature.
Record DocuPassSignatureResponse := {
  Error : option APIError;
  Reference : string;
  CustomID : string;
  URL : string;
  QRCode : string;
  BaseURL : string;
  HTMLQRCode : string;
  HTMLIFrame : string;
  SMSSent : string;
  Expiry : string
}.

Definition rebuild (x : DocuPassSignatureResponse) : DocuPassSignatureResponse :=
  Build_DocuPassSignatureResponse (Error x)
    (Reference x)
    (CustomID x)
    (URL x)
    (QRCode x)
    (BaseURL x)
    (HTMLQRCode x)
    (HTMLIFrame x)
    (SMSSent x)
    (Expiry x).

Definition set_Error : (option APIError) -> DocuPassSignatureResponse -> DocuPassSignatureResponse :=
  ltac:(assign_field rebuild Error).
Definition set_Reference : string -> DocuPassSignatureResponse -> DocuPassSignatureResponse :=
  ltac:(assign_field rebuild Reference).
Definition set_CustomID : string -> DocuPassSignatureResponse -> DocuPassSignatureResponse :=
  ltac:(assign_field rebuild CustomID).
Definition set_URL : string -> DocuPassSignatureResponse -> DocuPassSignatureResponse :=
  ltac:(assign_field rebuild URL).
Definition set_QRCode : string -> DocuPassSignatureResponse -> DocuPassSignatureResponse :=
  ltac:(assign_field rebuild QRCode).
Definition set_BaseURL : string -> DocuPassSignatureResponse -> DocuPassSignatureResponse :=
  ltac:(assign_field rebuild BaseURL).
Definition set_HTMLQRCode : string -> DocuPassSignatureResponse -> DocuPassSignatureResponse :=
  ltac:(assign_field rebuild HTMLQRCode).
Definition set_HTMLIFrame : string -> DocuPassSignatureResponse -> DocuPassSignatureResponse :=
  ltac:(assign_field rebuild HTMLIFrame).
Definition set_SMSSent : string -> DocuPassSignatureResponse -> DocuPassSignatureResponse :=
  ltac:(assign_field rebuild SMSSent).
Definition set_Expiry : string -> DocuPassSignatureResponse -> DocuPassSignatureResponse :=
  ltac:(assign_field rebuild Expiry).

Definition zero : DocuPassSignatureResponse := {|
  Error := None;
  Reference := EmptyString;
  CustomID := EmptyString;
  URL := EmptyString;
  QRCode := EmptyString;
  BaseURL := EmptyString;
  HTMLQRCode := EmptyString;
  HTMLIFrame := EmptyString;
  SMSSent := EmptyString;
  Expiry := EmptyString
|}.

Definition decode_member (r : DocuPassSignatureResponse) (kv : string * json) : DocuPassSignatureResponse :=
  let '(k, v) := kv in
  if key_is "error" k then set_Error (decode_APIError v (Error r)) r
  else if key_is "reference" k then set_Reference (decode_string v (Reference r)) r
  else if key_is "customid" k then set_CustomID (decode_string v (CustomID r)) r
  else if key_is "url" k then set_URL (decode_string v (URL r)) r
  else if key_is "qrcode" k then set_QRCode (decode_string v (QRCode r)) r
  else if key_is "base_url" k then set_BaseURL (decode_string v (BaseURL r)) r
  else if key_is "html_qrcode" k then set_HTMLQRCode (decode_string v (HTMLQRCode r)) r
  else if key_is "html_iframe" k then set_HTMLIFrame (decode_string v (HTMLIFrame r)) r
  else if key_is "smssent" k then set_SMSSent (decode_string v (SMSSent r)) r
  else if key_is "expiry" k then set_Expiry (decode_string v (Expiry r)) r
  else r.
End Signature.
Abbreviation DocuPassSignatureResponse := Signature.DocuPassSignatureResponse.

(** [DocuPassValidationResponse]. *)
Module Validation.
Record DocuPassValidationResponse := {
  Error : option APIError;
  Success : bool;
  Reference : string
}.

Definition rebuild (x : DocuPassValidationResponse) : DocuPassValidationResponse :=
  Build_DocuPassValidationResponse (Error x)
    (Success x)
    (Reference x).

Definition set_Error : (option APIError) -> DocuPassValidationResponse -> DocuPassValidationResponse :=
  ltac:(assign_field rebuild Error).
Definition set_Success : bool -> DocuPassValidationResponse -> DocuPassValidationResponse :=
  ltac:(assign_field rebuild Success).
Definition set_Reference : string -> DocuPassValidationResponse -> DocuPassValidationResponse :=
  ltac:(assign_field rebuild Reference).

Definition zero : DocuPassValidationResponse := {|
  Error := None;
  Success := false;
  Reference := EmptyString
|}.

Definition decode_member (r : DocuPassValidationResponse) (kv : string * json) : DocuPassValidationResponse :=
  let '(k, v) := kv in
  if key_is "error" k then set_Error (decode_APIError v (Error r)) r
  else if key_is "success" k then set_Success (decode_bool v (Success r)) r
  else if key_is "reference" k then set_Reference (decode_string v (Reference r)) r
  else r.
End Validation.
Abbreviation DocuPassValidationResponse := Validation.DocuPassValidationResponse.

(** [NewDocuPassAPI]. *)
Definition zeroDocuPassAPI : DocuPassAPI :=
  {| apiKey := EmptyString; apiEndpoint := EmptyString;
     companyName := EmptyString; config := zeroDocuPassConfig |}.

Definition NewDocuPassAPI (apiKey companyName region : string)
  : DocuPassAPI * option error :=
  if String.eqb apiKey EmptyString
  then (zeroDocuPassAPI, Some "please provide an API key")
  else if String.eqb companyName EmptyString
  then (zeroDocuPassAPI, Some "please provide your company name")
  else ({| apiKey := apiKey;
           apiEndpoint := endpointFromRegion region "docupass";
           companyName := companyName;
           config := defaultDocuPassConfig |}, None).

(** *** Setters *)

Definition ResetConfig (d : DocuPassAPI) : DocuPassAPI :=
  with_config (fun _ => defaultDocuPassConfig) d.

Definition SetMaxAttempt (d : DocuPassAPI) (maxAttempt : N)
  : DocuPassAPI * option error :=
  if (maxAttempt <? 1)%N || (10 <? maxAttempt)%N
  then (d, Some "invalid max attempt, please specify integer between 1 to 10")
  else (with_config (set_maxAttempt maxAttempt) d, None).







(** [SetCallbackUrl].  [hasIsPrivate] is the platform fact [isPrivateIP]
    depends on. *)
Definition SetCallbackUrl (hasIsPrivate : bool) (d : DocuPassAPI)
    (callback : string) : DocuPassAPI * option error :=
  match url.ParseRequestURI callback with
  | None => (d, Some "invalid URL format")
  | Some uri =>
      if match net.ParseIP (url.Host uri) with
         | Some ip => isPrivateIP hasIsPrivate ip
         | None => false
         end
         || String.eqb (ToLower (url.Host uri)) "localhost"
      then (d, Some "invalid URL, the host does not appear to be a remote host")
      else if negb (String.eqb (url.Scheme uri) "http")
              && negb (String.eqb (url.Scheme uri) "https")
      then (d, Some "invalid URL, only http and https protocols are allowed")
      else (with_config (set_callbackUrl callback) d, None)
  end.

Definition parses (s : string) : bool :=
  bool_decide (is_Some (url.ParseRequestURI s)).

Definition SetRedirectURL (d : DocuPassAPI) (successUrl failUrl : string)
  : DocuPassAPI * option error :=
  if negb (parses successUrl) && negb (String.eqb successUrl EmptyString)
  then (d, Some "invalid URL format for success URL")
  else if negb (parses failUrl) && negb (String.eqb failUrl EmptyString)
  then (d, Some "invalid URL format for fail URL")
  else
    let d := with_config (set_successRedir successUrl) d in
    (with_config (set_failRedir failUrl) d, None).

Definition invalid_module : error :=
  "invalid authentication module; " +:+ dq +:+ "1" +:+ dq +:+ ", " +:+ dq
  +:+ "2" +:+ dq +:+ " or " +:+ dq +:+ "quick" +:+ dq +:+ " accepted".

Definition EnableAuthentication (d : DocuPassAPI) (enabled : bool)
    (module : string) (minScore : float32) : DocuPassAPI * option error :=
  if negb enabled
  then (with_config (set_authenticateMinScore f32_zero) d, None)
  else if f32_lt minScore f32_zero || f32_gt minScore f32_one
  then (d, Some "invalid minimum score; please specify float between 0 to 1")
  else if negb (String.eqb module "1") && negb (String.eqb module "2")
          && negb (String.eqb module "quick")
  then (d, Some invalid_module)
  else
    let d := with_config (set_authenticateModule module) d in
    (with_config (set_authenticateMinScore minScore) d, None).

Definition EnableFaceVerification (d : DocuPassAPI) (enabled : bool)
    (verificationType : N) (threshold : float32) : DocuPassAPI * option error :=
  if negb enabled
  then (with_config (set_biometric 0%N) d, None)
  else if f32_lt threshold f32_zero || f32_gt threshold f32_one
  then (d, Some "invalid threshold; please specify float between 0 to 1")
  else if negb (verificationType =? 1)%N && negb (verificationType =? 2)%N
  then (d, Some "invalid verification type; use 1 for photo verification, 2 for video verification")
  else
    let d := with_config (set_biometric verificationType) d in
    (with_config (set_biometricThreshold threshold) d, None).



Definition SetQRCodeFormat (d : DocuPassAPI) (fore back : string)
    (size margin : N) : DocuPassAPI * option error :=
  if negb (strconv.ParseUint_hex_ok fore) || negb (strlen fore =? 6)%N
  then (d, Some "invalid foreground color HEX code")
  else if negb (strconv.ParseUint_hex_ok back) || negb (strlen back =? 6)%N
  then (d, Some "invalid background color HEX code")
  else if (size <? 1)%N || (50 <? size)%N
  then (d, Some "invalid image size; must be between 1 and 50")
  else if (margin <? 1)%N || (50 <? margin)%N
  then (d, Some "invalid margin; must be between 1 and 50")
  else
    let d := with_config (set_qrColor fore) d in
    let d := with_config (set_qrBgColor back) d in
    let d := with_config (set_qrSize size) d in
    (with_config (set_qrMargin margin) d, None).

Definition EnableDualSideCheck (d : DocuPassAPI) (enabled : bool) : DocuPassAPI :=
  with_config (set_dualSideCheck enabled) d.

Definition EnableAMLCheck (d : DocuPassAPI) (enabled : bool) : DocuPassAPI :=
  with_config (set_amlCheck enabled) d.

Definition SetAMLDatabase (d : DocuPassAPI) (databases : string) : DocuPassAPI :=
  with_config (set_amlDatabase databases) d.

Definition EnableAMLStrictMatch (d : DocuPassAPI) (enabled : bool) : DocuPassAPI :=
  with_config (set_amlStrictMatch enabled) d.


Definition SMSVerificationLink (d : DocuPassAPI) (number : string) : DocuPassAPI :=
  with_config (set_smsVerificationLink number) d.

Definition SMSContractLink (d : DocuPassAPI) (number : string) : DocuPassAPI :=
  with_config (set_smsContractLink number) d.

Definition VerifyPhone (d : DocuPassAPI) (number : string) : DocuPassAPI :=
  with_config (set_verifyPhone number) d.

Definition VerifyExpiry (d : DocuPassAPI) (verify : bool) : DocuPassAPI :=
  with_config (set_verifyExpiry verify) d.

Definition VerifyDocumentNumber (d : DocuPassAPI) (number : string) : DocuPassAPI :=
  with_config (set_verifyDocumentNo number) d.

Definition VerifyName (d : DocuPassAPI) (name : string) : DocuPassAPI :=
  with_config (set_verifyName name) d.

Definition VerifyDOB (d : DocuPassAPI) (date : string) : DocuPassAPI * option error :=
  if negb (time.Parse_ymd_ok date) && negb (String.eqb date EmptyString)
  then (d, Some "invalid birthday format (YYYY/MM/DD)")
  else (with_config (set_verifyDOB date) d, None).

Definition VerifyAge (d : DocuPassAPI) (ageRange : string)
  : DocuPassAPI * option error :=
  if negb (regexp.match_age_range ageRange)
     && negb (String.eqb ageRange EmptyString)
  then (d, Some "invalid age range format (minAge-maxAge)")
  else (with_config (set_verifyAge ageRange) d, None).

Definition VerifyAddress (d : DocuPassAPI) (address : string) : DocuPassAPI :=
  with_config (set_verifyAddress address) d.

Definition VerifyPostcode (d : DocuPassAPI) (postcode : string) : DocuPassAPI :=
  with_config (set_verifyPostcode postcode) d.

Definition RestrictCountry (d : DocuPassAPI) (countryCodes : string) : DocuPassAPI :=
  with_config (set_documentCountry countryCodes) d.

Definition RestrictState (d : DocuPassAPI) (states : string) : DocuPassAPI :=
  with_config (set_documentRegion states) d.

Definition RestrictType (d : DocuPassAPI) (documentType : string) : DocuPassAPI :=
  with_config (set_documentType documentType) d.

Definition EnableVault (d : DocuPassAPI) (enabled : bool) : DocuPassAPI :=
  with_config (set_vaultSave enabled) d.

Definition invalid_format : error :=
  "invalid format; must be " +:+ dq +:+ "PDF" +:+ dq +:+ ", " +:+ dq +:+ "DOCX"
  +:+ dq +:+ ", or " +:+ dq +:+ "HTML" +:+ dq.

Definition GenerateContract (d : DocuPassAPI) (templateID format : string)
    (prefillData : gmap string json) : DocuPassAPI * option error :=
  if String.eqb templateID EmptyString then (d, Some "invalid template ID")
  else if negb (String.eqb format "PDF") && negb (String.eqb format "DOCX")
          && negb (String.eqb format "HTML")
  then (d, Some invalid_format)
  else
    let d := with_config (set_contractGenerate templateID) d in
    let d := with_config (set_contractSign EmptyString) d in
    let d := with_config (set_contractFormat format) d in
    (with_config (set_contractPrefillData prefillData) d, None).

Definition SignContract (d : DocuPassAPI) (templateID format : string)
    (prefillData : gmap string json) : DocuPassAPI * option error :=
  if String.eqb templateID EmptyString then (d, Some "invalid template ID")
  else if negb (String.eqb format "PDF") && negb (String.eqb format "DOCX")
          && negb (String.eqb format "HTML")
  then (d, Some invalid_format)
  else
    let d := with_config (set_contractGenerate EmptyString) d in
    let d := with_config (set_contractSign templateID) d in
    let d := with_config (set_contractFormat format) d in
    (with_config (set_contractPrefillData prefillData) d, None).

(** *** Actions *)

(** What the façade posts: a [docuPassRequest], or the map literal of
    [Validate]. *)
Inductive wire :=
| WRequest (r : docuPassRequest)
| WValidate (m : gmap string string).

(** The embedded error turned into the error of the call. *)
Definition outcome {R : Type} (embedded : R -> option APIError) (result : R)
  : R * option error :=
  match embedded result with
  | Some e =>
      if negb (String.eqb (Message e) EmptyString)
      then (result, Some (Errorf_code_message (Code e) (Message e)))
      else (result, None)
  | None => (result, None)
  end.

Definition create (post : Transport wire) (d : DocuPassAPI) (mode : N)
  : (DocuPassIdentityResponse * option error) * Calls wire :=
  let payload := requestFromConfig d in
  let payload := Req.set_Type_ mode payload in
  let target := apiEndpoint d +:+ "/create" in
  (match post target (WRequest payload) with
   | inl err => (Identity.zero, Some (connect_error err))
   | inr body =>
       outcome Identity.Error (Unmarshal Identity.decode_member body Identity.zero)
   end, [(target, WRequest payload)]).

Definition CreateIFrame post d := create post d 0.
Definition CreateMobile post d := create post d 1.
Definition CreateRedirection post d := create post d 2.
Definition CreateLiveMobile post d := create post d 3.


(** [Validate]: the decoded [Success] flag is returned with a nil error,
    whatever the embedded error. *)
Definition Validate (post : Transport wire) (d : DocuPassAPI)
    (reference hash : string) : (bool * option error) * Calls wire :=
  let payload : gmap string string :=
    <["hash" := hash]> (<["reference" := reference]> {["apikey" := apiKey d]}) in
  let target := apiEndpoint d +:+ "/validate" in
  (match post target (WValidate payload) with
   | inl err => (false, Some (connect_error err))
   | inr body =>
       let result := Unmarshal Validation.decode_member body Validation.zero in
       (Validation.Success result, None)
   end, [(target, WValidate payload)]).

End DocuPassAPI.

(** ** vault.go, the revision with typed requests and responses *)

Module VaultAPI.

Record VaultAPI := { apiKey : string; apiEndpoint : string }.

(** Nested [VaultData] and [VaultImageData] results are kept as the
    JSON they are decoded from. *)
(** [VaultItemResponse]. *)
Module Item.
Record VaultItemResponse := {
  Error : option APIError;
  Success : bool;
  Data : option json
}.

Definition rebuild (x : VaultItemResponse) : VaultItemResponse :=
  Build_VaultItemResponse (Error x)
    (Success x)
    (Data x).

Definition set_Error : (option APIError) -> VaultItemResponse -> VaultItemResponse :=
  ltac:(assign_field rebuild Error).
Definition set_Success : bool -> VaultItemResponse -> VaultItemResponse :=
  ltac:(assign_field rebuild Success).
Definition set_Data : (option json) -> VaultItemResponse -> VaultItemResponse :=
  ltac:(assign_field rebuild Data).

Definition zero : VaultItemResponse := {|
  Error := None;
  Success := false;
  Data := None
|}.

Definition decode_member (r : VaultItemResponse) (kv : string * json) : VaultItemResponse :=
  let '(k, v) := kv in
  if key_is "error" k then set_Error (decode_APIError v (Error r)) r
  else if key_is "success" k then set_Success (decode_bool v (Success r)) r
  else if key_is "data" k then set_Data (decode_ptr v (Data r)) r
  else r.
End Item.
Abbreviation VaultItemResponse := Item.VaultItemResponse.

(** [VaultListResponse]. *)
Module Listing.
Record VaultListResponse := {
  Error : option APIError;
  Limit : N;
  Offset : N;
  NextOffset : N;
  Total : N;
  Items : list json
}.

Definition rebuild (x : VaultListResponse) : VaultListResponse :=
  Build_VaultListResponse (Error x)
    (Limit x)
    (Offset x)
    (NextOffset x)
    (Total x)
    (Items x).

Definition set_Error : (option APIError) -> VaultListResponse -> VaultListResponse :=
  ltac:(assign_field rebuild Error).
Definition set_Limit : N -> VaultListResponse -> VaultListResponse :=
  ltac:(assign_field rebuild Limit).
Definition set_Offset : N -> VaultListResponse -> VaultListResponse :=
  ltac:(assign_field rebuild Offset).
Definition set_NextOffset : N -> VaultListResponse -> VaultListResponse :=
  ltac:(assign_field rebuild NextOffset).
Definition set_Total : N -> VaultListResponse -> VaultListResponse :=
  ltac:(assign_field rebuild Total).
Definition set_Items : (list json) -> VaultListResponse -> VaultListResponse :=
  ltac:(assign_field rebuild Items).

Definition zero : VaultListResponse := {|
  Error := None;
  Limit := 0%N;
  Offset := 0%N;
  NextOffset := 0%N;
  Total := 0%N;
  Items := []
|}.

Definition decode_member (r : VaultListResponse) (kv : string * json) : VaultListResponse :=
  let '(k, v) := kv in
  if key_is "error" k then set_Error (decode_APIError v (Error r)) r
  else if key_is "limit" k then set_Limit (decode_uint v (Limit r)) r
  else if key_is "offset" k then set_Offset (decode_uint v (Offset r)) r
  else if key_is "nextoffset" k then set_NextOffset (decode_uint v (NextOffset r)) r
  else if key_is "total" k then set_Total (decode_uint v (Total r)) r
  else if key_is "items" k then set_Items (decode_items v (Items r)) r
  else r.
End Listing.
Abbreviation VaultListResponse := Listing.VaultListResponse.

(** [VaultSuccessResponse]. *)
Module Success.
Record VaultSuccessResponse := {
  Success : N;
  Error : option APIError
}.

Definition rebuild (x : VaultSuccessResponse) : VaultSuccessResponse :=
  Build_VaultSuccessResponse (Success x)
    (Error x).

Definition set_Success : N -> VaultSuccessResponse -> VaultSuccessResponse :=
  ltac:(assign_field rebuild Success).
Definition set_Error : (option APIError) -> VaultSuccessResponse -> VaultSuccessResponse :=
  ltac:(assign_field rebuild Error).

Definition zero : VaultSuccessResponse := {|
  Success := 0%N;
  Error := None
|}.

Definition decode_member (r : VaultSuccessResponse) (kv : string * json) : VaultSuccessResponse :=
  let '(k, v) := kv in
  if key_is "success" k then set_Success (decode_uint v (Success r)) r
  else if key_is "error" k then set_Error (decode_APIError v (Error r)) r
  else r.
End Success.
Abbreviation VaultSuccessResponse := Success.VaultSuccessResponse.

(** [VaultImageResponse]. *)
Module Image.
Record VaultImageResponse := {
  Success : N;
  Error : option APIError;
  Image : option json
}.

Definition rebuild (x : VaultImageResponse) : VaultImageResponse :=
  Build_VaultImageResponse (Success x)
    (Error x)
    (Image x).

Definition set_Success : N -> VaultImageResponse -> VaultImageResponse :=
  ltac:(assign_field rebuild Success).
Definition set_Error : (option APIError) -> VaultImageResponse -> VaultImageResponse :=
  ltac:(assign_field rebuild Error).
Definition set_Image : (option json) -> VaultImageResponse -> VaultImageResponse :=
  ltac:(assign_field rebuild Image).

Definition zero : VaultImageResponse := {|
  Success := 0%N;
  Error := None;
  Image := None
|}.

Definition decode_member (r : VaultImageResponse) (kv : string * json) : VaultImageResponse :=
  let '(k, v) := kv in
  if key_is "success" k then set_Success (decode_uint v (Success r)) r
  else if key_is "error" k then set_Error (decode_APIError v (Error r)) r
  else if key_is "image" k then set_Image (decode_ptr v (Image r)) r
  else r.
End Image.
Abbreviation VaultImageResponse := Image.VaultImageResponse.

(** [VaultFaceSearchResponse]. *)
Module FaceSearch.
Record VaultFaceSearchResponse := {
  Error : option APIError;
  Items : list json
}.

Definition rebuild (x : VaultFaceSearchResponse) : VaultFaceSearchResponse :=
  Build_VaultFaceSearchResponse (Error x)
    (Items x).

Definition set_Error : (option APIError) -> VaultFaceSearchResponse -> VaultFaceSearchResponse :=
  ltac:(assign_field rebuild Error).
Definition set_Items : (list json) -> VaultFaceSearchResponse -> VaultFaceSearchResponse :=
  ltac:(assign_field rebuild Items).

Definition zero : VaultFaceSearchResponse := {|
  Error := None;
  Items := []
|}.

Definition decode_member (r : VaultFaceSearchResponse) (kv : string * json) : VaultFaceSearchResponse :=
  let '(k, v) := kv in
  if key_is "error" k then set_Error (decode_APIError v (Error r)) r
  else if key_is "items" k then set_Items (decode_items v (Items r)) r
  else r.
End FaceSearch.
Abbreviation VaultFaceSearchResponse := FaceSearch.VaultFaceSearchResponse.

(** [VaultTrainingStatusResponse]. *)
Module Training.
Record VaultTrainingStatusResponse := {
  Status : string;
  StartTime : string;
  StatusChangeTime : string;
  LastSuccessTime : string;
  Error : option APIError
}.

Definition rebuild (x : VaultTrainingStatusResponse) : VaultTrainingStatusResponse :=
  Build_VaultTrainingStatusResponse (Status x)
    (StartTime x)
    (StatusChangeTime x)
    (LastSuccessTime x)
    (Error x).

Definition set_Status : string -> VaultTrainingStatusResponse -> VaultTrainingStatusResponse :=
  ltac:(assign_field rebuild Status).
Definition set_StartTime : string -> VaultTrainingStatusResponse -> VaultTrainingStatusResponse :=
  ltac:(assign_field rebuild StartTime).
Definition set_StatusChangeTime : string -> VaultTrainingStatusResponse -> VaultTrainingStatusResponse :=
  ltac:(assign_field rebuild StatusChangeTime).
Definition set_LastSuccessTime : string -> VaultTrainingStatusResponse -> VaultTrainingStatusResponse :=
  ltac:(assign_field rebuild LastSuccessTime).
Definition set_Error : (option APIError) -> VaultTrainingStatusResponse -> VaultTrainingStatusResponse :=
  ltac:(assign_field rebuild Error).

Definition zero : VaultTrainingStatusResponse := {|
  Status := EmptyString;
  StartTime := EmptyString;
  StatusChangeTime := EmptyString;
  LastSuccessTime := EmptyString;
  Error := None
|}.

Definition decode_member (r : VaultTrainingStatusResponse) (kv : string * json) : VaultTrainingStatusResponse :=
  let '(k, v) := kv in
  if key_is "status" k then set_Status (decode_string v (Status r)) r
  else if key_is "startTime" k then set_StartTime (decode_string v (StartTime r)) r
  else if key_is "statusChangeTime" k then set_StatusChangeTime (decode_string v (StatusChangeTime r)) r
  else if key_is "lastSuccessTime" k then set_LastSuccessTime (decode_string v (LastSuccessTime r)) r
  else if key_is "error" k then set_Error (decode_APIError v (Error r)) r
  else r.
End Training.
Abbreviation VaultTrainingStatusResponse := Training.VaultTrainingStatusResponse.

(** The request types, as the members [json.Marshal] writes for them. *)
Definition VaultItemRequest (ID : string) : value :=
  VMap [("id", VString ID)].

Definition VaultListRequest (OrderBy Sort : string) (Limit Offset : N)
    (Filter : list string) : value :=
  VMap [("orderby", VString OrderBy); ("sort", VString Sort);
        ("limit", VUint Limit); ("offset", VUint Offset);
        ("filter", VStrings Filter)].

(** [VaultData]: its identifier and its other members. *)
Record VaultData := { ID : string; members : list (string * value) }.

Definition VaultData_value (data : VaultData) : value :=
  VMap (("id", VString (ID data)) :: members data).

Definition NewVaultAPI (apiKey region : string) : VaultAPI * option error :=
  if String.eqb apiKey EmptyString
  then ({| apiKey := EmptyString; apiEndpoint := EmptyString |},
        Some "please provide an API key")
  else ({| apiKey := apiKey; apiEndpoint := endpointFromRegion region "vault" |},
        None).

(** [json.Marshal request] followed by [json.Unmarshal] into the nil
    [map[string]interface{}]: a struct or map becomes a map of its
    members; anything else leaves the map nil. *)
Definition to_payload (request : value) : option (gmap string value) :=
  match request with
  | VMap members => Some (list_to_map members)
  | _ => None
  end.

(** [callAPI]: [result] is what the caller's response holds before the
    call; the response after the call is returned with the error. *)
Definition callAPI {R : Type} (member : R -> string * json -> R)
    (post : Transport (gmap string value)) (v : VaultAPI) (action : string)
    (request : value) (result : R)
  : run (R * option error) * Calls (gmap string value) :=
  match to_payload request with
  | None => (Panic nil_map_assignment, [])
  | Some payload =>
      let payload := <["apikey" := VString (apiKey v)]> payload in
      let payload := <["client" := VString "go-sdk"]> payload in
      let target := apiEndpoint v +:+ "/" +:+ action in
      (match post target payload with
       | inl err => Done (result, Some (connect_error err))
       | inr body => Done (Unmarshal member body result, None)
       end, [(target, payload)])
  end.

Definition Get (post : Transport (gmap string value)) (v : VaultAPI)
    (vault_id : string) :=
  if String.eqb vault_id EmptyString
  then (Done (Item.zero, Some "vault entry ID required"), [])
  else callAPI Item.decode_member post v "get" (VaultItemRequest vault_id) Item.zero.

Definition List (post : Transport (gmap string value)) (v : VaultAPI)
    (filter : list string) (orderby sort : string) (limit offset : N) :=
  if Nat.ltb 5 (length filter)
  then (Done (Listing.zero,
              Some "filter should be an array containing maximum of 5 filter statements"), [])
  else callAPI Listing.decode_member post v "list"
         (VaultListRequest orderby sort limit offset filter) Listing.zero.

Definition Update (post : Transport (gmap string value)) (v : VaultAPI)
    (data : VaultData) :=
  if String.eqb (ID data) EmptyString
  then (Done (Success.zero, Some "vault entry ID required"), [])
  else callAPI Success.decode_member post v "update" (VaultData_value data)
         Success.zero.

Definition Delete (post : Transport (gmap string value)) (v : VaultAPI)
    (vault_id : string) :=
  if String.eqb vault_id EmptyString
  then (Done (Success.zero, Some "vault entry ID required"), [])
  else callAPI Success.decode_member post v "delete" (VaultItemRequest vault_id)
         Success.zero.

(** The classifier chain of [AddImage] and [SearchFace]: the members
    to add to the payload, or no member when the image is invalid. *)
Definition image_member (fs : os.FS) (image : string)
  : run (option (string * value)) :=
  match url.ParseRequestURI image with
  | Some _ => Done (Some ("imageurl", VString image))
  | None =>
      found ← fileExists fs image;
      if found : bool then Done (Some ("image", VString (base64File fs image)))
      else if (100 <? strlen image)%N then Done (Some ("image", VString image))
      else Done None
  end.

Definition AddImage (fs : os.FS) (post : Transport (gmap string value))
    (v : VaultAPI) (vault_id image : string) (image_type : N) :=
  if String.eqb vault_id EmptyString
  then (Done (Image.zero, Some "vault entry ID required"), [])
  else if negb (image_type =? 0)%N && negb (image_type =? 1)%N
  then (Done (Image.zero, Some "invalid image type, 0 or 1 accepted"), [])
  else
    match image_member fs image with
    | Panic reason => (Panic reason, [])
    | Done None =>
        (Done (Image.zero, Some "invalid image, file not found, or malformed URL"), [])
    | Done (Some kv) =>
        callAPI Image.decode_member post v "addimage"
          (VMap [("id", VString vault_id); ("type", VUint image_type); kv])
          Image.zero
    end.

Definition DeleteImage (post : Transport (gmap string value)) (v : VaultAPI)
    (vault_id image_id : string) :=
  if String.eqb vault_id EmptyString
  then (Done (Success.zero, Some "vault entry ID required"), [])
  else if String.eqb image_id EmptyString
  then (Done (Success.zero, Some "image ID required"), [])
  else callAPI Success.decode_member post v "deleteimage"
         (VMap [("id", VString vault_id); ("imageid", VString image_id)])
         Success.zero.

Definition SearchFace (fs : os.FS) (post : Transport (gmap string value))
    (v : VaultAPI) (image : string) (maxEntry : N) (threshold : float32) :=
  match image_member fs image with
  | Panic reason => (Panic reason, [])
  | Done None =>
      (Done (FaceSearch.zero, Some "invalid image, file not found or malformed URL"), [])
  | Done (Some kv) =>
      callAPI FaceSearch.decode_member post v "searchface"
        (VMap [("maxentry", VUint maxEntry); ("threshold", VFloat32 threshold); kv])
        FaceSearch.zero
  end.

(** [TrainFace] and [TrainingStatus] pass an empty string slice, which
    marshals to a JSON array. *)
Definition TrainFace (post : Transport (gmap string value)) (v : VaultAPI) :=
  callAPI Success.decode_member post v "train" (VStrings []) Success.zero.

Definition TrainingStatus (post : Transport (gmap string value)) (v : VaultAPI) :=
  callAPI Training.decode_member post v "trainstatus" (VStrings []) Training.zero.

End VaultAPI.

(** ** vault.go, the revision with map requests and responses

    [VaultRequest] is a Go map, so a value of that type is a reference:
    nil, or the location of a map in the store.  A call receives the
    store and returns it, with the maps it assigned into. *)

Module VaultMapAPI.

Record VaultAPI := { apiKey : string; apiEndpoint : string }.

Abbreviation loc := positive.

(** The maps alive in the program, by location. *)
Abbreviation Store := (gmap loc (gmap string value)).

(** [VaultRequest]: a nil map, or a reference. *)
Abbreviation VaultRequest := (option loc).

(** [VaultResponse]: the decoded members, or nil. *)
Abbreviation VaultResponse := (option (gmap string json)).

(** [len(m)] of a referenced map. *)
Definition map_len (store : Store) (m : VaultRequest) : nat :=
  match m with
  | Some l => size (default ∅ (store !! l))
  | None => O
  end.

(** [m[k] = x] on a non-nil map. *)
Definition assign (l : loc) (k : string) (x : value) (store : Store) : Store :=
  alter (insert k x) l store.

(** A map literal: a new map at a location not in use. *)
Definition literal (members : list (string * value)) (store : Store)
  : loc * Store :=
  let l := fresh (dom store) in
  (l, <[l := list_to_map members]> store).

Section Calls.

(** [fmt.Errorf("%d: %s", code, message)] on two interface values
    taken from the decoded response. *)
Variable Errorf : option json -> option json -> error.

Definition NewVaultAPI (apiKey region : string) : VaultAPI * option error :=
  if String.eqb apiKey EmptyString
  then ({| apiKey := EmptyString; apiEndpoint := EmptyString |},
        Some "please provide an API key")
  else ({| apiKey := apiKey; apiEndpoint := endpointFromRegion region "vault" |},
        None).

(** [json.Unmarshal body &result] for the nil map [result]. *)
Definition decode_response (body : option json) : VaultResponse :=
  match body with
  | Some (JObj members) =>
      Some (fold_left (fun m kv => <[kv.1 := kv.2]> m) members ∅)
  | _ => None
  end.

Definition member_of (j : json) (k : string) : option json :=
  match j with
  | JObj members =>
      fold_left (fun m kv => <[kv.1 := kv.2]> m) members (∅ : gmap string json) !! k
  | _ => None
  end.

Definition interface_conversion : string :=
  "interface conversion: interface {} is not map[string]interface {}".

(** The look at ["error"] that ends [callAPI]. *)
Definition inspect (result : VaultResponse)
  : run (VaultResponse * option error) :=
  match result ≫= (.!! "error") with
  | None => Done (result, None)
  | Some (JObj members) =>
      let err := JObj members in
      match member_of err "message" with
      | Some (JStr EmptyString) => Done (result, None)
      | message => Done (result, Some (Errorf (member_of err "code") message))
      end
  | Some _ => Panic interface_conversion
  end.

(** [callAPI]: the two assignments go into the caller's map. *)
Definition callAPI (post : Transport (gmap string value)) (v : VaultAPI)
    (action : string) (payload : VaultRequest) (store : Store)
  : Store * run (VaultResponse * option error) * Calls (gmap string value) :=
  match payload with
  | None => (store, Panic nil_map_assignment, [])
  | Some l =>
      let store := assign l "apikey" (VString (apiKey v)) store in
      let store := assign l "client" (VString "go-sdk") store in
      let sent := default ∅ (store !! l) in
      let target := apiEndpoint v +:+ "/" +:+ action in
      match post target sent with
      | inl err => (store, Done (Some ∅, Some (connect_error err)),
                    [(target, sent)])
      | inr body => (store, inspect (decode_response body), [(target, sent)])
      end
  end.

Definition Get (post : Transport (gmap string value)) (v : VaultAPI)
    (vault_id : string) (store : Store) :=
  if String.eqb vault_id EmptyString
  then (store, Done (None, Some "vault entry ID required"), [])
  else
    let '(l, store) := literal [("id", VString vault_id)] store in
    callAPI post v "get" (Some l) store.

Definition List (post : Transport (gmap string value)) (v : VaultAPI)
    (filter : list string) (orderby sort : string) (limit offset : N)
    (store : Store) :=
  if Nat.ltb 5 (length filter)
  then (store,
        Done (None, Some "filter should be an array containing maximum of 5 filter statements"),
        [])
  else
    let '(l, store) :=
      literal [("filter", VStrings filter); ("orderby", VString orderby);
               ("sort", VString sort); ("limit", VUint limit);
               ("offset", VUint offset)] store in
    callAPI post v "list" (Some l) store.

(** [Update]: the identifier is assigned into the caller's [data]. *)
Definition Update (post : Transport (gmap string value)) (v : VaultAPI)
    (vault_id : string) (data : VaultRequest) (store : Store)
  : Store * run (VaultResponse * option error) * Calls (gmap string value) :=
  if String.eqb vault_id EmptyString
  then (store, Done (None, Some "vault entry ID required"), [])
  else if Nat.ltb (map_len store data) 1
  then (store, Done (None, Some "data required"), [])
  else
    match data with
    | None => (store, Panic nil_map_assignment, [])
    | Some l =>
        let store := assign l "id" (VString vault_id) store in
        callAPI post v "update" data store
    end.

Definition Delete (post : Transport (gmap string value)) (v : VaultAPI)
    (vault_id : string) (store : Store) :=
  if String.eqb vault_id EmptyString
  then (store, Done (None, Some "vault entry ID required"), [])
  else
    let '(l, store) := literal [("id", VString vault_id)] store in
    callAPI post v "delete" (Some l) store.

(** The classifier chain of [AddImage] and [SearchFace]. *)
Definition image_member (fs : os.FS) (image : string)
  : run (option (string * value)) :=
  match url.ParseRequestURI image with
  | Some _ => Done (Some ("imageurl", VString image))
  | None =>
      found ← fileExists fs image;
      if found : bool then Done (Some ("image", VString (base64File fs image)))
      else if (100 <? strlen image)%N then Done (Some ("image", VString image))
      else Done None
  end.

Definition invalid_image : error :=
  "invalid image, file not found or malformed URL".

Definition AddImage (fs : os.FS) (post : Transport (gmap string value))
    (v : VaultAPI) (vault_id image : string) (image_type : N) (store : Store) :=
  if String.eqb vault_id EmptyString
  then (store, Done (None, Some "vault entry ID required"), [])
  else if negb (image_type =? 0)%N && negb (image_type =? 1)%N
  then (store, Done (None, Some "invalid image type, 0 or 1 accepted"), [])
  else
    let '(l, store) :=
      literal [("id", VString vault_id); ("type", VUint image_type)] store in
    match image_member fs image with
    | Panic reason => (store, Panic reason, [])
    | Done None => (store, Done (Some ∅, Some invalid_image), [])
    | Done (Some (k, x)) => callAPI post v "addimage" (Some l) (assign l k x store)
    end.

Definition DeleteImage (post : Transport (gmap string value)) (v : VaultAPI)
    (vault_id image_id : string) (store : Store) :=
  if String.eqb vault_id EmptyString
  then (store, Done (None, Some "vault entry ID required"), [])
  else if String.eqb image_id EmptyString
  then (store, Done (None, Some "image ID required"), [])
  else
    let '(l, store) :=
      literal [("id", VString vault_id); ("imageid", VString image_id)] store in
    callAPI post v "deleteimage" (Some l) store.

Definition SearchFace (fs : os.FS) (post : Transport (gmap string value))
    (v : VaultAPI) (image : string) (maxEntry : N) (threshold : float32)
    (store : Store) :=
  let '(l, store) :=
    literal [("maxentry", VUint maxEntry); ("threshold", VFloat32 threshold)]
      store in
  match image_member fs image with
  | Panic reason => (store, Panic reason, [])
  | Done None => (store, Done (Some ∅, Some invalid_image), [])
  | Done (Some (k, x)) => callAPI post v "searchface" (Some l) (assign l k x store)
  end.

Definition TrainFace (post : Transport (gmap string value)) (v : VaultAPI)
    (store : Store) :=
  let '(l, store) := literal [] store in
  callAPI post v "train" (Some l) store.

Definition TrainingStatus (post : Transport (gmap string value)) (v : VaultAPI)
    (store : Store) :=
  let '(l, store) := literal [] store in
  callAPI post v "trainstatus" (Some l) store.

End Calls.

End VaultMapAPI.

(** ** The AML façade *)

Module AMLAPI.

Record AMLAPI := {
  apiKey : string;
  apiEndpoint : string;
  amlDatabases : string;
  amlEntityType : string
}.

(** [AMLResponse]: the items, kept as JSON. *)
Record AMLResponse := { Items : list json }.

Definition zeroAMLResponse : AMLResponse := {| Items := [] |}.

Definition decode_member (r : AMLResponse) (kv : string * json) : AMLResponse :=
  let '(k, v) := kv in
  if key_is "items" k then {| Items := decode_items v (Items r) |} else r.

Module Req.
Record amlRequest := {
  ApiKey : string;
  Database : string;
  Entity : string;
  Client : string;
  Name : string;
  DocumentNumber : string;
  Country : string;
  DOB : string
}.
End Req.
Abbreviation amlRequest := Req.amlRequest.

Definition NewAMLAPI (apiKey region : string) : AMLAPI * option error :=
  if String.eqb apiKey EmptyString
  then ({| apiKey := EmptyString; apiEndpoint := EmptyString;
           amlDatabases := EmptyString; amlEntityType := EmptyString |},
        Some "please provide an API key")
  else ({| apiKey := apiKey; apiEndpoint := endpointFromRegion region "aml";
           amlDatabases := EmptyString; amlEntityType := EmptyString |}, None).

Definition SetAMLDatabase (a : AMLAPI) (databases : string) : AMLAPI :=
  {| apiKey := apiKey a; apiEndpoint := apiEndpoint a;
     amlDatabases := databases; amlEntityType := amlEntityType a |}.

Definition SetEntityType (a : AMLAPI) (entityType : string)
  : AMLAPI * option error :=
  if negb (String.eqb entityType "person")
     && negb (String.eqb entityType "legalentity")
     && negb (String.eqb entityType EmptyString)
  then (a, Some ("entity type should be either empty, " +:+ dq +:+ "person"
                 +:+ dq +:+ " or " +:+ dq +:+ "legalentity" +:+ dq))
  else ({| apiKey := apiKey a; apiEndpoint := apiEndpoint a;
           amlDatabases := amlDatabases a; amlEntityType := entityType |}, None).

(** [callAPI]: the response type has no error member to look at. *)
Definition callAPI (post : Transport amlRequest) (a : AMLAPI)
    (request : amlRequest) : (AMLResponse * option error) * Calls amlRequest :=
  let request := {|
    Req.ApiKey := apiKey a;
    Req.Database := amlDatabases a;
    Req.Entity := amlEntityType a;
    Req.Client := "go-sdk";
    Req.Name := Req.Name request;
    Req.DocumentNumber := Req.DocumentNumber request;
    Req.Country := Req.Country request;
    Req.DOB := Req.DOB request
  |} in
  (match post (apiEndpoint a) request with
   | inl err => (zeroAMLResponse, Some (connect_error err))
   | inr body => (Unmarshal decode_member body zeroAMLResponse, None)
   end, [(apiEndpoint a, request)]).

Definition SearchByName (post : Transport amlRequest) (a : AMLAPI)
    (name country dob : string) :=
  callAPI post a {|
    Req.ApiKey := EmptyString; Req.Database := EmptyString;
    Req.Entity := EmptyString; Req.Client := EmptyString;
    Req.Name := name; Req.DocumentNumber := EmptyString;
    Req.Country := country; Req.DOB := dob |}.

Definition SearchByIDNumber (post : Transport amlRequest) (a : AMLAPI)
    (documentNumber country dob : string) :=
  callAPI post a {|
    Req.ApiKey := EmptyString; Req.Database := EmptyString;
    Req.Entity := EmptyString; Req.Client := EmptyString;
    Req.Name := EmptyString; Req.DocumentNumber := documentNumber;
    Req.Country := country; Req.DOB := dob |}.

End AMLAPI.

(** ** Inputs and predicates used in the statements *)

(** File systems used as concrete inputs.  [fs_sample] holds a readable
    one-byte file, an empty file, an unreadable file and a directory;
    a path below the regular file [id.jpg] fails with ENOTDIR. *)
Definition fs_sample : os.FS := fun name =>
  if String.eqb name "id.jpg" then inr (os.File [x41] true)
  else if String.eqb name "empty.jpg" then inr (os.File [] true)
  else if String.eqb name "secret.jpg" then inr (os.File [x41] false)
  else if String.eqb name "photos" then inr os.Dir
  else if String.eqb name "id.jpg/front" then inl os.ENOTDIR
  else inl os.ENOENT.

Definition fs_empty : os.FS := fun _ => inl os.ENOENT.

Definition core_sample : CoreAPI.CoreAPI := (CoreAPI.NewCoreAPI "key" "US").1.

(** A name with a NUL byte. *)
Definition name_with_NUL : string := String "a" (String (ascii_of_N 0) EmptyString).

(** What the builder leaves in the two fields [u] (the [*url] field) and
    [b] (the [*_base64] field) of the media argument [s]: nothing when
    the argument is not supplied; otherwise the value of the branch the
    classifier took. *)
Definition field_pair (fs : os.FS) (s u b : string) : Prop :=
  (s = EmptyString /\ u = EmptyString /\ b = EmptyString)
  \/ (s <> EmptyString /\ CoreAPI.classify fs s = Done CoreAPI.RemoteURL
      /\ u = s /\ b = EmptyString)
  \/ (s <> EmptyString /\ CoreAPI.classify fs s = Done CoreAPI.LocalFile
      /\ u = EmptyString /\ b = base64File fs s)
  \/ (s <> EmptyString /\ CoreAPI.classify fs s = Done CoreAPI.InlineEncoded
      /\ u = EmptyString /\ b = s).

(** What one step of [build] does to the payload [p] for the argument
    [s], giving [q]: nothing for an argument not supplied, else one of
    the three accepting branches. *)
Definition step_result (fs : os.FS) (s : string)
    (setUrl setBase64 : string -> CoreAPI.coreRequest -> CoreAPI.coreRequest)
    (p q : CoreAPI.coreRequest) : Prop :=
  (s = EmptyString /\ q = p)
  \/ (s <> EmptyString /\ CoreAPI.classify fs s = Done CoreAPI.RemoteURL
      /\ q = setUrl s p)
  \/ (s <> EmptyString /\ CoreAPI.classify fs s = Done CoreAPI.LocalFile
      /\ q = setBase64 (base64File fs s) p)
  \/ (s <> EmptyString /\ CoreAPI.classify fs s = Done CoreAPI.InlineEncoded
      /\ q = setBase64 s p).

(** A supplied argument one of the three accepting branches takes, an
    argument that may be left out, and a supplied argument that falls
    through to the error branch. *)
Definition accepted (fs : os.FS) (s : string) : Prop :=
  s <> EmptyString
  /\ exists k, CoreAPI.classify fs s = Done k /\ k <> CoreAPI.Invalid.

Definition optional_accepted (fs : os.FS) (s : string) : Prop :=
  s = EmptyString \/ accepted fs s.

Definition rejected (fs : os.FS) (s : string) : Prop :=
  s <> EmptyString /\ CoreAPI.classify fs s = Done CoreAPI.Invalid.

(** A transport that answers every request with the same body. *)
Definition answer {Req : Type} (body : json) : Transport Req :=
  fun _ _ => inr (Some body).

(** The response body of the embedded-error scenario. *)
Definition mismatch_body : json :=
  JObj [("error", JObj [("code", JNum "14"); ("message", JStr "mismatch")]);
        ("result", JObj [("firstName", JStr "Lena")])].

(** A caller of the map-based vault: one data map in the store. *)
Definition caller_map : gmap string value := {[ "firstName" := VString "Lena" ]}.

Definition caller_store : gmap positive (gmap string value) :=
  {[ 1%positive := caller_map ]}.

Definition vault_sample : VaultMapAPI.VaultAPI :=
  {| VaultMapAPI.apiKey := "key";
     VaultMapAPI.apiEndpoint := "https://api.idanalyzer.com/vault" |}.

(** A rendering of the error built from interface values. *)
Definition Errorf_sample (code message : option json) : error := "remote error".

(** Linear arithmetic with division and remainder by constants. *)
Ltac divlia := zify; Z.to_euclidean_division_equations; lia.

(** ** The documented defaults, written out as wire objects *)

(** The request of the document-scan façade with every option at its
    documented default and no media argument. *)
Definition core_default_payload (apiKey : string) : CoreAPI.coreRequest := {|
  CoreAPI.Req.ApiKey := apiKey;
  CoreAPI.Req.Url := EmptyString;
  CoreAPI.Req.UrlBack := EmptyString;
  CoreAPI.Req.FaceUrl := EmptyString;
  CoreAPI.Req.VideoUrl := EmptyString;
  CoreAPI.Req.FileBase64 := EmptyString;
  CoreAPI.Req.FileBackBase64 := EmptyString;
  CoreAPI.Req.FaceBase64 := EmptyString;
  CoreAPI.Req.VideoBase64 := EmptyString;
  CoreAPI.Req.Passcode := EmptyString;
  CoreAPI.Req.Accuracy := 2%N;
  CoreAPI.Req.Authenticate := false;
  CoreAPI.Req.AuthenticateModule := "1";
  CoreAPI.Req.OcrScaledown := 2000%N;
  CoreAPI.Req.OutputImage := false;
  CoreAPI.Req.OutputFace := false;
  CoreAPI.Req.OutputMode := "url";
  CoreAPI.Req.DualSideCheck := false;
  CoreAPI.Req.VerifyExpiry := true;
  CoreAPI.Req.VerifyDocumentNo := EmptyString;
  CoreAPI.Req.VerifyName := EmptyString;
  CoreAPI.Req.VerifyDOB := EmptyString;
  CoreAPI.Req.VerifyAge := EmptyString;
  CoreAPI.Req.VerifyAddress := EmptyString;
  CoreAPI.Req.VerifyPostcode := EmptyString;
  CoreAPI.Req.Country := EmptyString;
  CoreAPI.Req.Region := EmptyString;
  CoreAPI.Req.DocType := EmptyString;
  CoreAPI.Req.CheckBlocklist := false;
  CoreAPI.Req.VaultSave := true;
  CoreAPI.Req.VaultSaveUnrecognized := false;
  CoreAPI.Req.VaultNoDuplicate := false;
  CoreAPI.Req.VaultAutoMerge := false;
  CoreAPI.Req.VaultCustomData1 := EmptyString;
  CoreAPI.Req.VaultCustomData2 := EmptyString;
  CoreAPI.Req.VaultCustomData3 := EmptyString;
  CoreAPI.Req.VaultCustomData4 := EmptyString;
  CoreAPI.Req.VaultCustomData5 := EmptyString;
  CoreAPI.Req.BarcodeMode := false;
  CoreAPI.Req.BiometricThreshold := f32_0_4;
  CoreAPI.Req.AmlCheck := false;
  CoreAPI.Req.AmlStrictMatch := false;
  CoreAPI.Req.AmlDatabase := EmptyString;
  CoreAPI.Req.ContractGenerate := EmptyString;
  CoreAPI.Req.ContractFormat := EmptyString;
  CoreAPI.Req.ContractPrefillData := ∅;
  CoreAPI.Req.Client := "go-sdk"
|}.

(** The request of the hosted-session façade with every option at its
    documented default, for session type [mode]. *)
Definition docupass_default_request (apiKey companyName : string) (mode : N)
  : DocuPassAPI.docuPassRequest := {|
  DocuPassAPI.Req.ApiKey := apiKey;
  DocuPassAPI.Req.CompanyName := companyName;
  DocuPassAPI.Req.AMLCheck := false;
  DocuPassAPI.Req.AMLDatabase := EmptyString;
  DocuPassAPI.Req.AMLStrictMatch := false;
  DocuPassAPI.Req.AuthenticateMinScore := f32_zero;
  DocuPassAPI.Req.AuthenticateModule := "2";
  DocuPassAPI.Req.Biometric := 0%N;
  DocuPassAPI.Req.BiometricThreshold := f32_0_4;
  DocuPassAPI.Req.CallbackUrl := EmptyString;
  DocuPassAPI.Req.ContractFormat := EmptyString;
  DocuPassAPI.Req.ContractGenerate := EmptyString;
  DocuPassAPI.Req.ContractPrefillData := ∅;
  DocuPassAPI.Req.ContractSign := EmptyString;
  DocuPassAPI.Req.CropDocument := false;
  DocuPassAPI.Req.CustomHtmlUrl := EmptyString;
  DocuPassAPI.Req.CustomID := EmptyString;
  DocuPassAPI.Req.DocumentBase64 := EmptyString;
  DocuPassAPI.Req.DocumentBackBase64 := EmptyString;
  DocuPassAPI.Req.DocumentBackURL := EmptyString;
  DocuPassAPI.Req.DocumentCountry := EmptyString;
  DocuPassAPI.Req.DocumentRegion := EmptyString;
  DocuPassAPI.Req.DocumentType := EmptyString;
  DocuPassAPI.Req.DocumentURL := EmptyString;
  DocuPassAPI.Req.DualSideCheck := false;
  DocuPassAPI.Req.FaceBase64 := EmptyString;
  DocuPassAPI.Req.FaceURL := EmptyString;
  DocuPassAPI.Req.FailRedir := EmptyString;
  DocuPassAPI.Req.Language := EmptyString;
  DocuPassAPI.Req.Logo := EmptyString;
  DocuPassAPI.Req.MaxAttempt := 1%N;
  DocuPassAPI.Req.NoBranding := false;
  DocuPassAPI.Req.PhoneVerification := false;
  DocuPassAPI.Req.QRBgColor := EmptyString;
  DocuPassAPI.Req.QRColor := EmptyString;
  DocuPassAPI.Req.QRMargin := 1%N;
  DocuPassAPI.Req.QRSize := 5%N;
  DocuPassAPI.Req.ReturnDocumentImage := true;
  DocuPassAPI.Req.ReturnFaceImage := true;
  DocuPassAPI.Req.ReturnType := 1%N;
  DocuPassAPI.Req.Reusable := false;
  DocuPassAPI.Req.SMSContractLink := EmptyString;
  DocuPassAPI.Req.SMSVerificationLink := EmptyString;
  DocuPassAPI.Req.SuccessRedir := EmptyString;
  DocuPassAPI.Req.TemplateID := EmptyString;
  DocuPassAPI.Req.Type_ := mode;
  DocuPassAPI.Req.VaultSave := true;
  DocuPassAPI.Req.VerifyAddress := EmptyString;
  DocuPassAPI.Req.VerifyAge := EmptyString;
  DocuPassAPI.Req.VerifyDOB := EmptyString;
  DocuPassAPI.Req.VerifyDocumentNo := EmptyString;
  DocuPassAPI.Req.VerifyExpiry := false;
  DocuPassAPI.Req.VerifyName := EmptyString;
  DocuPassAPI.Req.VerifyPhone := EmptyString;
  DocuPassAPI.Req.VerifyPostcode := EmptyString;
  DocuPassAPI.Req.WelcomeMessage := EmptyString;
  DocuPassAPI.Req.Client := "go-sdk"
|}.

(** ** Sequences of setter calls *)




(** A string of exactly six hexadecimal digits. *)
Definition hex6 (s : string) : Prop :=
  String.length s = 6%nat /\ string_forallb is_hex s = true.



(** One setter call on the AML façade; a call that returns an error is a
    step too. *)
Inductive aml_call : AMLAPI.AMLAPI -> AMLAPI.AMLAPI -> Prop :=
| call_aml_SetAMLDatabase a s : aml_call a (AMLAPI.SetAMLDatabase a s)
| call_aml_SetEntityType a s : aml_call a (AMLAPI.SetEntityType a s).1.

(** The two searches of the AML façade, as one call. *)
Inductive aml_search : Type :=
| ByName (name country dob : string)
| ByIDNumber (documentNumber country dob : string).

Definition aml_run (post : Transport AMLAPI.amlRequest) (a : AMLAPI.AMLAPI)
    (q : aml_search) :=
  match q with
  | ByName name country dob => AMLAPI.SearchByName post a name country dob
  | ByIDNumber number country dob =>
      AMLAPI.SearchByIDNumber post a number country dob
  end.

(** The private and reserved IPv4 ranges, by the first bytes of the
    address. *)
Definition rfc1918 (a b : N) : Prop :=
  (a = 10 \/ (a = 172 /\ 16 <= b < 32) \/ (a = 192 /\ b = 168))%N.

Definition local_v4 (a b c : N) : Prop :=
  (a = 127 \/ (a = 169 /\ b = 254) \/ (a = 224 /\ b = 0 /\ c = 0))%N.

(** * Properties *)

(** ** The library models at the inputs used below *)

Example ParseRequestURI_samples :
  url.Host <$> url.ParseRequestURI "https://example.com/hook" = Some "example.com"
  /\ url.Scheme <$> url.ParseRequestURI "HTTPS://example.com/hook" = Some "https"
  /\ url.Host <$> url.ParseRequestURI "http://127.0.0.1:8080/hook" = Some "127.0.0.1:8080"
  /\ url.Path <$> url.ParseRequestURI "http://u:p@example.com/a%20b?x=1" = Some "/a b"
  /\ url.Host <$> url.ParseRequestURI "http://[::1]:80/" = Some "[::1]:80"
  /\ url.Opaque <$> url.ParseRequestURI "mailto:someone" = Some "someone"
  /\ url.Path <$> url.ParseRequestURI "/tmp/id.jpg" = Some "/tmp/id.jpg"
  /\ url.ParseRequestURI "path/to/id.jpg" = None
  /\ url.ParseRequestURI "id.jpg" = None
  /\ url.ParseRequestURI EmptyString = None
  /\ url.ParseRequestURI "http://exa mple.com/" = None
  /\ url.ParseRequestURI "http://example.com:port/" = None
  /\ url.ParseRequestURI "://example.com/" = None.
Proof. repeat split; reflexivity. Qed.

Example ParseIP_samples :
  net.ParseIP "127.0.0.1" = Some (net.IPv4 127 0 0 1)
  /\ net.ParseIP "10.1.2.3" = Some (net.IPv4 10 1 2 3)
  /\ net.ParseIP "127.0.0.1:8080" = None
  /\ net.ParseIP "127.0.0.01" = None
  /\ net.ParseIP "256.0.0.1" = None
  /\ net.ParseIP "example.com" = None
  /\ net.ParseIP "localhost" = None
  /\ net.ParseIP "::1" = Some net.IPv6loopback
  /\ net.ParseIP "[::1]" = None
  /\ net.ParseIP "fe80::1" = Some [254; 128; 0; 0; 0; 0; 0; 0; 0; 0; 0; 0; 0; 0; 0; 1]%N
  /\ net.ParseIP "::ffff:10.0.0.1" = Some (net.IPv4 10 0 0 1)
  /\ net.ParseIP "1:2:3:4:5:6:7:8" = Some [0; 1; 0; 2; 0; 3; 0; 4; 0; 5; 0; 6; 0; 7; 0; 8]%N
  /\ net.ParseIP "1:2:3:4:5:6:7::" = Some [0; 1; 0; 2; 0; 3; 0; 4; 0; 5; 0; 6; 0; 7; 0; 0]%N
  /\ net.ParseIP "::1:2:3:4:5:6:7:8" = None
  /\ net.ParseIP "1::2::3" = None.
Proof. repeat split; vm_compute; reflexivity. Qed.

Example privateIPBlocks_value :
  privateIPBlocks =
  [ {| net.NetIP := [127; 0; 0; 0]; net.Mask := [255; 0; 0; 0] |};
    {| net.NetIP := [10; 0; 0; 0]; net.Mask := [255; 0; 0; 0] |};
    {| net.NetIP := [172; 16; 0; 0]; net.Mask := [255; 240; 0; 0] |};
    {| net.NetIP := [192; 168; 0; 0]; net.Mask := [255; 255; 0; 0] |};
    {| net.NetIP := [169; 254; 0; 0]; net.Mask := [255; 255; 0; 0] |};
    {| net.NetIP := net.IPv6loopback; net.Mask := repeat 255 16 |};
    {| net.NetIP := 254 :: 128 :: repeat 0 14;
       net.Mask := 255 :: 192 :: repeat 0 14 |};
    {| net.NetIP := 252 :: repeat 0 15; net.Mask := 254 :: repeat 0 15 |} ]%N.
Proof. vm_compute. reflexivity. Qed.

Example base64_Man :
  base64.EncodeToString [Byte.x4d; Byte.x61; Byte.x6e] = "TWFu"
  /\ base64.EncodeToString [Byte.x4d; Byte.x61] = "TWE="
  /\ base64.EncodeToString [Byte.x4d] = "TQ==".
Proof. repeat split; reflexivity. Qed.

Example Parse_ymd_samples :
  time.Parse_ymd_ok "1990/01/25" = true
  /\ time.Parse_ymd_ok "2000/02/29" = true
  /\ time.Parse_ymd_ok "1900/02/29" = false
  /\ time.Parse_ymd_ok "1990/13/01" = false
  /\ time.Parse_ymd_ok "1990/1/25" = false
  /\ time.Parse_ymd_ok "1990-01-25" = false
  /\ time.Parse_ymd_ok "1990/01/25 " = false.
Proof. repeat split; reflexivity. Qed.

Example match_samples :
  regexp.match_age_range "18-120" = true
  /\ regexp.match_age_range "eighteen-120" = false
  /\ regexp.match_age_range "18-" = false
  /\ regexp.match_age_range "18-1-2" = false
  /\ regexp.match_passcode "1234" = true
  /\ regexp.match_passcode "12345x" = true
  /\ regexp.match_passcode "123" = false.
Proof. repeat split; reflexivity. Qed.

(** ** base64: the encoding determines the bytes *)

Lemma list_ind3 {A : Type} (P : list A -> Prop) :
  P [] -> (forall a, P [a]) -> (forall a b, P [a; b]) ->
  (forall a b c l, P l -> P (a :: b :: c :: l)) ->
  forall l, P l.
Proof.
  intros H0 H1 H2 H3. fix IH 1.
  intros [|a [|b [|c l]]];
    [apply H0 | apply H1 | apply H2 | apply H3, IH].
Qed.

Lemma below_64_cases (P : N -> Prop) :
  Forall P (N.of_nat <$> seq 0 64) -> forall i, (i < 64)%N -> P i.
Proof.
  intros HP i Hi. rewrite Forall_forall in HP. apply HP.
  apply list_elem_of_fmap. exists (N.to_nat i). split; [lia|].
  apply elem_of_seq. lia.
Qed.

Lemma dec6_enc6 (i : N) : (i < 64)%N -> base64.dec6 (base64.enc6 i) = Some i.
Proof.
  revert i. apply below_64_cases.
  repeat (constructor; [reflexivity|]). constructor.
Qed.

Lemma enc6_not_pad (i : N) :
  (i < 64)%N -> Ascii.eqb (base64.enc6 i) base64.pad = false.
Proof.
  revert i. apply below_64_cases.
  repeat (constructor; [reflexivity|]). constructor.
Qed.

Lemma byte_of_to_N (b : byte) : base64.byte_of_N (Byte.to_N b) = b.
Proof. unfold base64.byte_of_N. by rewrite Byte.of_to_N. Qed.

Lemma to_N_lt (b : byte) : (Byte.to_N b < 256)%N.
Proof. pose proof (Byte.to_N_bounded b). lia. Qed.

(** Decoding undoes encoding, so the encoded text carries exactly the
    bytes of the input. *)
Lemma Decode_Encode (src : list byte) :
  base64.DecodeString (base64.EncodeToString src) = Some src.
Proof.
  induction src as [|a|a b|a b c l IH] using list_ind3.
  - reflexivity.
  - pose proof (to_N_lt a) as Ha.
    cbn [base64.EncodeToString base64.DecodeString].
    rewrite !dec6_enc6 by divlia.
    rewrite Ascii.eqb_refl.
    replace (Byte.to_N a / 4 * 4 + Byte.to_N a mod 4 * 16 / 16)%N
      with (Byte.to_N a) by divlia.
    by rewrite byte_of_to_N.
  - pose proof (to_N_lt a) as Ha. pose proof (to_N_lt b) as Hb.
    cbn [base64.EncodeToString base64.DecodeString].
    rewrite !dec6_enc6 by divlia.
    rewrite enc6_not_pad by divlia. rewrite Ascii.eqb_refl.
    replace (Byte.to_N a / 4 * 4 + (Byte.to_N a mod 4 * 16 + Byte.to_N b / 16) / 16)%N
      with (Byte.to_N a) by divlia.
    replace ((Byte.to_N a mod 4 * 16 + Byte.to_N b / 16) mod 16 * 16
             + Byte.to_N b mod 16 * 4 / 4)%N
      with (Byte.to_N b) by divlia.
    by rewrite !byte_of_to_N.
  - pose proof (to_N_lt a) as Ha. pose proof (to_N_lt b) as Hb.
    pose proof (to_N_lt c) as Hc.
    cbn [base64.EncodeToString base64.DecodeString].
    rewrite !dec6_enc6 by divlia.
    rewrite !enc6_not_pad by divlia.
    rewrite IH.
    replace (Byte.to_N a / 4 * 4 + (Byte.to_N a mod 4 * 16 + Byte.to_N b / 16) / 16)%N
      with (Byte.to_N a) by divlia.
    replace ((Byte.to_N a mod 4 * 16 + Byte.to_N b / 16) mod 16 * 16
             + (Byte.to_N b mod 16 * 4 + Byte.to_N c / 64) / 4)%N
      with (Byte.to_N b) by divlia.
    replace ((Byte.to_N b mod 16 * 4 + Byte.to_N c / 64) mod 4 * 64
             + Byte.to_N c mod 64)%N
      with (Byte.to_N c) by divlia.
    by rewrite !byte_of_to_N.
Qed.

Lemma Encode_inj (x y : list byte) :
  base64.EncodeToString x = base64.EncodeToString y -> x = y.
Proof.
  intros H. apply (f_equal base64.DecodeString) in H.
  rewrite !Decode_Encode in H. congruence.
Qed.

Lemma Encode_empty (src : list byte) :
  base64.EncodeToString src = EmptyString <-> src = [].
Proof.
  split; [|by intros ->].
  intros H. apply Encode_inj. by rewrite H.
Qed.

(** ** The file probe and the classifier *)

Lemma fileExists_lookup (fs : os.FS) (s : string) :
  fileExists fs s =
  match os.lookup fs s with
  | inr (os.File _ _) => Done true
  | inr os.Dir => Done false
  | inl os.ENOENT => Done false
  | inl _ => Panic nil_dereference
  end.
Proof.
  unfold fileExists, os.Stat.
  destruct (os.lookup fs s) as [[]|[]]; reflexivity.
Qed.

Lemma base64File_lookup (fs : os.FS) (s : string) :
  base64File fs s =
  match os.lookup fs s with
  | inr (os.File content true) => base64.EncodeToString content
  | _ => EmptyString
  end.
Proof.
  unfold base64File, os.ReadFile.
  destruct (os.lookup fs s) as [|[? []|]]; reflexivity.
Qed.

Lemma classify_unfold (fs : os.FS) (s : string) :
  CoreAPI.classify fs s =
  match url.ParseRequestURI s with
  | Some _ => Done CoreAPI.RemoteURL
  | None =>
      match fileExists fs s with
      | Panic reason => Panic reason
      | Done true => Done CoreAPI.LocalFile
      | Done false =>
          if (100 <? strlen s)%N then Done CoreAPI.InlineEncoded
          else Done CoreAPI.Invalid
      end
  end.
Proof.
  unfold CoreAPI.classify.
  destruct (url.ParseRequestURI s); [reflexivity|].
  destruct (fileExists fs s) as [[]|]; reflexivity.
Qed.

(** The URL parse alone decides RemoteURL: it comes first, so neither
    the file system nor the length matters. *)
Lemma classify_RemoteURL_iff (fs : os.FS) (s : string) :
  CoreAPI.classify fs s = Done CoreAPI.RemoteURL
  <-> is_Some (url.ParseRequestURI s).
Proof.
  rewrite classify_unfold.
  destruct (url.ParseRequestURI s) as [u|].
  - split; [eauto|reflexivity].
  - split.
    + destruct (fileExists fs s) as [[]|]; [discriminate| |discriminate].
      destruct (100 <? strlen s)%N; discriminate.
    + intros [? ?]; discriminate.
Qed.

Lemma classify_never_panics_on_URL (fs : os.FS) (s : string) (u : url.URL) :
  url.ParseRequestURI s = Some u -> CoreAPI.classify fs s = Done CoreAPI.RemoteURL.
Proof. intros H. apply classify_RemoteURL_iff. eauto. Qed.

(** C9 (the code does not do this).  Classification is not total:
    whenever [os.Stat] fails with an error other than not-exist, [info]
    is nil and [fileExists] panics on [info.IsDir()]; the classifier,
    which probes the file when the URL parse fails, panics with it. *)
Theorem fileExists_panics_on_stat_error (fs : os.FS) (s : string) (e : os.Errno) :
  os.lookup fs s = inl e -> e <> os.ENOENT ->
  fileExists fs s = Panic nil_dereference
  /\ (url.ParseRequestURI s = None ->
      CoreAPI.classify fs s = Panic nil_dereference).
Proof.
  intros Hl He.
  assert (fileExists fs s = Panic nil_dereference) as Hf.
  { rewrite fileExists_lookup, Hl. destruct e; congruence. }
  split; [exact Hf|].
  intros Hu. by rewrite classify_unfold, Hu, Hf.
Qed.

Lemma fileExists_panics_on_stat_error_witness :
  os.lookup fs_sample "id.jpg/front" = inl os.ENOTDIR
  /\ fileExists fs_sample "id.jpg/front" = Panic nil_dereference
  /\ CoreAPI.classify fs_sample "id.jpg/front" = Panic nil_dereference.
Proof.
  split; [reflexivity|].
  destruct (fileExists_panics_on_stat_error fs_sample "id.jpg/front" os.ENOTDIR)
    as [H1 H2]; [reflexivity|discriminate|].
  split; [exact H1|apply H2; reflexivity].
Defined.

(** The same on every file system: a name with a NUL byte. *)
Lemma fileExists_panics_on_NUL (fs : os.FS) :
  fileExists fs name_with_NUL = Panic nil_dereference
  /\ CoreAPI.classify fs name_with_NUL = Panic nil_dereference.
Proof. split; reflexivity. Qed.

(** When [os.Stat] succeeds or reports not-exist, the probe answers. *)
Lemma fileExists_answers (fs : os.FS) (s : string) :
  (forall e, os.lookup fs s = inl e -> e = os.ENOENT) ->
  exists b, fileExists fs s = Done b.
Proof.
  intros H. rewrite fileExists_lookup.
  destruct (os.lookup fs s) as [e|[]] eqn:Hl; eauto.
  rewrite (H e eq_refl). eauto.
Qed.

(** C2 (the code does not do this).  A rooted path has neither scheme
    nor host, yet the request-URI parser accepts it, so the classifier
    answers RemoteURL on every file system, and [scan] sends the path in
    the [url] field, whether or not a file of that name exists. *)
Theorem classify_rooted_path_is_RemoteURL :
  forall (fs : os.FS) (c : CoreAPI.CoreAPI),
    (url.Scheme <$> url.ParseRequestURI "/tmp/id.jpg") = Some EmptyString
    /\ (url.Host <$> url.ParseRequestURI "/tmp/id.jpg") = Some EmptyString
    /\ CoreAPI.classify fs "/tmp/id.jpg" = Done CoreAPI.RemoteURL
    /\ CoreAPI.build fs c "/tmp/id.jpg" EmptyString EmptyString EmptyString
         EmptyString
       = Done (inl (CoreAPI.Req.set_Url "/tmp/id.jpg" (CoreAPI.payload_of c))).
Proof. intros fs c. repeat split; reflexivity. Qed.

(** Other strings without scheme or host that are classified RemoteURL. *)
Lemma classify_star_and_opaque (fs : os.FS) :
  CoreAPI.classify fs "*" = Done CoreAPI.RemoteURL
  /\ CoreAPI.classify fs "mailto:someone" = Done CoreAPI.RemoteURL
  /\ (url.Host <$> url.ParseRequestURI "mailto:someone") = Some EmptyString.
Proof. repeat split; reflexivity. Qed.

(** What does hold: a string the parser accepts with scheme and host is
    RemoteURL whatever its length and whatever the file system holds. *)
Lemma classify_URL_first (fs : os.FS) (s : string) (u : url.URL) :
  url.ParseRequestURI s = Some u ->
  url.Scheme u <> EmptyString -> url.Host u <> EmptyString ->
  CoreAPI.classify fs s = Done CoreAPI.RemoteURL.
Proof. intros H _ _. eapply classify_never_panics_on_URL, H. Qed.

(** ** The payload builder *)

Section Resolve.
Context (fs : os.FS) (s : string).
Context (setUrl setBase64 : string -> CoreAPI.coreRequest -> CoreAPI.coreRequest).
Context (invalid : error) (payload : CoreAPI.coreRequest).

Lemma resolve_classified (k : CoreAPI.Classification) :
  CoreAPI.classify fs s = Done k ->
  CoreAPI.resolve fs s setUrl setBase64 invalid payload =
  match k with
  | CoreAPI.RemoteURL => Done (inl (setUrl s payload))
  | CoreAPI.LocalFile => Done (inl (setBase64 (base64File fs s) payload))
  | CoreAPI.InlineEncoded => Done (inl (setBase64 s payload))
  | CoreAPI.Invalid => Done (inr invalid)
  end.
Proof. intros H. unfold CoreAPI.resolve. rewrite H. reflexivity. Qed.

Lemma resolve_panics (reason : string) :
  CoreAPI.classify fs s = Panic reason ->
  CoreAPI.resolve fs s setUrl setBase64 invalid payload = Panic reason.
Proof. intros H. unfold CoreAPI.resolve. rewrite H. reflexivity. Qed.

(** A resolved argument went through exactly one of the three
    accepting branches. *)
Lemma resolve_done (payload' : CoreAPI.coreRequest) :
  CoreAPI.resolve fs s setUrl setBase64 invalid payload = Done (inl payload') ->
  (CoreAPI.classify fs s = Done CoreAPI.RemoteURL /\ payload' = setUrl s payload)
  \/ (CoreAPI.classify fs s = Done CoreAPI.LocalFile
      /\ payload' = setBase64 (base64File fs s) payload)
  \/ (CoreAPI.classify fs s = Done CoreAPI.InlineEncoded
      /\ payload' = setBase64 s payload).
Proof.
  unfold CoreAPI.resolve.
  destruct (CoreAPI.classify fs s) as [[]|]; cbn; intros H;
    try discriminate; injection H as <-; auto.
Qed.

Lemma resolve_URL :
  is_Some (url.ParseRequestURI s) ->
  CoreAPI.resolve fs s setUrl setBase64 invalid payload
  = Done (inl (setUrl s payload)).
Proof.
  intros H. apply classify_RemoteURL_iff with (fs := fs) in H.
  by rewrite (resolve_classified _ H).
Qed.

Lemma classify_file (content : list byte) (readable : bool) :
  url.ParseRequestURI s = None ->
  os.lookup fs s = inr (os.File content readable) ->
  CoreAPI.classify fs s = Done CoreAPI.LocalFile.
Proof.
  intros Hu Hl. by rewrite classify_unfold, Hu, fileExists_lookup, Hl.
Qed.

Lemma classify_inline :
  url.ParseRequestURI s = None -> fileExists fs s = Done false ->
  (100 < strlen s)%N ->
  CoreAPI.classify fs s = Done CoreAPI.InlineEncoded.
Proof.
  intros Hu Hf Hn. rewrite classify_unfold, Hu, Hf.
  by apply N.ltb_lt in Hn as ->.
Qed.

Lemma classify_invalid :
  url.ParseRequestURI s = None -> fileExists fs s = Done false ->
  (strlen s <= 100)%N ->
  CoreAPI.classify fs s = Done CoreAPI.Invalid.
Proof.
  intros Hu Hf Hn. rewrite classify_unfold, Hu, Hf.
  by apply N.ltb_ge in Hn as ->.
Qed.

End Resolve.

Lemma and_then_done (b : CoreAPI.Building)
    (k : CoreAPI.coreRequest -> CoreAPI.Building) (r : CoreAPI.coreRequest) :
  CoreAPI.and_then b k = Done (inl r) ->
  exists p, b = Done (inl p) /\ k p = Done (inl r).
Proof.
  unfold CoreAPI.and_then. destruct b as [[p|e]|]; cbn; intros H;
    try discriminate. eauto.
Qed.

Lemma eqb_empty_false (s : string) :
  s <> EmptyString -> String.eqb s EmptyString = false.
Proof. intros H. by apply String.eqb_neq. Qed.

Lemma lookup_not_empty (fs : os.FS) (s : string) (n : os.node) :
  os.lookup fs s = inr n -> s <> EmptyString.
Proof. intros H ->. discriminate. Qed.

(** C4, the claim as it is written, fails on a file the process may not
    read: [os.Stat] succeeds, so the argument is a LocalFile, but
    [os.ReadFile] fails and [base64File] returns the empty string, which
    is not the encoding of the file's bytes. *)
Lemma unreadable_file_is_sent_empty :
  os.lookup fs_sample "secret.jpg" = inr (os.File [x41] false)
  /\ url.ParseRequestURI "secret.jpg" = None
  /\ CoreAPI.classify fs_sample "secret.jpg" = Done CoreAPI.LocalFile
  /\ exists payload,
       CoreAPI.build fs_sample core_sample "secret.jpg" EmptyString EmptyString
         EmptyString EmptyString = Done (inl payload)
       /\ CoreAPI.Req.FileBase64 payload = EmptyString
       /\ CoreAPI.Req.FileBase64 payload <> base64.EncodeToString [x41].
Proof.
  repeat split; try reflexivity.
  eexists. split; [reflexivity|]. split; [reflexivity|discriminate].
Qed.

(** C4, amended.  For an existing regular file that can be read and that
    the URL parser rejects, the classifier answers LocalFile and the
    builder puts the standard base64 encoding of the file's bytes, from
    which the bytes are recovered, in the [*_base64] field of the
    argument, leaving the [*url] field alone; values classified
    RemoteURL or InlineEncoded are inserted as they are. *)
Theorem local_file_is_base64_encoded (fs : os.FS) (s : string)
    (content : list byte) :
  os.lookup fs s = inr (os.File content true) ->
  url.ParseRequestURI s = None ->
  CoreAPI.classify fs s = Done CoreAPI.LocalFile
  /\ base64File fs s = base64.EncodeToString content
  /\ base64.DecodeString (base64File fs s) = Some content
  /\ (forall setUrl setBase64 invalid payload,
        CoreAPI.resolve fs s setUrl setBase64 invalid payload
        = Done (inl (setBase64 (base64.EncodeToString content) payload)))
  /\ (forall c,
        CoreAPI.build fs c s EmptyString EmptyString EmptyString EmptyString
        = Done (inl (CoreAPI.Req.set_FileBase64
                       (base64.EncodeToString content) (CoreAPI.payload_of c))))
  /\ (forall t setUrl setBase64 invalid payload,
        is_Some (url.ParseRequestURI t) ->
        CoreAPI.resolve fs t setUrl setBase64 invalid payload
        = Done (inl (setUrl t payload)))
  /\ (forall t setUrl setBase64 invalid payload,
        CoreAPI.classify fs t = Done CoreAPI.InlineEncoded ->
        CoreAPI.resolve fs t setUrl setBase64 invalid payload
        = Done (inl (setBase64 t payload))).
Proof.
  intros Hl Hu.
  assert (CoreAPI.classify fs s = Done CoreAPI.LocalFile) as Hk
    by (eapply classify_file; eauto).
  assert (base64File fs s = base64.EncodeToString content) as Hb
    by (by rewrite base64File_lookup, Hl).
  assert (forall setUrl setBase64 invalid payload,
            CoreAPI.resolve fs s setUrl setBase64 invalid payload
            = Done (inl (setBase64 (base64.EncodeToString content) payload)))
    as Hr.
  { intros. by rewrite (resolve_classified _ _ _ _ _ _ _ Hk), Hb. }
  repeat split; auto.
  - rewrite Hb. apply Decode_Encode.
  - intros c. unfold CoreAPI.build.
    rewrite (eqb_empty_false s) by (eapply lookup_not_empty; eauto).
    rewrite Hr. reflexivity.
  - intros. by apply resolve_URL.
  - intros t setUrl setBase64 invalid payload Ht.
    by rewrite (resolve_classified _ _ _ _ _ _ _ Ht).
Qed.

Lemma local_file_is_base64_encoded_witness :
  CoreAPI.classify fs_sample "id.jpg" = Done CoreAPI.LocalFile
  /\ base64File fs_sample "id.jpg" = "QQ=="
  /\ CoreAPI.Req.FileBase64 <$>
       (match CoreAPI.build fs_sample core_sample "id.jpg" EmptyString
                EmptyString EmptyString EmptyString with
        | Done (inl p) => Some p
        | _ => None
        end) = Some "QQ==".
Proof.
  destruct (local_file_is_base64_encoded fs_sample "id.jpg" [x41])
    as (H1 & H2 & _ & _ & H5 & _); [reflexivity|reflexivity|].
  split; [exact H1|]. split; [exact H2|].
  rewrite (H5 core_sample). reflexivity.
Defined.

(** C8, the claim as it is written, fails on an empty file: the argument
    is a LocalFile, its encoding is the empty string, and neither field
    of the pair is populated. *)
Lemma empty_file_populates_neither_field :
  CoreAPI.classify fs_sample "empty.jpg" = Done CoreAPI.LocalFile
  /\ exists payload,
       CoreAPI.build fs_sample core_sample "empty.jpg" EmptyString EmptyString
         EmptyString EmptyString = Done (inl payload)
       /\ CoreAPI.Req.Url payload = EmptyString
       /\ CoreAPI.Req.FileBase64 payload = EmptyString.
Proof.
  split; [reflexivity|].
  eexists. split; [reflexivity|]. split; reflexivity.
Qed.

Lemma field_pair_never_both (fs : os.FS) (s u b : string) :
  field_pair fs s u b -> u = EmptyString \/ b = EmptyString.
Proof. intros [H|[H|[H|H]]]; tauto. Qed.

Lemma field_pair_exactly_one (fs : os.FS) (s u b : string) :
  field_pair fs s u b -> s <> EmptyString ->
  (CoreAPI.classify fs s = Done CoreAPI.LocalFile -> base64File fs s <> EmptyString) ->
  (u <> EmptyString /\ b = EmptyString) \/ (u = EmptyString /\ b <> EmptyString).
Proof.
  intros [(? & _)|[H|[H|H]]] Hs Hf; [done|..];
    destruct H as (? & ? & ? & ?); subst; auto.
Qed.

Section BuildSteps.
Context (fs : os.FS) (s : string).
Context (setUrl setBase64 : string -> CoreAPI.coreRequest -> CoreAPI.coreRequest).
Context (p q : CoreAPI.coreRequest).

(** One step of [build]: the argument skipped when empty, resolved
    otherwise. *)
Lemma step_done (invalid : error) :
  (if negb (String.eqb s EmptyString)
   then CoreAPI.resolve fs s setUrl setBase64 invalid p
   else Done (inl p)) = Done (inl q) ->
  step_result fs s setUrl setBase64 p q.
Proof.
  unfold step_result.
  destruct (String.eqb_spec s EmptyString) as [->|Hs]; cbn.
  - intros [= <-]. auto.
  - intros H. apply resolve_done in H.
    destruct H as [(? & ?)|[(? & ?)|(? & ?)]]; auto 10.
Qed.

(** A field the step does not assign keeps its value. *)
Lemma step_frame (get : CoreAPI.coreRequest -> string) :
  step_result fs s setUrl setBase64 p q ->
  (forall x r, get (setUrl x r) = get r) ->
  (forall x r, get (setBase64 x r) = get r) ->
  get q = get p.
Proof.
  intros [(_ & ->)|[(_ & _ & ->)|[(_ & _ & ->)|(_ & _ & ->)]]] HU HB;
    by rewrite ?HU, ?HB.
Qed.

(** The two fields the step assigns, when both were empty before. *)
Lemma step_fields (getU getB : CoreAPI.coreRequest -> string) :
  step_result fs s setUrl setBase64 p q ->
  (forall x r, getU (setUrl x r) = x) ->
  (forall x r, getB (setUrl x r) = getB r) ->
  (forall x r, getU (setBase64 x r) = getU r) ->
  (forall x r, getB (setBase64 x r) = x) ->
  getU p = EmptyString -> getB p = EmptyString ->
  field_pair fs s (getU q) (getB q).
Proof.
  unfold field_pair.
  intros [(? & ->)|[(? & ? & ->)|[(? & ? & ->)|(? & ? & ->)]]] UU BU UB BB HU HB;
    rewrite ?UU, ?BU, ?UB, ?BB, ?HU, ?HB; auto 10.
Qed.

End BuildSteps.

(** C8, amended.  In every payload [build] completes, each media
    argument's pair holds the value of the one branch the classifier
    took: a RemoteURL fills the [*url] field with the argument and
    leaves [*_base64] empty; a LocalFile or InlineEncoded leaves [*url]
    empty and sets [*_base64] to the file's encoding (empty for an empty
    or unreadable file) or to the argument; the two fields of a pair are
    never both non-empty. *)
Theorem media_fields_never_both (fs : os.FS) (c : CoreAPI.CoreAPI)
    (documentPrimary documentSecondary biometricPhoto biometricVideo
     biometricVideoPasscode : string) (payload : CoreAPI.coreRequest) :
  CoreAPI.build fs c documentPrimary documentSecondary biometricPhoto
    biometricVideo biometricVideoPasscode = Done (inl payload) ->
  (field_pair fs documentPrimary
     (CoreAPI.Req.Url payload) (CoreAPI.Req.FileBase64 payload)
   /\ field_pair fs documentSecondary
        (CoreAPI.Req.UrlBack payload) (CoreAPI.Req.FileBackBase64 payload)
   /\ field_pair fs biometricPhoto
        (CoreAPI.Req.FaceUrl payload) (CoreAPI.Req.FaceBase64 payload)
   /\ field_pair fs biometricVideo
        (CoreAPI.Req.VideoUrl payload) (CoreAPI.Req.VideoBase64 payload))
  /\ (CoreAPI.Req.Url payload = EmptyString
      \/ CoreAPI.Req.FileBase64 payload = EmptyString)
  /\ (CoreAPI.Req.UrlBack payload = EmptyString
      \/ CoreAPI.Req.FileBackBase64 payload = EmptyString)
  /\ (CoreAPI.Req.FaceUrl payload = EmptyString
      \/ CoreAPI.Req.FaceBase64 payload = EmptyString)
  /\ (CoreAPI.Req.VideoUrl payload = EmptyString
      \/ CoreAPI.Req.VideoBase64 payload = EmptyString).
Proof.
  intros H.
  match goal with |- ?A /\ _ => assert A as Hpairs end.
  2: { split; [exact Hpairs|].
       destruct Hpairs as (H1 & H2 & H3 & H4).
       repeat split; eapply field_pair_never_both; eauto. }
  unfold CoreAPI.build in H.
  destruct (String.eqb_spec documentPrimary EmptyString) as [->|Hp];
    [discriminate|].
  apply and_then_done in H as (q1 & H1 & H).
  apply and_then_done in H as (q2 & H2 & H).
  apply and_then_done in H as (q3 & H3 & H).
  assert (step_result fs documentPrimary CoreAPI.Req.set_Url
            CoreAPI.Req.set_FileBase64 (CoreAPI.payload_of c) q1) as S1.
  { apply (step_done _ _ _ _ _ _ CoreAPI.invalid_primary).
    by rewrite eqb_empty_false. }
  clear H1. apply step_done in H2 as S2. apply step_done in H3 as S3.
  clear H2 H3.
  assert (exists q4,
    step_result fs biometricVideo CoreAPI.Req.set_VideoUrl
      CoreAPI.Req.set_VideoBase64 q3 q4
    /\ (payload = q4
        \/ payload = CoreAPI.Req.set_Passcode biometricVideoPasscode q4))
    as (q4 & S4 & Hq).
  { destruct (String.eqb biometricVideo EmptyString) eqn:Hv; cbn in H.
    - injection H as <-. exists q3. split; [|by left].
      apply (step_done _ _ _ _ _ _ CoreAPI.invalid_video). by rewrite Hv.
    - apply and_then_done in H as (q4 & H4 & H). exists q4. split.
      + apply (step_done _ _ _ _ _ _ CoreAPI.invalid_video). by rewrite Hv.
      + destruct (regexp.match_passcode biometricVideoPasscode); cbn in H;
          [injection H as <-; auto|discriminate]. }
  clear H.
  assert (forall get : CoreAPI.coreRequest -> string,
            (forall x r, get (CoreAPI.Req.set_Passcode x r) = get r) ->
            get payload = get q4) as P.
  { intros get Hg. destruct Hq as [->| ->]; [done|apply Hg]. }
  repeat split.
  - rewrite (P CoreAPI.Req.Url), (P CoreAPI.Req.FileBase64) by reflexivity.
    rewrite (step_frame _ _ _ _ _ _ CoreAPI.Req.Url S4),
      (step_frame _ _ _ _ _ _ CoreAPI.Req.FileBase64 S4) by reflexivity.
    rewrite (step_frame _ _ _ _ _ _ CoreAPI.Req.Url S3),
      (step_frame _ _ _ _ _ _ CoreAPI.Req.FileBase64 S3) by reflexivity.
    rewrite (step_frame _ _ _ _ _ _ CoreAPI.Req.Url S2),
      (step_frame _ _ _ _ _ _ CoreAPI.Req.FileBase64 S2) by reflexivity.
    by apply (step_fields _ _ _ _ _ _ _ _ S1).
  - rewrite (P CoreAPI.Req.UrlBack), (P CoreAPI.Req.FileBackBase64) by reflexivity.
    rewrite (step_frame _ _ _ _ _ _ CoreAPI.Req.UrlBack S4),
      (step_frame _ _ _ _ _ _ CoreAPI.Req.FileBackBase64 S4) by reflexivity.
    rewrite (step_frame _ _ _ _ _ _ CoreAPI.Req.UrlBack S3),
      (step_frame _ _ _ _ _ _ CoreAPI.Req.FileBackBase64 S3) by reflexivity.
    apply (step_fields _ _ _ _ _ _ _ _ S2); try reflexivity.
    + by rewrite (step_frame _ _ _ _ _ _ CoreAPI.Req.UrlBack S1).
    + by rewrite (step_frame _ _ _ _ _ _ CoreAPI.Req.FileBackBase64 S1).
  - rewrite (P CoreAPI.Req.FaceUrl), (P CoreAPI.Req.FaceBase64) by reflexivity.
    rewrite (step_frame _ _ _ _ _ _ CoreAPI.Req.FaceUrl S4),
      (step_frame _ _ _ _ _ _ CoreAPI.Req.FaceBase64 S4) by reflexivity.
    apply (step_fields _ _ _ _ _ _ _ _ S3); try reflexivity.
    + rewrite (step_frame _ _ _ _ _ _ CoreAPI.Req.FaceUrl S2) by reflexivity.
      by rewrite (step_frame _ _ _ _ _ _ CoreAPI.Req.FaceUrl S1).
    + rewrite (step_frame _ _ _ _ _ _ CoreAPI.Req.FaceBase64 S2) by reflexivity.
      by rewrite (step_frame _ _ _ _ _ _ CoreAPI.Req.FaceBase64 S1).
  - rewrite (P CoreAPI.Req.VideoUrl), (P CoreAPI.Req.VideoBase64) by reflexivity.
    apply (step_fields _ _ _ _ _ _ _ _ S4); try reflexivity.
    + rewrite (step_frame _ _ _ _ _ _ CoreAPI.Req.VideoUrl S3) by reflexivity.
      rewrite (step_frame _ _ _ _ _ _ CoreAPI.Req.VideoUrl S2) by reflexivity.
      by rewrite (step_frame _ _ _ _ _ _ CoreAPI.Req.VideoUrl S1).
    + rewrite (step_frame _ _ _ _ _ _ CoreAPI.Req.VideoBase64 S3) by reflexivity.
      rewrite (step_frame _ _ _ _ _ _ CoreAPI.Req.VideoBase64 S2) by reflexivity.
      by rewrite (step_frame _ _ _ _ _ _ CoreAPI.Req.VideoBase64 S1).
Qed.

Lemma media_fields_never_both_witness :
  exists payload,
    CoreAPI.build fs_sample core_sample "id.jpg" "https://example.com/back.jpg"
      EmptyString EmptyString EmptyString = Done (inl payload)
    /\ CoreAPI.Req.Url payload = EmptyString
    /\ CoreAPI.Req.FileBase64 payload = "QQ=="
    /\ CoreAPI.Req.UrlBack payload = "https://example.com/back.jpg"
    /\ CoreAPI.Req.FileBackBase64 payload = EmptyString
    /\ field_pair fs_sample "id.jpg"
         (CoreAPI.Req.Url payload) (CoreAPI.Req.FileBase64 payload).
Proof.
  eexists. split; [reflexivity|].
  repeat (split; [reflexivity|]).
  eapply (media_fields_never_both fs_sample core_sample "id.jpg"
            "https://example.com/back.jpg" EmptyString EmptyString EmptyString).
  reflexivity.
Defined.

(** ** Rejection of invalid media arguments *)

Lemma scan_error_posts_nothing (fs : os.FS) (post : Transport CoreAPI.coreRequest)
    (c : CoreAPI.CoreAPI) (p1 p2 ph v pass : string) (e : error) :
  CoreAPI.build fs c p1 p2 ph v pass = Done (inr e) ->
  CoreAPI.scan fs post c p1 p2 ph v pass = (Done (EmptyResponse, Some e), []).
Proof. intros H. unfold CoreAPI.scan. by rewrite H. Qed.

Lemma scan_panic_posts_nothing (fs : os.FS) (post : Transport CoreAPI.coreRequest)
    (c : CoreAPI.CoreAPI) (p1 p2 ph v pass : string) (reason : string) :
  CoreAPI.build fs c p1 p2 ph v pass = Panic reason ->
  CoreAPI.scan fs post c p1 p2 ph v pass = (Panic reason, []).
Proof. intros H. unfold CoreAPI.scan. by rewrite H. Qed.

Section Steps.
Context (fs : os.FS) (s : string).
Context (setUrl setBase64 : string -> CoreAPI.coreRequest -> CoreAPI.coreRequest).
Context (invalid : error) (p : CoreAPI.coreRequest).

Lemma accepted_resolves :
  accepted fs s ->
  exists q, CoreAPI.resolve fs s setUrl setBase64 invalid p = Done (inl q).
Proof.
  intros (_ & k & Hk & Hne).
  rewrite (resolve_classified _ _ _ _ _ _ _ Hk). destruct k; eauto. done.
Qed.

Lemma optional_accepted_steps :
  optional_accepted fs s ->
  exists q, (if negb (String.eqb s EmptyString)
             then CoreAPI.resolve fs s setUrl setBase64 invalid p
             else Done (inl p)) = Done (inl q).
Proof.
  intros [->|H]; [cbn; eauto|].
  rewrite eqb_empty_false by apply H. cbn. by apply accepted_resolves.
Qed.

Lemma rejected_fails :
  rejected fs s ->
  (if negb (String.eqb s EmptyString)
   then CoreAPI.resolve fs s setUrl setBase64 invalid p
   else Done (inl p)) = Done (inr invalid).
Proof.
  intros (Hs & Hk). rewrite eqb_empty_false by done. cbn.
  by rewrite (resolve_classified _ _ _ _ _ _ _ Hk).
Qed.

End Steps.

Lemma short_unknown_name_rejected (fs : os.FS) (s : string) :
  s <> EmptyString -> url.ParseRequestURI s = None ->
  fileExists fs s = Done false -> (strlen s <= 100)%N ->
  rejected fs s.
Proof. intros Hs Hu Hf Hn. split; [done|]. by apply classify_invalid. Qed.

(** X2.  When the file probe answers, an invalid argument makes [scan]
    return the error that names the first such argument, and nothing is
    posted. *)
Lemma invalid_argument_rejected (fs : os.FS) (post : Transport CoreAPI.coreRequest)
    (c : CoreAPI.CoreAPI) (p1 p2 ph v pass : string) :
  (rejected fs p1 ->
   CoreAPI.scan fs post c p1 p2 ph v pass
   = (Done (EmptyResponse, Some CoreAPI.invalid_primary), []))
  /\ (accepted fs p1 -> rejected fs p2 ->
      CoreAPI.scan fs post c p1 p2 ph v pass
      = (Done (EmptyResponse, Some CoreAPI.invalid_secondary), []))
  /\ (accepted fs p1 -> optional_accepted fs p2 -> rejected fs ph ->
      CoreAPI.scan fs post c p1 p2 ph v pass
      = (Done (EmptyResponse, Some CoreAPI.invalid_face), []))
  /\ (accepted fs p1 -> optional_accepted fs p2 -> optional_accepted fs ph ->
      rejected fs v ->
      CoreAPI.scan fs post c p1 p2 ph v pass
      = (Done (EmptyResponse, Some CoreAPI.invalid_video), [])).
Proof.
  repeat split.
  - intros R1. apply scan_error_posts_nothing. unfold CoreAPI.build.
    pose proof (rejected_fails fs p1 CoreAPI.Req.set_Url CoreAPI.Req.set_FileBase64
                  CoreAPI.invalid_primary (CoreAPI.payload_of c) R1) as H.
    destruct R1 as (Hs & _). rewrite eqb_empty_false in H |- * by done.
    cbn in H. by rewrite H.
  - intros A1 R2. apply scan_error_posts_nothing. unfold CoreAPI.build.
    rewrite eqb_empty_false by apply A1.
    destruct (accepted_resolves fs p1 CoreAPI.Req.set_Url CoreAPI.Req.set_FileBase64
                CoreAPI.invalid_primary (CoreAPI.payload_of c) A1) as (q1 & ->).
    cbn. by rewrite rejected_fails.
  - intros A1 A2 R3. apply scan_error_posts_nothing. unfold CoreAPI.build.
    rewrite eqb_empty_false by apply A1.
    destruct (accepted_resolves fs p1 CoreAPI.Req.set_Url CoreAPI.Req.set_FileBase64
                CoreAPI.invalid_primary (CoreAPI.payload_of c) A1) as (q1 & ->).
    cbn.
    destruct (optional_accepted_steps fs p2 CoreAPI.Req.set_UrlBack
                CoreAPI.Req.set_FileBackBase64 CoreAPI.invalid_secondary q1 A2)
      as (q2 & ->).
    cbn. by rewrite rejected_fails.
  - intros A1 A2 A3 R4. apply scan_error_posts_nothing. unfold CoreAPI.build.
    rewrite eqb_empty_false by apply A1.
    destruct (accepted_resolves fs p1 CoreAPI.Req.set_Url CoreAPI.Req.set_FileBase64
                CoreAPI.invalid_primary (CoreAPI.payload_of c) A1) as (q1 & ->).
    cbn.
    destruct (optional_accepted_steps fs p2 CoreAPI.Req.set_UrlBack
                CoreAPI.Req.set_FileBackBase64 CoreAPI.invalid_secondary q1 A2)
      as (q2 & ->).
    cbn.
    destruct (optional_accepted_steps fs ph CoreAPI.Req.set_FaceUrl
                CoreAPI.Req.set_FaceBase64 CoreAPI.invalid_face q2 A3)
      as (q3 & ->).
    cbn. destruct R4 as (Hs & Hk). rewrite eqb_empty_false by done. cbn.
    by rewrite (resolve_classified _ _ _ _ _ _ _ Hk).
Qed.

(** C6 (the code does not do this).  A short name that is neither a URI
    nor an existing file does not always make the call return an error.
    The call can panic: the path below a regular file fails [os.Stat]
    with ENOTDIR, and a name with a NUL byte fails it with EINVAL on
    every file system (the defect of [fileExists]).  And the call can go
    to the network: a rooted path that does not exist passes the URL
    parse and is posted in the [url] field (the defect of the URL test). *)
Theorem scan_panics_on_short_invalid_name :
  forall (post : Transport CoreAPI.coreRequest) (c : CoreAPI.CoreAPI),
    ((strlen "id.jpg/front" <= 100)%N
     /\ url.ParseRequestURI "id.jpg/front" = None
     /\ os.lookup fs_sample "id.jpg/front" = inl os.ENOTDIR
     /\ CoreAPI.ScanFront fs_sample post c "id.jpg/front"
        = (Panic nil_dereference, [])
     /\ CoreAPI.ScanFrontFace fs_sample post c "id.jpg" "id.jpg/front"
        = (Panic nil_dereference, []))
    /\ (forall fs : os.FS,
          (strlen name_with_NUL <= 100)%N
          /\ url.ParseRequestURI name_with_NUL = None
          /\ os.lookup fs name_with_NUL = inl os.EINVAL
          /\ CoreAPI.ScanFront fs post c name_with_NUL
             = (Panic nil_dereference, []))
    /\ ((strlen "/nowhere/id.jpg" <= 100)%N
        /\ (url.Scheme <$> url.ParseRequestURI "/nowhere/id.jpg") = Some EmptyString
        /\ os.lookup fs_empty "/nowhere/id.jpg" = inl os.ENOENT
        /\ (CoreAPI.ScanFront fs_empty post c "/nowhere/id.jpg").2
           = [(CoreAPI.apiEndpoint c,
               CoreAPI.Req.set_Url "/nowhere/id.jpg" (CoreAPI.payload_of c))]).
Proof.
  intros post c. repeat split; try done.
  unfold CoreAPI.ScanFront, CoreAPI.scan1Side, CoreAPI.scan. cbn.
  rewrite resolve_URL by (eexists; reflexivity). cbn.
  destruct (post (CoreAPI.apiEndpoint c) _); reflexivity.
Qed.

(** ** Setters *)

(** What a field assignment is: the assigned field reads back, the other
    fields keep their values, and assigning a field its own value
    changes nothing. *)
Lemma field_assignment (c : CoreAPI.coreConfig) (v : bool) :
  CoreAPI.authenticate (CoreAPI.set_authenticate v c) = v
  /\ CoreAPI.authenticateModule (CoreAPI.set_authenticate v c)
     = CoreAPI.authenticateModule c
  /\ CoreAPI.biometricThreshold (CoreAPI.set_authenticate v c)
     = CoreAPI.biometricThreshold c
  /\ CoreAPI.set_authenticate (CoreAPI.authenticate c) c = c.
Proof. repeat split; try reflexivity. by destruct c. Qed.

(** Setting a valid value twice is setting it once. *)
Lemma SetBiometricThreshold_idempotent (c : CoreAPI.CoreAPI) (threshold : float32) :
  (CoreAPI.SetBiometricThreshold c threshold).2 = None ->
  CoreAPI.SetBiometricThreshold (CoreAPI.SetBiometricThreshold c threshold).1 threshold
  = CoreAPI.SetBiometricThreshold c threshold.
Proof.
  unfold CoreAPI.SetBiometricThreshold.
  destruct (f32_le threshold f32_zero || f32_gt threshold f32_one) eqn:H;
    [discriminate|].
  reflexivity.
Qed.

(** Closes a goal [is_Some (f ...).2 -> (f ...).1 = c] for a setter [f]
    that validates before it assigns. *)
Ltac validates_first :=
  intros; repeat case_match; cbn in *;
  match goal with
  | H : is_Some None |- _ => by destruct H
  | _ => reflexivity
  end.

(** X1.  Every fallible setter of the document-scan façade other than
    [EnableAuthentication] leaves the façade as it was when it fails. *)
Lemma Core_setters_validate_first (c : CoreAPI.CoreAPI) :
  (forall maxScale,
     is_Some (CoreAPI.SetOCRImageResize c maxScale).2 ->
     (CoreAPI.SetOCRImageResize c maxScale).1 = c)
  /\ (forall threshold,
        is_Some (CoreAPI.SetBiometricThreshold c threshold).2 ->
        (CoreAPI.SetBiometricThreshold c threshold).1 = c)
  /\ (forall cropDocument cropFace outputFormat,
        is_Some (CoreAPI.EnableImageOutput c cropDocument cropFace outputFormat).2 ->
        (CoreAPI.EnableImageOutput c cropDocument cropFace outputFormat).1 = c)
  /\ (forall dob,
        is_Some (CoreAPI.VerifyDOB c dob).2 -> (CoreAPI.VerifyDOB c dob).1 = c)
  /\ (forall ageRange,
        is_Some (CoreAPI.VerifyAge c ageRange).2 ->
        (CoreAPI.VerifyAge c ageRange).1 = c)
  /\ (forall templateId format prefillData,
        is_Some (CoreAPI.GenerateContract c templateId format prefillData).2 ->
        (CoreAPI.GenerateContract c templateId format prefillData).1 = c).
Proof.
  repeat split;
    unfold CoreAPI.SetOCRImageResize, CoreAPI.SetBiometricThreshold,
      CoreAPI.EnableImageOutput, CoreAPI.VerifyDOB, CoreAPI.VerifyAge,
      CoreAPI.GenerateContract; validates_first.
Qed.

(** The same for the hosted-session façade, all of its fallible setters. *)
Lemma DocuPass_setters_validate_first (d : DocuPassAPI.DocuPassAPI) :
  (forall maxAttempt,
     is_Some (DocuPassAPI.SetMaxAttempt d maxAttempt).2 ->
     (DocuPassAPI.SetMaxAttempt d maxAttempt).1 = d)
  /\ (forall hasIsPrivate callback,
        is_Some (DocuPassAPI.SetCallbackUrl hasIsPrivate d callback).2 ->
        (DocuPassAPI.SetCallbackUrl hasIsPrivate d callback).1 = d)
  /\ (forall successUrl failUrl,
        is_Some (DocuPassAPI.SetRedirectURL d successUrl failUrl).2 ->
        (DocuPassAPI.SetRedirectURL d successUrl failUrl).1 = d)
  /\ (forall enabled module minScore,
        is_Some (DocuPassAPI.EnableAuthentication d enabled module minScore).2 ->
        (DocuPassAPI.EnableAuthentication d enabled module minScore).1 = d)
  /\ (forall enabled verificationType threshold,
        is_Some (DocuPassAPI.EnableFaceVerification d enabled verificationType threshold).2 ->
        (DocuPassAPI.EnableFaceVerification d enabled verificationType threshold).1 = d)
  /\ (forall fore back size margin,
        is_Some (DocuPassAPI.SetQRCodeFormat d fore back size margin).2 ->
        (DocuPassAPI.SetQRCodeFormat d fore back size margin).1 = d)
  /\ (forall date,
        is_Some (DocuPassAPI.VerifyDOB d date).2 -> (DocuPassAPI.VerifyDOB d date).1 = d)
  /\ (forall ageRange,
        is_Some (DocuPassAPI.VerifyAge d ageRange).2 ->
        (DocuPassAPI.VerifyAge d ageRange).1 = d)
  /\ (forall templateID format prefillData,
        is_Some (DocuPassAPI.GenerateContract d templateID format prefillData).2 ->
        (DocuPassAPI.GenerateContract d templateID format prefillData).1 = d)
  /\ (forall templateID format prefillData,
        is_Some (DocuPassAPI.SignContract d templateID format prefillData).2 ->
        (DocuPassAPI.SignContract d templateID format prefillData).1 = d).
Proof.
  repeat split;
    unfold DocuPassAPI.SetMaxAttempt, DocuPassAPI.SetCallbackUrl,
      DocuPassAPI.SetRedirectURL, DocuPassAPI.EnableAuthentication,
      DocuPassAPI.EnableFaceVerification, DocuPassAPI.SetQRCodeFormat,
      DocuPassAPI.VerifyDOB, DocuPassAPI.VerifyAge,
      DocuPassAPI.GenerateContract, DocuPassAPI.SignContract; validates_first.
Qed.

Lemma AML_SetEntityType_validates_first (a : AMLAPI.AMLAPI) (entityType : string) :
  is_Some (AMLAPI.SetEntityType a entityType).2 ->
  (AMLAPI.SetEntityType a entityType).1 = a.
Proof. unfold AMLAPI.SetEntityType. validates_first. Qed.

(** The biometric-threshold scenario: 0 is refused and the threshold
    stays; 0.6 is stored and read back. *)
Lemma SetBiometricThreshold_scenario (c : CoreAPI.CoreAPI) :
  (CoreAPI.SetBiometricThreshold c f32_zero).1 = c
  /\ is_Some (CoreAPI.SetBiometricThreshold c f32_zero).2
  /\ (CoreAPI.SetBiometricThreshold c f32_0_6).2 = None
  /\ CoreAPI.biometricThreshold
       (CoreAPI.config (CoreAPI.SetBiometricThreshold c f32_0_6).1) = f32_0_6.
Proof. repeat split; try reflexivity. by eexists. Qed.

Lemma VerifyAge_scenario (c : CoreAPI.CoreAPI) :
  (CoreAPI.VerifyAge c "18-120").2 = None
  /\ CoreAPI.verifyAge (CoreAPI.config (CoreAPI.VerifyAge c "18-120").1) = "18-120"
  /\ (CoreAPI.VerifyAge c "eighteen-120")
     = (c, Some "invalid age range format (minAge-maxAge)").
Proof. repeat split; reflexivity. Qed.

(** C1 (the code does not do this).  [CoreAPI.EnableAuthentication]
    assigns the authenticate flag before it validates the module: with
    an invalid module it returns the error, leaves the module as it was,
    and has already stored the flag it was given. *)
Theorem EnableAuthentication_assigns_before_validating
    (c : CoreAPI.CoreAPI) (authenticate : bool) (authModule : string) :
  authModule <> "1" -> authModule <> "2" -> authModule <> "quick" ->
  is_Some (CoreAPI.EnableAuthentication c authenticate authModule).2
  /\ CoreAPI.authenticateModule
       (CoreAPI.config (CoreAPI.EnableAuthentication c authenticate authModule).1)
     = CoreAPI.authenticateModule (CoreAPI.config c)
  /\ CoreAPI.authenticate
       (CoreAPI.config (CoreAPI.EnableAuthentication c authenticate authModule).1)
     = authenticate.
Proof.
  intros H1 H2 H3. unfold CoreAPI.EnableAuthentication.
  apply String.eqb_neq in H1 as ->. apply String.eqb_neq in H2 as ->.
  apply String.eqb_neq in H3 as ->. cbn.
  repeat split; try reflexivity. by eexists.
Qed.

Lemma EnableAuthentication_assigns_before_validating_witness :
  CoreAPI.authenticate (CoreAPI.config core_sample) = false
  /\ is_Some (CoreAPI.EnableAuthentication core_sample true "3").2
  /\ CoreAPI.authenticate
       (CoreAPI.config (CoreAPI.EnableAuthentication core_sample true "3").1)
     = true
  /\ (CoreAPI.EnableAuthentication core_sample true "3").1 <> core_sample.
Proof.
  destruct (EnableAuthentication_assigns_before_validating core_sample true "3")
    as (H1 & _ & H3); [discriminate..|].
  split; [reflexivity|]. split; [exact H1|]. split; [exact H3|].
  intros H. rewrite H in H3. discriminate.
Defined.

(** ** Reset *)

(** C5.  [ResetConfig] puts the documented default in every
    configuration field and keeps the API key, the endpoint and the
    company name; the payload built right after it carries the default
    of every option. *)
Theorem ResetConfig_restores_documented_defaults :
  forall (c : CoreAPI.CoreAPI) (d : DocuPassAPI.DocuPassAPI)
         (fs : os.FS) (post : Transport CoreAPI.coreRequest)
         (post' : Transport DocuPassAPI.wire),
    CoreAPI.ResetConfig c
    = {| CoreAPI.apiKey := CoreAPI.apiKey c;
         CoreAPI.apiEndpoint := CoreAPI.apiEndpoint c;
         CoreAPI.config := CoreAPI.defaultCoreConfig |}
    /\ CoreAPI.payload_of (CoreAPI.ResetConfig c)
       = core_default_payload (CoreAPI.apiKey c)
    /\ (CoreAPI.ScanFront fs post (CoreAPI.ResetConfig c)
          "https://www.idanalyzer.com/img/sampleid1.jpg").2
       = [(CoreAPI.apiEndpoint c,
           CoreAPI.Req.set_Url "https://www.idanalyzer.com/img/sampleid1.jpg"
             (core_default_payload (CoreAPI.apiKey c)))]
    /\ DocuPassAPI.ResetConfig d
       = {| DocuPassAPI.apiKey := DocuPassAPI.apiKey d;
            DocuPassAPI.apiEndpoint := DocuPassAPI.apiEndpoint d;
            DocuPassAPI.companyName := DocuPassAPI.companyName d;
            DocuPassAPI.config := DocuPassAPI.defaultDocuPassConfig |}
    /\ DocuPassAPI.requestFromConfig (DocuPassAPI.ResetConfig d)
       = docupass_default_request (DocuPassAPI.apiKey d)
           (DocuPassAPI.companyName d) 0
    /\ (DocuPassAPI.CreateMobile post' (DocuPassAPI.ResetConfig d)).2
       = [(DocuPassAPI.apiEndpoint d +:+ "/create",
           DocuPassAPI.WRequest
             (docupass_default_request (DocuPassAPI.apiKey d)
                (DocuPassAPI.companyName d) 1))].
Proof.
  intros c d fs post post'. repeat split; try reflexivity.
  cbn. unfold CoreAPI.ScanFront, CoreAPI.scan1Side, CoreAPI.scan.
  cbn. rewrite resolve_URL by (eexists; reflexivity).
  cbn. destruct (post (CoreAPI.apiEndpoint c) _); reflexivity.
Qed.

(** Reset does not depend on what was configured before. *)
Lemma ResetConfig_forgets (c : CoreAPI.CoreAPI) (f : CoreAPI.coreConfig -> CoreAPI.coreConfig) :
  CoreAPI.ResetConfig (CoreAPI.with_config f c) = CoreAPI.ResetConfig c.
Proof. reflexivity. Qed.

(** A new façade starts from the same defaults. *)
Lemma NewCoreAPI_defaults (apiKey region : string) :
  apiKey <> EmptyString ->
  CoreAPI.config (CoreAPI.NewCoreAPI apiKey region).1 = CoreAPI.defaultCoreConfig
  /\ CoreAPI.ResetConfig (CoreAPI.NewCoreAPI apiKey region).1
     = (CoreAPI.NewCoreAPI apiKey region).1.
Proof.
  intros H. unfold CoreAPI.NewCoreAPI. rewrite eqb_empty_false by done.
  split; reflexivity.
Qed.

(** ** Response normalisation *)


(** The embedded-error scenario on the document-scan façade. *)
Lemma scan_embedded_error_scenario (fs : os.FS) (c : CoreAPI.CoreAPI) :
  exists result,
    (CoreAPI.ScanFront fs (answer mismatch_body) c "https://example.com/id.jpg").1
    = Done (result, Some "14: mismatch")
    /\ CoreAPI.Resp.Error result = Some {| Code := 14; Message := "mismatch" |}
    /\ CoreAPI.Resp.Result result = Some (JObj [("firstName", JStr "Lena")]).
Proof. eexists. repeat split; reflexivity. Qed.

(** The same on the hosted-session façade. *)
Lemma create_embedded_error_scenario (d : DocuPassAPI.DocuPassAPI) :
  exists result,
    (DocuPassAPI.CreateIFrame (answer mismatch_body) d).1
    = (result, Some "14: mismatch")
    /\ DocuPassAPI.Identity.Error result
       = Some {| Code := 14; Message := "mismatch" |}.
Proof. eexists. split; reflexivity. Qed.

(** [Validate] returns a nil error whatever the body embeds. *)
Lemma Validate_ignores_embedded_error (d : DocuPassAPI.DocuPassAPI)
    (reference hash : string) :
  (DocuPassAPI.Validate (answer mismatch_body) d reference hash).1 = (false, None).
Proof. reflexivity. Qed.

(** C3 (the code does not do this).  The typed [callAPI] of the vault
    façade decodes the body and returns a nil error without looking at
    the embedded error: every action that receives a response reports
    success, whatever the response says. *)
Theorem Vault_callAPI_never_reports_embedded_error {R : Type}
    (member : R -> string * json -> R) (post : Transport (gmap string value))
    (v : VaultAPI.VaultAPI) (action : string) (request : value) (result : R)
    (payload : gmap string value) (body : option json) :
  VaultAPI.to_payload request = Some payload ->
  post (VaultAPI.apiEndpoint v +:+ "/" +:+ action)
    (<["client" := VString "go-sdk"]>
       (<["apikey" := VString (VaultAPI.apiKey v)]> payload)) = inr body ->
  (VaultAPI.callAPI member post v action request result).1
  = Done (Unmarshal member body result, None).
Proof.
  intros Hp Hb. unfold VaultAPI.callAPI. rewrite Hp. cbn. by rewrite Hb.
Qed.

Lemma Vault_callAPI_never_reports_embedded_error_witness :
  exists response,
    (VaultAPI.Get (answer mismatch_body)
       {| VaultAPI.apiKey := "key"; VaultAPI.apiEndpoint := "https://api.idanalyzer.com/vault" |}
       "abc").1 = Done (response, None)
    /\ VaultAPI.Item.Error response = Some {| Code := 14; Message := "mismatch" |}.
Proof.
  eexists. split.
  - eapply (Vault_callAPI_never_reports_embedded_error VaultAPI.Item.decode_member
              (answer mismatch_body) _ "get" (VaultAPI.VaultItemRequest "abc")
              VaultAPI.Item.zero _ (Some mismatch_body)); reflexivity.
  - reflexivity.
Defined.

(** X18.  The typed [TrainFace] and [TrainingStatus] never reach the
    network: their request marshals to an array, the payload map stays
    nil, and the assignment into it panics. *)
Lemma Vault_TrainFace_panics (post : Transport (gmap string value))
    (v : VaultAPI.VaultAPI) :
  VaultAPI.TrainFace post v = (Panic nil_map_assignment, [])
  /\ VaultAPI.TrainingStatus post v = (Panic nil_map_assignment, []).
Proof. split; reflexivity. Qed.

(** ** The callback URL *)

(** The scenario, on a platform whose net.IP has no IsPrivate method. *)
Lemma SetCallbackUrl_scenario (d : DocuPassAPI.DocuPassAPI) :
  DocuPassAPI.SetCallbackUrl false d "http://127.0.0.1/hook"
  = (d, Some "invalid URL, the host does not appear to be a remote host")
  /\ (forall hasIsPrivate,
        DocuPassAPI.SetCallbackUrl hasIsPrivate d "https://example.com/hook"
        = (DocuPassAPI.with_config
             (DocuPassAPI.set_callbackUrl "https://example.com/hook") d, None))
  /\ (forall hasIsPrivate,
        DocuPassAPI.SetCallbackUrl hasIsPrivate d "http://localhost/hook"
        = (d, Some "invalid URL, the host does not appear to be a remote host"))
  /\ (forall hasIsPrivate,
        DocuPassAPI.SetCallbackUrl hasIsPrivate d "http://10.1.2.3/hook"
        = (d, Some "invalid URL, the host does not appear to be a remote host"))
  /\ (forall hasIsPrivate,
        DocuPassAPI.SetCallbackUrl hasIsPrivate d "ftp://example.com/hook"
        = (d, Some "invalid URL, only http and https protocols are allowed"))
  /\ (forall hasIsPrivate,
        DocuPassAPI.SetCallbackUrl hasIsPrivate d "/hook"
        = (d, Some "invalid URL, only http and https protocols are allowed")).
Proof. repeat split; intros; by destruct hasIsPrivate. Qed.


(** C7 (the code does not do this).  The guard compares the host of the
    URL, port and brackets included, with an IP address and with
    "localhost": a loopback host followed by a port, and a bracketed
    IPv6 loopback, are accepted and stored on every platform; and where
    net.IP has the method IsPrivate, which covers the private ranges
    only, the loopback address itself is accepted. *)
Theorem SetCallbackUrl_accepts_loopback_hosts :
  forall (hasIsPrivate : bool) (d : DocuPassAPI.DocuPassAPI),
    DocuPassAPI.SetCallbackUrl hasIsPrivate d "http://127.0.0.1:8080/hook"
    = (DocuPassAPI.with_config
         (DocuPassAPI.set_callbackUrl "http://127.0.0.1:8080/hook") d, None)
    /\ DocuPassAPI.SetCallbackUrl hasIsPrivate d "http://localhost:8080/hook"
       = (DocuPassAPI.with_config
            (DocuPassAPI.set_callbackUrl "http://localhost:8080/hook") d, None)
    /\ DocuPassAPI.SetCallbackUrl hasIsPrivate d "http://[::1]/hook"
       = (DocuPassAPI.with_config
            (DocuPassAPI.set_callbackUrl "http://[::1]/hook") d, None)
    /\ DocuPassAPI.SetCallbackUrl true d "http://127.0.0.1/hook"
       = (DocuPassAPI.with_config
            (DocuPassAPI.set_callbackUrl "http://127.0.0.1/hook") d, None)
    /\ DocuPassAPI.SetCallbackUrl true d "http://169.254.169.254/latest"
       = (DocuPassAPI.with_config
            (DocuPassAPI.set_callbackUrl "http://169.254.169.254/latest") d, None).
Proof. intros hasIsPrivate d. repeat split; by destruct hasIsPrivate. Qed.

(** ** The map-based vault: assignments into the caller's maps *)

Section VaultMaps.
Context (Errorf : option json -> option json -> error).
Context (post : Transport (gmap string value)) (v : VaultMapAPI.VaultAPI).

Lemma callAPI_store (action : string) (l : VaultMapAPI.loc)
    (store : VaultMapAPI.Store) :
  (VaultMapAPI.callAPI Errorf post v action (Some l) store).1.1
  = VaultMapAPI.assign l "client" (VString "go-sdk")
      (VaultMapAPI.assign l "apikey" (VString (VaultMapAPI.apiKey v)) store).
Proof. unfold VaultMapAPI.callAPI. by destruct (post _ _). Qed.

Lemma assign_lookup (l : VaultMapAPI.loc) (k : string) (x : value)
    (store : VaultMapAPI.Store) (m : gmap string value) :
  store !! l = Some m ->
  VaultMapAPI.assign l k x store !! l = Some (<[k := x]> m).
Proof. intros H. unfold VaultMapAPI.assign. by rewrite lookup_alter_eq, H. Qed.

Lemma assign_other (l l' : VaultMapAPI.loc) (k : string) (x : value)
    (store : VaultMapAPI.Store) :
  l' <> l -> VaultMapAPI.assign l k x store !! l' = store !! l'.
Proof. intros H. unfold VaultMapAPI.assign. by rewrite lookup_alter_ne. Qed.

End VaultMaps.

(** C10.  [callAPI] assigns "apikey" and "client" into the map it is
    passed, and [Update] assigns "id" into the caller's data map before
    that: after the call the caller's map holds these keys, every other
    key is as it was, no other map is touched, and the map differs from
    what the caller passed unless it already held those very values. *)
Theorem Vault_calls_assign_into_caller_map
    (Errorf : option json -> option json -> error)
    (post : Transport (gmap string value)) (v : VaultMapAPI.VaultAPI)
    (action vault_id : string) (l : VaultMapAPI.loc)
    (store : VaultMapAPI.Store) (m : gmap string value) :
  store !! l = Some m ->
  let called := (VaultMapAPI.callAPI Errorf post v action (Some l) store).1.1 in
  let updated := (VaultMapAPI.Update Errorf post v vault_id (Some l) store).1.1 in
  let stamped :=
    <["client" := VString "go-sdk"]>
      (<["apikey" := VString (VaultMapAPI.apiKey v)]> m) in
  let stamped_id :=
    <["client" := VString "go-sdk"]>
      (<["apikey" := VString (VaultMapAPI.apiKey v)]>
         (<["id" := VString vault_id]> m)) in
  (called !! l = Some stamped
   /\ stamped !! "apikey" = Some (VString (VaultMapAPI.apiKey v))
   /\ stamped !! "client" = Some (VString "go-sdk")
   /\ (forall k, k <> "apikey" -> k <> "client" -> stamped !! k = m !! k)
   /\ (forall l', l' <> l -> called !! l' = store !! l')
   /\ (m !! "apikey" <> Some (VString (VaultMapAPI.apiKey v))
       \/ m !! "client" <> Some (VString "go-sdk") ->
       called !! l <> store !! l))
  /\ (vault_id <> EmptyString -> m <> ∅ ->
      updated !! l = Some stamped_id
      /\ stamped_id !! "id" = Some (VString vault_id)
      /\ (forall k, k <> "id" -> k <> "apikey" -> k <> "client" ->
                    stamped_id !! k = m !! k)
      /\ (forall l', l' <> l -> updated !! l' = store !! l')
      /\ (m !! "id" <> Some (VString vault_id) -> updated !! l <> store !! l)).
Proof.
  intros Hm called updated stamped stamped_id.
  assert (called !! l = Some stamped) as Hc.
  { unfold called. rewrite callAPI_store.
    by rewrite (assign_lookup _ _ _ _ _ (assign_lookup _ _ _ _ _ Hm)). }
  split.
  - split; [exact Hc|]. unfold stamped. repeat split.
    + by rewrite lookup_insert_ne, lookup_insert_eq.
    + by rewrite lookup_insert_eq.
    + intros k H1 H2. by rewrite !lookup_insert_ne.
    + intros l' Hl. unfold called. rewrite callAPI_store.
      by rewrite !assign_other.
    + intros H. rewrite Hc, Hm. intros [= Heq].
      destruct H as [H|H]; apply H; rewrite <- Heq; unfold stamped.
      * by rewrite lookup_insert_ne, lookup_insert_eq.
      * by rewrite lookup_insert_eq.
  - intros Hid Hne.
    assert (updated
            = VaultMapAPI.assign l "client" (VString "go-sdk")
                (VaultMapAPI.assign l "apikey" (VString (VaultMapAPI.apiKey v))
                   (VaultMapAPI.assign l "id" (VString vault_id) store))) as Hu.
    { unfold updated, VaultMapAPI.Update.
      rewrite eqb_empty_false by done.
      unfold VaultMapAPI.map_len. rewrite Hm. cbn.
      apply map_size_non_empty_iff in Hne.
      destruct (size m) as [|n] eqn:Hsz; [done|]. cbn.
      apply callAPI_store. }
    assert (updated !! l = Some stamped_id) as Hl.
    { rewrite Hu.
      by rewrite (assign_lookup _ _ _ _ _
                    (assign_lookup _ _ _ _ _ (assign_lookup _ _ _ _ _ Hm))). }
    split; [exact Hl|]. unfold stamped_id. repeat split.
    + rewrite lookup_insert_ne by done. rewrite lookup_insert_ne by done.
      apply lookup_insert_eq.
    + intros k H1 H2 H3. by rewrite !lookup_insert_ne.
    + intros l' Hl'. rewrite Hu. by rewrite !assign_other.
    + intros H. rewrite Hl, Hm. intros [= Heq]. apply H. rewrite <- Heq.
      unfold stamped_id. rewrite lookup_insert_ne by done.
      rewrite lookup_insert_ne by done. apply lookup_insert_eq.
Qed.

Lemma Vault_calls_assign_into_caller_map_witness :
  caller_store !! 1%positive = Some caller_map
  /\ (VaultMapAPI.Update Errorf_sample (answer JNull) vault_sample "abc"
        (Some 1%positive) caller_store).1.1 !! 1%positive
     = Some (<["client" := VString "go-sdk"]>
               (<["apikey" := VString "key"]>
                  (<["id" := VString "abc"]> caller_map)))
  /\ (VaultMapAPI.Update Errorf_sample (answer JNull) vault_sample "abc"
        (Some 1%positive) caller_store).1.1 !! 1%positive
     <> caller_store !! 1%positive.
Proof.
  assert (caller_store !! 1%positive = Some caller_map) as Hm
    by apply lookup_singleton_eq.
  split; [exact Hm|].
  destruct (Vault_calls_assign_into_caller_map Errorf_sample (answer JNull)
              vault_sample "update" "abc" 1%positive caller_store caller_map Hm)
    as (_ & HU).
  destruct HU as (H1 & _ & _ & _ & H5);
    [discriminate|apply map_non_empty_singleton|].
  split; [exact H1|].
  apply H5. unfold caller_map. by rewrite lookup_singleton_ne.
Defined.

(** ** Configurations reachable through the setters *)















Lemma hex6_checked (s : string) :
  negb (strconv.ParseUint_hex_ok s) || negb (strlen s =? 6)%N = false -> hex6 s.
Proof.
  intros H. apply orb_false_elim in H as [H1 H2].
  apply negb_false_iff in H1, H2.
  unfold strconv.ParseUint_hex_ok in H1.
  apply andb_prop in H1 as [H1 _]. apply andb_prop in H1 as [_ H1].
  apply N.eqb_eq in H2. unfold strlen in H2. split; [lia|exact H1].
Qed.







(** ** The video passcode *)

(** The steps of a completed [build]. *)
Lemma build_done_steps (fs : os.FS) (c : CoreAPI.CoreAPI)
    (p1 p2 ph v pass : string) (payload : CoreAPI.coreRequest) :
  CoreAPI.build fs c p1 p2 ph v pass = Done (inl payload) ->
  p1 <> EmptyString
  /\ exists q1 q2 q3 q4,
       step_result fs p1 CoreAPI.Req.set_Url CoreAPI.Req.set_FileBase64
         (CoreAPI.payload_of c) q1
       /\ step_result fs p2 CoreAPI.Req.set_UrlBack CoreAPI.Req.set_FileBackBase64
            q1 q2
       /\ step_result fs ph CoreAPI.Req.set_FaceUrl CoreAPI.Req.set_FaceBase64
            q2 q3
       /\ step_result fs v CoreAPI.Req.set_VideoUrl CoreAPI.Req.set_VideoBase64
            q3 q4
       /\ ((v = EmptyString /\ payload = q4)
           \/ (v <> EmptyString /\ regexp.match_passcode pass = true
               /\ payload = CoreAPI.Req.set_Passcode pass q4)).
Proof.
  intros H. unfold CoreAPI.build in H.
  destruct (String.eqb_spec p1 EmptyString) as [->|Hp]; [discriminate|].
  split; [exact Hp|].
  apply and_then_done in H as (q1 & H1 & H).
  apply and_then_done in H as (q2 & H2 & H).
  apply and_then_done in H as (q3 & H3 & H).
  exists q1, q2, q3.
  assert (step_result fs p1 CoreAPI.Req.set_Url CoreAPI.Req.set_FileBase64
            (CoreAPI.payload_of c) q1) as S1.
  { apply (step_done _ _ _ _ _ _ CoreAPI.invalid_primary).
    by rewrite eqb_empty_false. }
  apply step_done in H2 as S2. apply step_done in H3 as S3.
  destruct (String.eqb_spec v EmptyString) as [->|Hv]; cbn in H.
  - injection H as <-. exists q3. repeat split; auto.
    by left.
  - apply and_then_done in H as (q4 & H4 & H). exists q4.
    repeat split; auto.
    + apply (step_done _ _ _ _ _ _ CoreAPI.invalid_video).
      by rewrite eqb_empty_false.
    + destruct (regexp.match_passcode pass) eqn:Hm; cbn in H;
        [injection H as <-; auto|discriminate].
Qed.

(** X5.  In a payload [build] completes, the passcode field is empty
    when no video is supplied, whatever passcode was passed, and
    otherwise holds the passcode as given, which then starts with four
    digits. *)
Theorem passcode_sent_only_with_video (fs : os.FS) (c : CoreAPI.CoreAPI)
    (p1 p2 ph v pass : string) (payload : CoreAPI.coreRequest) :
  CoreAPI.build fs c p1 p2 ph v pass = Done (inl payload) ->
  (v = EmptyString /\ CoreAPI.Req.Passcode payload = EmptyString)
  \/ (v <> EmptyString /\ regexp.match_passcode pass = true
      /\ CoreAPI.Req.Passcode payload = pass).
Proof.
  intros H.
  apply build_done_steps in H as (_ & q1 & q2 & q3 & q4 & S1 & S2 & S3 & S4 & Hq).
  assert (CoreAPI.Req.Passcode q4 = EmptyString) as Hp.
  { rewrite (step_frame _ _ _ _ _ _ CoreAPI.Req.Passcode S4) by reflexivity.
    rewrite (step_frame _ _ _ _ _ _ CoreAPI.Req.Passcode S3) by reflexivity.
    rewrite (step_frame _ _ _ _ _ _ CoreAPI.Req.Passcode S2) by reflexivity.
    by rewrite (step_frame _ _ _ _ _ _ CoreAPI.Req.Passcode S1). }
  destruct Hq as [(Hv & ->)|(Hv & Hm & ->)]; auto.
Qed.

Lemma passcode_sent_only_with_video_witness :
  exists payload,
    CoreAPI.build fs_sample core_sample "id.jpg" EmptyString EmptyString
      EmptyString "1234" = Done (inl payload)
    /\ CoreAPI.Req.Passcode payload = EmptyString.
Proof.
  eexists. split; [reflexivity|].
  destruct (passcode_sent_only_with_video fs_sample core_sample "id.jpg"
              EmptyString EmptyString EmptyString "1234" _ eq_refl)
    as [(_ & H)|(H & _)]; [exact H|done].
Defined.

Lemma build_fails_without_passcode (fs : os.FS) (c : CoreAPI.CoreAPI)
    (p1 p2 ph v pass : string) :
  v <> EmptyString -> regexp.match_passcode pass = false ->
  forall payload, CoreAPI.build fs c p1 p2 ph v pass <> Done (inl payload).
Proof.
  intros Hv Hm payload H.
  apply build_done_steps in H as (_ & q1 & q2 & q3 & q4 & _ & _ & _ & _ & Hq).
  destruct Hq as [(? & _)|(_ & Hm' & _)]; congruence.
Qed.

Lemma scan_posts_only_built (fs : os.FS) (post : Transport CoreAPI.coreRequest)
    (c : CoreAPI.CoreAPI) (p1 p2 ph v pass : string) :
  (forall payload, CoreAPI.build fs c p1 p2 ph v pass <> Done (inl payload)) ->
  (CoreAPI.scan fs post c p1 p2 ph v pass).2 = []
  /\ forall response, (CoreAPI.scan fs post c p1 p2 ph v pass).1
                      <> Done (response, None).
Proof.
  intros H. unfold CoreAPI.scan.
  destruct (CoreAPI.build fs c p1 p2 ph v pass) as [[payload|e]|reason].
  - by destruct (H payload).
  - split; [reflexivity|]. intros r. cbn. congruence.
  - split; [reflexivity|]. intros r. cbn. congruence.
Qed.

(** X6.  [ScanFrontVideo] and [ScanBothVideo] pass an empty passcode, so
    with a video supplied they never post a request and never succeed:
    a video reaches the service only through the actions that take a
    passcode. *)
Theorem video_actions_without_passcode_never_post (fs : os.FS)
    (post : Transport CoreAPI.coreRequest) (c : CoreAPI.CoreAPI)
    (documentPrimary documentSecondary biometricVideo : string) :
  biometricVideo <> EmptyString ->
  ((CoreAPI.ScanFrontVideo fs post c documentPrimary biometricVideo).2 = []
   /\ forall result,
        (CoreAPI.ScanFrontVideo fs post c documentPrimary biometricVideo).1
        <> Done (result, None))
  /\ ((CoreAPI.ScanBothVideo fs post c documentPrimary documentSecondary
         biometricVideo).2 = []
      /\ forall result,
           (CoreAPI.ScanBothVideo fs post c documentPrimary documentSecondary
              biometricVideo).1 <> Done (result, None)).
Proof.
  intros Hv.
  assert (forall p2,
            (CoreAPI.scan fs post c documentPrimary p2 EmptyString
               biometricVideo EmptyString).2 = []
            /\ forall response,
                 (CoreAPI.scan fs post c documentPrimary p2 EmptyString
                    biometricVideo EmptyString).1 <> Done (response, None))
    as Hscan.
  { intros p2. apply scan_posts_only_built.
    by apply build_fails_without_passcode. }
  split.
  - unfold CoreAPI.ScanFrontVideo, CoreAPI.scan1Side.
    destruct (Hscan EmptyString) as [Hc Hn].
    destruct (CoreAPI.scan fs post c documentPrimary EmptyString EmptyString
                biometricVideo EmptyString) as [scanned calls].
    cbn in *. split; [exact Hc|].
    intros result. unfold CoreAPI.normalize.
    destruct scanned as [[response [e|]]|reason]; cbn; try congruence.
    by destruct (Hn response).
  - unfold CoreAPI.ScanBothVideo, CoreAPI.scan2Sides.
    destruct (String.eqb documentSecondary EmptyString);
      [split; [reflexivity|cbn; congruence]|].
    destruct (Hscan documentSecondary) as [Hc Hn].
    destruct (CoreAPI.scan fs post c documentPrimary documentSecondary
                EmptyString biometricVideo EmptyString) as [scanned calls].
    cbn in *. split; [exact Hc|].
    intros result. unfold CoreAPI.normalize.
    destruct scanned as [[response [e|]]|reason]; cbn; try congruence.
    by destruct (Hn response).
Qed.

Lemma video_actions_without_passcode_never_post_witness :
  CoreAPI.ScanFrontVideo fs_sample (answer mismatch_body) core_sample
    "id.jpg" "https://example.com/selfie.mp4"
  = (Done (CoreAPI.Resp.zeroResponse EmptyString,
           Some "please provide a 4 digit passcode for video biometric verification"),
     []).
Proof.
  destruct (video_actions_without_passcode_never_post fs_sample
              (answer mismatch_body) core_sample "id.jpg" EmptyString
              "https://example.com/selfie.mp4") as [[H _] _]; [discriminate|].
  reflexivity.
Defined.

(** A witness of the rejection of invalid arguments. *)
Lemma invalid_argument_rejected_witness :
  CoreAPI.scan fs_sample (answer mismatch_body) core_sample "id.jpg" EmptyString
    "nobody.jpg" EmptyString EmptyString
  = (Done (EmptyResponse, Some CoreAPI.invalid_face), []).
Proof.
  apply (invalid_argument_rejected fs_sample (answer mismatch_body) core_sample
           "id.jpg" EmptyString "nobody.jpg" EmptyString EmptyString).
  - split; [discriminate|]. exists CoreAPI.LocalFile. split; [reflexivity|discriminate].
  - by left.
  - split; [discriminate|reflexivity].
Defined.

(** ** Received responses *)




(** ** The typed vault *)



(** X10.  The typed vault actions check their arguments before anything
    else: an empty entry or image identifier, more than five filters,
    or an image type other than 0 and 1 gives the error of the check,
    a zero response, and no request. *)
Theorem vault_validation_posts_nothing (fs : os.FS)
    (post : Transport (gmap string value)) (v : VaultAPI.VaultAPI) :
  VaultAPI.Get post v EmptyString
  = (Done (VaultAPI.Item.zero, Some "vault entry ID required"), [])
  /\ VaultAPI.Delete post v EmptyString
     = (Done (VaultAPI.Success.zero, Some "vault entry ID required"), [])
  /\ (forall members,
        VaultAPI.Update post v {| VaultAPI.ID := EmptyString; VaultAPI.members := members |}
        = (Done (VaultAPI.Success.zero, Some "vault entry ID required"), []))
  /\ (forall image_id,
        VaultAPI.DeleteImage post v EmptyString image_id
        = (Done (VaultAPI.Success.zero, Some "vault entry ID required"), []))
  /\ (forall vault_id, vault_id <> EmptyString ->
        VaultAPI.DeleteImage post v vault_id EmptyString
        = (Done (VaultAPI.Success.zero, Some "image ID required"), []))
  /\ (forall image image_type,
        VaultAPI.AddImage fs post v EmptyString image image_type
        = (Done (VaultAPI.Image.zero, Some "vault entry ID required"), []))
  /\ (forall vault_id image image_type, vault_id <> EmptyString ->
        (1 < image_type)%N ->
        VaultAPI.AddImage fs post v vault_id image image_type
        = (Done (VaultAPI.Image.zero, Some "invalid image type, 0 or 1 accepted"), []))
  /\ (forall filter orderby sort limit offset, (5 < length filter)%nat ->
        VaultAPI.List post v filter orderby sort limit offset
        = (Done (VaultAPI.Listing.zero,
                 Some "filter should be an array containing maximum of 5 filter statements"),
           [])).
Proof.
  repeat split; try reflexivity.
  - intros vault_id Hv. unfold VaultAPI.DeleteImage.
    by rewrite eqb_empty_false.
  - intros vault_id image image_type Hv Ht. unfold VaultAPI.AddImage.
    rewrite eqb_empty_false by done.
    destruct (N.eqb_spec image_type 0); [lia|].
    destruct (N.eqb_spec image_type 1); [lia|]. reflexivity.
  - intros filter orderby sort limit offset Hf. unfold VaultAPI.List.
    by apply Nat.ltb_lt in Hf as ->.
Qed.

Lemma vault_validation_posts_nothing_witness :
  VaultAPI.List (answer JNull)
    {| VaultAPI.apiKey := "key"; VaultAPI.apiEndpoint := "https://api.idanalyzer.com/vault" |}
    ["a"; "b"; "c"; "d"; "e"; "f"] "createtime" "ASC" 10 0
  = (Done (VaultAPI.Listing.zero,
           Some "filter should be an array containing maximum of 5 filter statements"),
     []).
Proof.
  apply (vault_validation_posts_nothing fs_empty (answer JNull)
           {| VaultAPI.apiKey := "key";
              VaultAPI.apiEndpoint := "https://api.idanalyzer.com/vault" |}).
  cbn. lia.
Defined.

(** ** The map-based vault *)

Lemma literal_keeps (members : list (string * value))
    (store : gmap positive (gmap string value)) (l : positive)
    (m : gmap string value) :
  store !! l = Some m ->
  (VaultMapAPI.literal members store).1 <> l
  /\ (VaultMapAPI.literal members store).2 !! l = Some m.
Proof.
  intros Hm. unfold VaultMapAPI.literal. cbn.
  assert (fresh (dom store) <> l) as Hne.
  { intros Heq. apply (is_fresh (dom store)). rewrite Heq.
    apply elem_of_dom. eauto. }
  split; [exact Hne|]. by rewrite lookup_insert_ne.
Qed.

Lemma callAPI_keeps (Errorf : option json -> option json -> error)
    (post : Transport (gmap string value)) (v : VaultMapAPI.VaultAPI)
    (action : string) (l0 l : positive)
    (store : gmap positive (gmap string value)) :
  l0 <> l ->
  (VaultMapAPI.callAPI Errorf post v action (Some l0) store).1.1 !! l = store !! l.
Proof. intros H. rewrite callAPI_store. by rewrite !assign_other. Qed.

(** X11.  Apart from [Update], the actions of the map-based vault build
    their request in a map of their own: every map the caller holds is
    after the call what it was before. *)
Theorem vault_map_actions_keep_caller_maps
    (Errorf : option json -> option json -> error) (fs : os.FS)
    (post : Transport (gmap string value)) (v : VaultMapAPI.VaultAPI)
    (store : gmap positive (gmap string value)) (l : positive)
    (m : gmap string value) :
  store !! l = Some m ->
  (forall vault_id,
     (VaultMapAPI.Get Errorf post v vault_id store).1.1 !! l = Some m)
  /\ (forall filter orderby sort limit offset,
        (VaultMapAPI.List Errorf post v filter orderby sort limit offset store).1.1
          !! l = Some m)
  /\ (forall vault_id,
        (VaultMapAPI.Delete Errorf post v vault_id store).1.1 !! l = Some m)
  /\ (forall vault_id image image_type,
        (VaultMapAPI.AddImage Errorf fs post v vault_id image image_type store).1.1
          !! l = Some m)
  /\ (forall vault_id image_id,
        (VaultMapAPI.DeleteImage Errorf post v vault_id image_id store).1.1 !! l
        = Some m)
  /\ (forall image maxEntry threshold,
        (VaultMapAPI.SearchFace Errorf fs post v image maxEntry threshold store).1.1
          !! l = Some m)
  /\ (VaultMapAPI.TrainFace Errorf post v store).1.1 !! l = Some m
  /\ (VaultMapAPI.TrainingStatus Errorf post v store).1.1 !! l = Some m.
Proof.
  intros Hm.
  assert (forall members action,
            (let '(l0, store0) := VaultMapAPI.literal members store in
             VaultMapAPI.callAPI Errorf post v action (Some l0) store0).1.1 !! l
            = Some m) as Hlit.
  { intros members action.
    destruct (literal_keeps members store l m Hm) as [Hne Hl].
    destruct (VaultMapAPI.literal members store) as [l0 store0].
    cbn in Hne, Hl. by rewrite callAPI_keeps. }
  assert (forall members action image,
            (let '(l0, store0) := VaultMapAPI.literal members store in
             match VaultMapAPI.image_member fs image with
             | Panic reason => (store0, Panic reason, [])
             | Done None =>
                 (store0, Done (Some ∅, Some VaultMapAPI.invalid_image), [])
             | Done (Some (k, x)) =>
                 VaultMapAPI.callAPI Errorf post v action (Some l0)
                   (VaultMapAPI.assign l0 k x store0)
             end).1.1 !! l = Some m) as Himg.
  { intros members action image.
    destruct (literal_keeps members store l m Hm) as [Hne Hl].
    destruct (VaultMapAPI.literal members store) as [l0 store0].
    cbn in Hne, Hl.
    destruct (VaultMapAPI.image_member fs image) as [[[k x]|]|];
      [|exact Hl|exact Hl].
    rewrite callAPI_keeps by done. by rewrite assign_other. }
  repeat split.
  - intros vault_id. unfold VaultMapAPI.Get.
    destruct (String.eqb vault_id EmptyString); [done|apply Hlit].
  - intros filter orderby sort limit offset. unfold VaultMapAPI.List.
    destruct (Nat.ltb 5 (length filter)); [done|apply Hlit].
  - intros vault_id. unfold VaultMapAPI.Delete.
    destruct (String.eqb vault_id EmptyString); [done|apply Hlit].
  - intros vault_id image image_type. unfold VaultMapAPI.AddImage.
    destruct (String.eqb vault_id EmptyString); [done|].
    destruct (negb (image_type =? 0)%N && negb (image_type =? 1)%N); [done|].
    apply Himg.
  - intros vault_id image_id. unfold VaultMapAPI.DeleteImage.
    destruct (String.eqb vault_id EmptyString); [done|].
    destruct (String.eqb image_id EmptyString); [done|apply Hlit].
  - intros image maxEntry threshold. apply Himg.
  - apply Hlit.
  - apply Hlit.
Qed.

Lemma vault_map_actions_keep_caller_maps_witness :
  (VaultMapAPI.Get Errorf_sample (answer JNull) vault_sample "abc" caller_store).1.1
    !! 1%positive = Some caller_map.
Proof.
  apply (vault_map_actions_keep_caller_maps Errorf_sample fs_empty (answer JNull)
           vault_sample caller_store 1%positive caller_map).
  apply lookup_singleton_eq.
Defined.

(** X12.  [Update] with an empty identifier, a nil map or an empty map
    returns the error of the check, leaves the store as it was and posts
    nothing. *)
Theorem vault_map_Update_rejects
    (Errorf : option json -> option json -> error)
    (post : Transport (gmap string value)) (v : VaultMapAPI.VaultAPI)
    (vault_id : string) (data : option positive)
    (store : gmap positive (gmap string value)) :
  vault_id = EmptyString
  \/ data = None
  \/ (exists l, data = Some l /\ store !! l = Some ∅) ->
  exists e,
    VaultMapAPI.Update Errorf post v vault_id data store
    = (store, Done (None, Some e), [])
    /\ (e = "vault entry ID required" \/ e = "data required").
Proof.
  intros H. unfold VaultMapAPI.Update.
  destruct (String.eqb_spec vault_id EmptyString) as [|Hv]; [eauto|].
  destruct H as [H|[->|(l & -> & Hl)]]; [done|eauto|].
  unfold VaultMapAPI.map_len. rewrite Hl. cbn. eauto.
Qed.

Lemma vault_map_Update_rejects_witness :
  VaultMapAPI.Update Errorf_sample (answer JNull) vault_sample "abc" None caller_store
  = (caller_store, Done (None, Some "data required"), []).
Proof.
  destruct (vault_map_Update_rejects Errorf_sample (answer JNull) vault_sample
              "abc" None caller_store) as (e & H & _); [auto|].
  reflexivity.
Defined.

Lemma callAPI_sent (Errorf : option json -> option json -> error)
    (post : Transport (gmap string value)) (v : VaultMapAPI.VaultAPI)
    (action : string) (l : positive)
    (store : gmap positive (gmap string value)) (m : gmap string value)
    (body : option json) :
  store !! l = Some m ->
  post (VaultMapAPI.apiEndpoint v +:+ "/" +:+ action)
    (<["client" := VString "go-sdk"]>
       (<["apikey" := VString (VaultMapAPI.apiKey v)]> m)) = inr body ->
  (VaultMapAPI.callAPI Errorf post v action (Some l) store).1.2
  = VaultMapAPI.inspect Errorf (VaultMapAPI.decode_response body).
Proof.
  intros Hm Hp. unfold VaultMapAPI.callAPI. cbn zeta.
  rewrite (assign_lookup _ _ _ _ _ (assign_lookup _ _ _ _ _ Hm)). cbn.
  by rewrite Hp.
Qed.

(** X13.  What the map-based [callAPI] makes of a response that is a
    JSON object.  Without an "error" member the call succeeds.  An
    "error" member that is not an object (a string, a number, null)
    makes the call panic.  An "error" object is reported as an error
    unless its "message" is the empty string: an error object with no
    message at all is reported. *)
Theorem vault_map_error_member_decides
    (Errorf : option json -> option json -> error)
    (post : Transport (gmap string value)) (v : VaultMapAPI.VaultAPI)
    (action : string) (l : positive)
    (store : gmap positive (gmap string value)) (m : gmap string value)
    (members : list (string * json)) :
  store !! l = Some m ->
  post (VaultMapAPI.apiEndpoint v +:+ "/" +:+ action)
    (<["client" := VString "go-sdk"]>
       (<["apikey" := VString (VaultMapAPI.apiKey v)]> m))
  = inr (Some (JObj members)) ->
  let outcome := (VaultMapAPI.callAPI Errorf post v action (Some l) store).1.2 in
  let result := VaultMapAPI.decode_response (Some (JObj members)) in
  (VaultMapAPI.member_of (JObj members) "error" = None ->
   outcome = Done (result, None))
  /\ (forall e, VaultMapAPI.member_of (JObj members) "error" = Some e ->
                (forall ms, e <> JObj ms) ->
                exists reason, outcome = Panic reason)
  /\ (forall ms, VaultMapAPI.member_of (JObj members) "error" = Some (JObj ms) ->
        VaultMapAPI.member_of (JObj ms) "message" = Some (JStr EmptyString) ->
        outcome = Done (result, None))
  /\ (forall ms, VaultMapAPI.member_of (JObj members) "error" = Some (JObj ms) ->
        VaultMapAPI.member_of (JObj ms) "message" <> Some (JStr EmptyString) ->
        outcome
        = Done (result,
                Some (Errorf (VaultMapAPI.member_of (JObj ms) "code")
                        (VaultMapAPI.member_of (JObj ms) "message")))).
Proof.
  intros Hm Hp outcome result. subst outcome.
  rewrite (callAPI_sent _ _ _ _ _ _ _ _ Hm Hp). fold result.
  unfold VaultMapAPI.inspect.
  change (result ≫= (.!! "error"))
    with (VaultMapAPI.member_of (JObj members) "error").
  repeat split.
  - by intros ->.
  - intros e -> He. destruct e; eauto. by destruct (He members0).
  - intros ms -> Hmsg. by rewrite Hmsg.
  - intros ms -> Hmsg.
    destruct (VaultMapAPI.member_of (JObj ms) "message") as [[]|]; try done.
    destruct s; done.
Qed.

Lemma vault_map_error_member_decides_witness :
  (VaultMapAPI.Delete Errorf_sample
     (answer (JObj [("error", JObj [("code", JNum "14")])]))
     vault_sample "abc" caller_store).1.2
  = Done (Some {[ "error" := JObj [("code", JNum "14")] ]},
          Some (Errorf_sample (Some (JNum "14")) None)).
Proof.
  pose proof (vault_map_error_member_decides Errorf_sample
                (answer (JObj [("error", JObj [("code", JNum "14")])]))
                vault_sample "delete" (fresh (dom caller_store))
                (<[fresh (dom caller_store) := list_to_map [("id", VString "abc")]]>
                   caller_store)
                (list_to_map [("id", VString "abc")])
                [("error", JObj [("code", JNum "14")])]
                (lookup_insert_eq _ _ _) eq_refl) as (_ & _ & _ & H).
  apply (H [("code", JNum "14")]); [reflexivity|discriminate].
Defined.

(** ** The AML façade *)

Lemma aml_call_keeps (a a' : AMLAPI.AMLAPI) :
  aml_call a a' ->
  AMLAPI.apiKey a' = AMLAPI.apiKey a
  /\ AMLAPI.apiEndpoint a' = AMLAPI.apiEndpoint a
  /\ (AMLAPI.amlEntityType a' = AMLAPI.amlEntityType a
      \/ AMLAPI.amlEntityType a' = "person"
      \/ AMLAPI.amlEntityType a' = "legalentity"
      \/ AMLAPI.amlEntityType a' = EmptyString).
Proof.
  intros [a0 s|a0 s]; cbn; [auto|].
  unfold AMLAPI.SetEntityType.
  destruct (String.eqb_spec s "person") as [->|]; cbn; [auto|].
  destruct (String.eqb_spec s "legalentity") as [->|]; cbn; [auto 6|].
  destruct (String.eqb_spec s EmptyString) as [->|]; cbn; auto 6.
Qed.

(** X14.  Whatever setters were called on a new AML façade, a search
    posts exactly one request, to the endpoint of the constructor's
    region; the request carries the constructor's API key, the client
    identifier and an entity type that is empty, "person" or
    "legalentity", and never both a name and a document number.  A
    transport failure is returned as a connection error with an empty
    response; a delivered response is decoded and returned with a nil
    error, whatever it holds. *)
Theorem aml_search_posts_stamped_request (post : Transport AMLAPI.amlRequest)
    (apiKey region : string) (a : AMLAPI.AMLAPI) (q : aml_search) :
  apiKey <> EmptyString ->
  rtc aml_call (AMLAPI.NewAMLAPI apiKey region).1 a ->
  exists request,
    (aml_run post a q).2 = [(endpointFromRegion region "aml", request)]
    /\ AMLAPI.Req.ApiKey request = apiKey
    /\ AMLAPI.Req.Client request = "go-sdk"
    /\ AMLAPI.Req.Database request = AMLAPI.amlDatabases a
    /\ (AMLAPI.Req.Entity request = EmptyString
        \/ AMLAPI.Req.Entity request = "person"
        \/ AMLAPI.Req.Entity request = "legalentity")
    /\ (AMLAPI.Req.Name request = EmptyString
        \/ AMLAPI.Req.DocumentNumber request = EmptyString)
    /\ (forall err, post (endpointFromRegion region "aml") request = inl err ->
          (aml_run post a q).1 = (AMLAPI.zeroAMLResponse, Some (connect_error err)))
    /\ (forall body, post (endpointFromRegion region "aml") request = inr body ->
          (aml_run post a q).1
          = (Unmarshal AMLAPI.decode_member body AMLAPI.zeroAMLResponse, None)).
Proof.
  intros Hk Hr.
  assert (AMLAPI.apiKey a = apiKey
          /\ AMLAPI.apiEndpoint a = endpointFromRegion region "aml"
          /\ (AMLAPI.amlEntityType a = EmptyString
              \/ AMLAPI.amlEntityType a = "person"
              \/ AMLAPI.amlEntityType a = "legalentity")) as (Ha & He & Ht).
  { revert a Hr. apply rtc_ind_r; [|intros a0 a1 _ Hstep (Ha & He & Ht)].
    - unfold AMLAPI.NewAMLAPI. rewrite eqb_empty_false by done. cbn. auto.
    - destruct (aml_call_keeps a0 a1 Hstep) as (-> & -> & Ht').
      repeat split; try done.
      destruct Ht' as [->|[->|[->| ->]]]; auto. }
  destruct q as [name country dob|number country dob]; cbn;
    unfold AMLAPI.SearchByName, AMLAPI.SearchByIDNumber, AMLAPI.callAPI; cbn;
    rewrite He, Ha; eexists; (split; [reflexivity|]); cbn;
    (repeat split; try done; auto); by intros ? ->.
Qed.

Lemma aml_search_posts_stamped_request_witness :
  exists request,
    (AMLAPI.SearchByName (answer JNull)
       (AMLAPI.SetEntityType
          (AMLAPI.SetAMLDatabase (AMLAPI.NewAMLAPI "key" "eu").1 "un_sc")
          "company").1
       "Lena" "DE" EmptyString).2
    = [("https://api-eu.idanalyzer.com/aml", request)]
    /\ AMLAPI.Req.Entity request = EmptyString
    /\ AMLAPI.Req.Database request = "un_sc".
Proof.
  destruct (aml_search_posts_stamped_request (answer JNull) "key" "eu"
              (AMLAPI.SetEntityType
                 (AMLAPI.SetAMLDatabase (AMLAPI.NewAMLAPI "key" "eu").1 "un_sc")
                 "company").1
              (ByName "Lena" "DE" EmptyString))
    as (request & H & _).
  - discriminate.
  - eapply rtc_l; [apply call_aml_SetAMLDatabase|].
    eapply rtc_l; [apply call_aml_SetEntityType|]. apply rtc_refl.
  - exists request. split; [exact H|].
    cbn in H. injection H as <-. split; reflexivity.
Defined.

(** ** Private addresses *)

Lemma bytes_eqb_cons (x y : N) (xs ys : list N) :
  net.bytes_eqb (x :: xs) (y :: ys) = (x =? y)%N && net.bytes_eqb xs ys.
Proof.
  unfold net.bytes_eqb.
  destruct (N.eqb_spec x y) as [->|Hne]; cbn.
  - apply bool_decide_ext. split; congruence.
  - apply bool_decide_eq_false. congruence.
Qed.

(** An IPv4 network contains an IPv4 address when they agree under the
    mask, byte by byte. *)
Lemma Contains_v4 (n0 n1 n2 n3 m0 m1 m2 m3 a b c d : N) :
  net.Contains {| net.NetIP := [n0; n1; n2; n3]; net.Mask := [m0; m1; m2; m3] |}
    (net.IPv4 a b c d)
  = (N.land n0 m0 =? N.land a m0)%N
    && ((N.land n1 m1 =? N.land b m1)%N
        && ((N.land n2 m2 =? N.land c m2)%N
            && (N.land n3 m3 =? N.land d m3)%N)).
Proof.
  unfold net.Contains, net.networkNumberAndMask, net.To4. cbn -[N.land].
  rewrite !bytes_eqb_cons. by rewrite andb_true_r.
Qed.

Lemma land_byte (a : N) : (a < 256)%N -> N.land a 255 = a.
Proof.
  intros H. change 255%N with (N.ones 8). rewrite N.land_ones.
  apply N.mod_small. exact H.
Qed.

Lemma land_240 (b : N) :
  (b < 256)%N -> N.land b 240 = 16%N <-> (16 <= b < 32)%N.
Proof.
  intros H.
  assert (forallb (fun n => Bool.eqb (N.land n 240 =? 16)%N
                              ((16 <=? n)%N && (n <? 32)%N))
            (map N.of_nat (seq 0 256)) = true) as Hall by (vm_compute; reflexivity).
  rewrite forallb_forall in Hall. specialize (Hall b).
  rewrite <- N.eqb_eq.
  assert (In b (map N.of_nat (seq 0 256))) as Hin.
  { apply in_map_iff. exists (N.to_nat b). split; [lia|]. apply in_seq. lia. }
  apply Hall in Hin. apply eqb_prop in Hin. rewrite Hin.
  rewrite andb_true_iff, N.leb_le, N.ltb_lt. reflexivity.
Qed.

(** X15.  Which IPv4 addresses [isPrivateIP] calls private.  Where
    net.IP has no IsPrivate method, the answer comes from the three
    standard-library tests and the parsed blocks: loopback 127/8,
    link-local 169.254/16, link-local multicast 224.0.0/24 and the three
    RFC 1918 ranges.  Where it has the method, the method's answer is
    returned alone: the RFC 1918 ranges, and neither loopback nor
    link-local. *)
Theorem isPrivateIP_IPv4_ranges (a b c d : N) :
  (a < 256)%N -> (b < 256)%N -> (c < 256)%N -> (d < 256)%N ->
  (isPrivateIP false (net.IPv4 a b c d) = true <-> local_v4 a b c \/ rfc1918 a b)
  /\ (isPrivateIP true (net.IPv4 a b c d) = true <-> rfc1918 a b).
Proof.
  intros Ha Hb Hc Hd. unfold isPrivateIP, local_v4, rfc1918.
  replace privateIPBlocks
    with ltac:(let v := eval vm_compute in privateIPBlocks in exact v)
    by (vm_compute; reflexivity).
  unfold existsb. rewrite !Contains_v4.
  repeat match goal with
  | |- context [net.Contains ?blk (net.IPv4 a b c d)] =>
      change (net.Contains blk (net.IPv4 a b c d)) with false
  end.
  change (net.IsLoopback (net.IPv4 a b c d)) with (a =? 127)%N.
  change (net.IsLinkLocalUnicast (net.IPv4 a b c d))
    with ((a =? 169)%N && (b =? 254)%N).
  change (net.IsLinkLocalMulticast (net.IPv4 a b c d))
    with ((a =? 224)%N && (b =? 0)%N && (c =? 0)%N).
  change (net.IsPrivate (net.IPv4 a b c d))
    with ((a =? 10)%N || ((a =? 172)%N && (N.land b 240 =? 16)%N)
          || ((a =? 192)%N && (b =? 168)%N)).
  rewrite !N.land_0_r, !(land_byte a), !(land_byte b) by assumption.
  change (N.land 127 255) with 127%N. change (N.land 10 255) with 10%N.
  change (N.land 172 255) with 172%N. change (N.land 192 255) with 192%N.
  change (N.land 169 255) with 169%N. change (N.land 168 255) with 168%N.
  change (N.land 254 255) with 254%N. change (N.land 16 240) with 16%N.
  pose proof (land_240 b Hb) as H240.
  split.
  - match goal with
    | |- (if ?x then true else ?y) = true <-> _ =>
        replace (if x then true else y) with (x || y) by (by destruct x)
    end.
    rewrite !orb_true_iff, !andb_true_iff, !N.eqb_eq. intuition lia.
  - rewrite !orb_true_iff, !andb_true_iff, !N.eqb_eq. intuition lia.
Qed.

Lemma isPrivateIP_IPv4_ranges_witness :
  isPrivateIP false (net.IPv4 172 20 1 1) = true
  /\ isPrivateIP true (net.IPv4 169 254 169 254) = false.
Proof.
  split.
  - apply (isPrivateIP_IPv4_ranges 172 20 1 1); [lia..|].
    unfold local_v4, rfc1918. lia.
  - destruct (isPrivateIP true (net.IPv4 169 254 169 254)) eqn:H; [|reflexivity].
    apply (isPrivateIP_IPv4_ranges 169 254 169 254) in H; [|lia..].
    unfold rfc1918 in H. lia.
Defined.

(** ** The QR code format *)

Lemma unhex_below_16 (c : ascii) : (url.unhex c < 16)%N.
Proof.
  destruct c as [[] [] [] [] [] [] [] []]; vm_compute; reflexivity.
Qed.

Lemma hex_fold_bound (l : list ascii) (n : N) (k : nat) :
  (n < 16 ^ N.of_nat k)%N ->
  (fold_left (fun n c => (n * 16 + url.unhex c)%N) l n
   < 16 ^ N.of_nat (k + length l))%N.
Proof.
  revert n k. induction l as [|c l IH]; intros n k Hn; cbn [fold_left length].
  - by rewrite Nat.add_0_r.
  - replace (k + S (length l))%nat with (S k + length l)%nat by lia.
    apply IH. pose proof (unhex_below_16 c).
    rewrite Nat2N.inj_succ, N.pow_succ_r'. nia.
Qed.

Lemma length_list_ascii (s : string) :
  length (list_ascii_of_string s) = String.length s.
Proof. induction s as [|c s IH]; cbn; [done|by rewrite IH]. Qed.

Lemma hex6_accepted (s : string) :
  hex6 s -> negb (strconv.ParseUint_hex_ok s) || negb (strlen s =? 6)%N = false.
Proof.
  intros [Hl Hh]. unfold strconv.ParseUint_hex_ok, strlen.
  rewrite Hl, Hh. cbn [N.of_nat]. change (N.pos (Pos.of_succ_nat 5) =? 6)%N with true.
  cbn [negb orb andb]. rewrite orb_false_r, negb_false_iff, !andb_true_iff.
  repeat split.
  - apply negb_true_iff. apply String.eqb_neq. intros ->. discriminate.
  - apply N.ltb_lt. unfold strconv.hex_value.
    pose proof (hex_fold_bound (list_ascii_of_string s) 0 0 ltac:(cbn; lia)) as H.
    rewrite length_list_ascii, Hl in H.
    eapply N.lt_trans; [exact H|]. vm_compute. reflexivity.
Qed.

(** X16.  [SetQRCodeFormat] accepts its arguments exactly when both
    colours are six hexadecimal digits (no sign, no prefix) and size and
    margin are between 1 and 50; it then stores the four values and
    nothing else, and otherwise leaves the façade as it was. *)
Theorem SetQRCodeFormat_accepts_iff (d : DocuPassAPI.DocuPassAPI)
    (fore back : string) (size margin : N) :
  ((DocuPassAPI.SetQRCodeFormat d fore back size margin).2 = None <->
   hex6 fore /\ hex6 back /\ (1 <= size <= 50)%N /\ (1 <= margin <= 50)%N)
  /\ ((DocuPassAPI.SetQRCodeFormat d fore back size margin).2 = None ->
      (DocuPassAPI.SetQRCodeFormat d fore back size margin).1
      = DocuPassAPI.with_config
          (fun cfg => DocuPassAPI.set_qrMargin margin
                        (DocuPassAPI.set_qrSize size
                           (DocuPassAPI.set_qrBgColor back
                              (DocuPassAPI.set_qrColor fore cfg)))) d)
  /\ ((DocuPassAPI.SetQRCodeFormat d fore back size margin).2 <> None ->
      (DocuPassAPI.SetQRCodeFormat d fore back size margin).1 = d).
Proof.
  unfold DocuPassAPI.SetQRCodeFormat.
  destruct (negb (strconv.ParseUint_hex_ok fore) || negb (strlen fore =? 6)%N)
    eqn:Hf.
  { cbn. repeat split; try done.
    intros (H & _). apply hex6_accepted in H. congruence. }
  destruct (negb (strconv.ParseUint_hex_ok back) || negb (strlen back =? 6)%N)
    eqn:Hb.
  { cbn. repeat split; try done.
    intros (_ & H & _). apply hex6_accepted in H. congruence. }
  apply hex6_checked in Hf, Hb.
  destruct (N.ltb_spec size 1); cbn [orb].
  { cbn. repeat split; try done. lia. }
  destruct (N.ltb_spec 50 size); cbn [orb].
  { cbn. repeat split; try done. lia. }
  destruct (N.ltb_spec margin 1); cbn [orb].
  { cbn. repeat split; try done. lia. }
  destruct (N.ltb_spec 50 margin); cbn [orb].
  { cbn. repeat split; try done. lia. }
  cbn [fst snd]. split; [|split].
  - split; [intros _|done]. split; [exact Hf|]. split; [exact Hb|lia].
  - intros _. by destruct d.
  - done.
Qed.

Lemma SetQRCodeFormat_accepts_iff_witness :
  (DocuPassAPI.SetQRCodeFormat
     (DocuPassAPI.NewDocuPassAPI "key" "ACME" EmptyString).1
     "00ff7F" "FFFFFF" 5 1).2 = None
  /\ (DocuPassAPI.SetQRCodeFormat
        (DocuPassAPI.NewDocuPassAPI "key" "ACME" EmptyString).1
        "+00ff7" "FFFFFF" 5 1).2 <> None.
Proof.
  split.
  - apply (SetQRCodeFormat_accepts_iff
             (DocuPassAPI.NewDocuPassAPI "key" "ACME" EmptyString).1
             "00ff7F" "FFFFFF" 5 1).
    unfold hex6. repeat split; try reflexivity; lia.
  - intros H.
    destruct (SetQRCodeFormat_accepts_iff
                (DocuPassAPI.NewDocuPassAPI "key" "ACME" EmptyString).1
                "+00ff7" "FFFFFF" 5 1) as ((Hiff & _) & _).
    apply Hiff in H. destruct H as ([_ H] & _). discriminate H.
Defined.

(** ** The image of a vault request *)

(** X17.  A request that the typed [AddImage] or [SearchFace] posts
    holds the image under exactly one of the keys "imageurl" and
    "image": the argument itself under "imageurl" when it parses as a
    request URI; otherwise under "image" the base64 text of the file of
    that name, or, when there is no such file and the argument is longer
    than 100 bytes, the argument itself. *)
Theorem vault_image_sent_under_one_key (fs : os.FS)
    (post : Transport (gmap string value)) (v : VaultAPI.VaultAPI)
    (vault_id image : string) (image_type maxEntry : N) (threshold : float32)
    (target : string) (payload : gmap string value) :
  (target, payload) ∈ (VaultAPI.AddImage fs post v vault_id image image_type).2
  \/ (target, payload) ∈ (VaultAPI.SearchFace fs post v image maxEntry threshold).2 ->
  (is_Some (url.ParseRequestURI image)
   /\ payload !! "imageurl" = Some (VString image)
   /\ payload !! "image" = None)
  \/ (url.ParseRequestURI image = None
      /\ payload !! "imageurl" = None
      /\ ((fileExists fs image = Done true
           /\ payload !! "image" = Some (VString (base64File fs image)))
          \/ (fileExists fs image = Done false
              /\ (100 < strlen image)%N
              /\ payload !! "image" = Some (VString image)))).
Proof.
  assert (forall action items (zero : nat) member,
            (forall k x, (k, x) ∈ items -> k <> "image" /\ k <> "imageurl") ->
            (target, payload)
              ∈ (match VaultAPI.image_member fs image with
                 | Panic reason => (Panic reason, [])
                 | Done None => (Done (zero, Some EmptyString), [])
                 | Done (Some kv) =>
                     VaultAPI.callAPI member post v action
                       (VMap (items ++ [kv])) zero
                 end).2 ->
            (is_Some (url.ParseRequestURI image)
             /\ payload !! "imageurl" = Some (VString image)
             /\ payload !! "image" = None)
            \/ (url.ParseRequestURI image = None
                /\ payload !! "imageurl" = None
                /\ ((fileExists fs image = Done true
                     /\ payload !! "image" = Some (VString (base64File fs image)))
                    \/ (fileExists fs image = Done false
                        /\ (100 < strlen image)%N
                        /\ payload !! "image" = Some (VString image))))) as Hgen.
  { intros action items zero member Hitems.
    assert (forall k, (k = "image" \/ k = "imageurl") ->
                      forall kv, (<["client" := VString "go-sdk"]>
                                    (<["apikey" := VString (VaultAPI.apiKey v)]>
                                       (list_to_map (items ++ [kv])))
                                  : gmap string value) !! k
                                 = if String.eqb kv.1 k then Some kv.2 else None)
      as Hlook.
    { intros k Hk [k0 x0]. cbn [fst snd].
      rewrite !lookup_insert_ne by (destruct Hk as [-> | ->]; done).
      rewrite list_to_map_app, lookup_union_r.
      - cbn. destruct (String.eqb_spec k0 k) as [->|Hne].
        + apply lookup_insert_eq.
        + by rewrite lookup_insert_ne.
      - apply not_elem_of_list_to_map_1. intros Hin.
        apply list_elem_of_fmap in Hin as [[k1 x1] [Heq Hin]].
        cbn in Heq. subst k1.
        apply Hitems in Hin. destruct Hk as [-> | ->]; tauto. }
    unfold VaultAPI.image_member.
    destruct (url.ParseRequestURI image) as [u|] eqn:Hu.
    - unfold VaultAPI.callAPI. cbn. intros Hin.
      apply list_elem_of_singleton in Hin. injection Hin as -> ->.
      left. split; [eauto|].
      rewrite (Hlook "imageurl" (or_intror eq_refl) ("imageurl", VString image)).
      rewrite (Hlook "image" (or_introl eq_refl) ("imageurl", VString image)).
      done.
    - destruct (fileExists fs image) as [[]|reason] eqn:Hf; cbn.
      + unfold VaultAPI.callAPI. cbn. intros Hin.
        apply list_elem_of_singleton in Hin. injection Hin as -> ->.
        right. split; [done|].
        rewrite (Hlook "imageurl" (or_intror eq_refl)
                   ("image", VString (base64File fs image))).
        rewrite (Hlook "image" (or_introl eq_refl)
                   ("image", VString (base64File fs image))).
        auto.
      + destruct (N.ltb_spec 100 (strlen image)) as [Hlen|Hlen]; cbn.
        * unfold VaultAPI.callAPI. cbn. intros Hin.
          apply list_elem_of_singleton in Hin. injection Hin as -> ->.
          right. split; [done|].
          rewrite (Hlook "imageurl" (or_intror eq_refl) ("image", VString image)).
          rewrite (Hlook "image" (or_introl eq_refl) ("image", VString image)).
          auto.
        * intros Hin. by apply elem_of_nil in Hin.
      + intros Hin. by apply elem_of_nil in Hin. }
  intros [H|H].
  - unfold VaultAPI.AddImage in H.
    destruct (String.eqb vault_id EmptyString); [by apply elem_of_nil in H|].
    destruct (negb (image_type =? 0)%N && negb (image_type =? 1)%N);
      [by apply elem_of_nil in H|].
    apply (Hgen "addimage" [("id", VString vault_id); ("type", VUint image_type)]
             O (fun n _ => n)).
    + intros k x Hin. rewrite !elem_of_cons in Hin.
      destruct Hin as [[= -> _]|[[= -> _]|Hin]]; [done..|by apply elem_of_nil in Hin].
    + destruct (VaultAPI.image_member fs image) as [[kv|]|]; exact H.
  - unfold VaultAPI.SearchFace in H.
    apply (Hgen "searchface"
             [("maxentry", VUint maxEntry); ("threshold", VFloat32 threshold)]
             O (fun n _ => n)).
    + intros k x Hin. rewrite !elem_of_cons in Hin.
      destruct Hin as [[= -> _]|[[= -> _]|Hin]]; [done..|by apply elem_of_nil in Hin].
    + destruct (VaultAPI.image_member fs image) as [[kv|]|]; exact H.
Qed.

Lemma vault_image_sent_under_one_key_witness :
  exists payload,
    (VaultAPI.AddImage fs_sample (answer JNull)
       {| VaultAPI.apiKey := "key";
          VaultAPI.apiEndpoint := "https://api.idanalyzer.com/vault" |}
       "abc" "id.jpg" 0).2
    = [("https://api.idanalyzer.com/vault/addimage", payload)]
    /\ payload !! "image" = Some (VString "QQ==")
    /\ payload !! "imageurl" = None.
Proof.
  eexists. split; [reflexivity|].
  match goal with
  | |- ?p !! _ = _ /\ _ =>
      destruct (vault_image_sent_under_one_key fs_sample (answer JNull)
                  {| VaultAPI.apiKey := "key";
                     VaultAPI.apiEndpoint := "https://api.idanalyzer.com/vault" |}
                  "abc" "id.jpg" 0 0 f32_one
                  "https://api.idanalyzer.com/vault/addimage" p)
        as [(Hu & _)|(_ & Hurl & [(_ & Him)|(Hf & _)])]
  end.
  - left. apply list_elem_of_singleton. reflexivity.
  - destruct Hu as [u Hu]. discriminate Hu.
  - split; [exact Him|exact Hurl].
  - discriminate Hf.
Defined.

(** ** Failed setters *)

Lemma Core_setters_validate_first_witness :
  (CoreAPI.SetOCRImageResize core_sample 100).1 = core_sample
  /\ (CoreAPI.VerifyAge core_sample "18+").1 = core_sample.
Proof.
  destruct (Core_setters_validate_first core_sample) as (H1 & _ & _ & _ & H5 & _).
  split; [apply H1|apply H5]; eexists; reflexivity.
Defined.

(** X19.  The fallible setters of the hosted-session façade and of the
    AML façade leave the façade as it was when they return an error. *)
Theorem failed_setters_change_nothing (hasIsPrivate : bool)
    (d : DocuPassAPI.DocuPassAPI) (a : AMLAPI.AMLAPI) :
  (forall maxAttempt e,
     (DocuPassAPI.SetMaxAttempt d maxAttempt).2 = Some e ->
     (DocuPassAPI.SetMaxAttempt d maxAttempt).1 = d)
  /\ (forall callback e,
        (DocuPassAPI.SetCallbackUrl hasIsPrivate d callback).2 = Some e ->
        (DocuPassAPI.SetCallbackUrl hasIsPrivate d callback).1 = d)
  /\ (forall successUrl failUrl e,
        (DocuPassAPI.SetRedirectURL d successUrl failUrl).2 = Some e ->
        (DocuPassAPI.SetRedirectURL d successUrl failUrl).1 = d)
  /\ (forall enabled module minScore e,
        (DocuPassAPI.EnableAuthentication d enabled module minScore).2 = Some e ->
        (DocuPassAPI.EnableAuthentication d enabled module minScore).1 = d)
  /\ (forall enabled verificationType threshold e,
        (DocuPassAPI.EnableFaceVerification d enabled verificationType threshold).2
        = Some e ->
        (DocuPassAPI.EnableFaceVerification d enabled verificationType threshold).1
        = d)
  /\ (forall date e,
        (DocuPassAPI.VerifyDOB d date).2 = Some e ->
        (DocuPassAPI.VerifyDOB d date).1 = d)
  /\ (forall ageRange e,
        (DocuPassAPI.VerifyAge d ageRange).2 = Some e ->
        (DocuPassAPI.VerifyAge d ageRange).1 = d)
  /\ (forall templateID format prefillData e,
        (DocuPassAPI.GenerateContract d templateID format prefillData).2 = Some e ->
        (DocuPassAPI.GenerateContract d templateID format prefillData).1 = d)
  /\ (forall templateID format prefillData e,
        (DocuPassAPI.SignContract d templateID format prefillData).2 = Some e ->
        (DocuPassAPI.SignContract d templateID format prefillData).1 = d)
  /\ (forall entityType e,
        (AMLAPI.SetEntityType a entityType).2 = Some e ->
        (AMLAPI.SetEntityType a entityType).1 = a).
Proof.
  destruct (DocuPass_setters_validate_first d)
    as (H1 & H2 & H3 & H4 & H5 & _ & H7 & H8 & H9 & H10).
  repeat split; intros;
    first [ apply H1 | apply H2 | apply H3 | apply H4 | apply H5 | apply H7
          | apply H8 | apply H9 | apply H10
          | apply AML_SetEntityType_validates_first ]; eauto.
Qed.

Lemma failed_setters_change_nothing_witness :
  (DocuPassAPI.EnableAuthentication
     (DocuPassAPI.NewDocuPassAPI "key" "ACME" EmptyString).1 true "3" f32_0_6).1
  = (DocuPassAPI.NewDocuPassAPI "key" "ACME" EmptyString).1.
Proof.
  destruct (failed_setters_change_nothing false
              (DocuPassAPI.NewDocuPassAPI "key" "ACME" EmptyString).1
              (AMLAPI.NewAMLAPI "key" EmptyString).1)
    as (_ & _ & _ & H & _).
  eapply H. reflexivity.
Defined.
